(** * comfyui.py: validation recovery and job polling

    A shallow embedding of [src/comfyui_test/comfyui.py]: the parser of the
    validator's error text, the fallback patcher, the workflow sanitizer,
    the polling loop of the RunPod client and the recovery part of [main].

    Conventions.
    - A Python [str] is a [string] holding its UTF-8 encoding.  The needles
      the program searches for are ASCII or the bullet U+2022, so searching
      and splitting on bytes agrees with searching on code points.
    - Python objects are the JSON data model ([value]); a [dict] is an
      association list in insertion order whose keys are [str].  The
      payload comes from [json.loads], so it is a tree without sharing and
      an in-place update of a nested dict is a functional update at the
      same position.
    - Exceptions are values of [exn]; a call that may raise returns a
      [Result]. *)

From Stdlib Require Import String Ascii List ZArith NArith Bool Lia Floats.
From Stdlib Require Import DecimalString.
Import ListNotations.

Set Warnings "-inexact-float,-register-all".

Open Scope string_scope.
Open Scope list_scope.

(** ** Python values *)

Module Py.

Inductive value : Type :=
| VNone
| VBool (b : bool)
| VInt (z : Z)
| VFloat (f : float)
| VStr (s : string)
| VList (l : list value)
| VDict (d : list (string * value)).

Definition dict := list (string * value).

(** [d.get(k)] *)
Fixpoint dict_get {A : Type} (k : string) (d : list (string * A)) : option A :=
  match d with
  | [] => None
  | (k', v) :: r => if String.eqb k k' then Some v else dict_get k r
  end.

(** [d[k] = v]: an existing key keeps its place, a new key goes last. *)
Fixpoint dict_set {A : Type} (k : string) (v : A) (d : list (string * A))
  : list (string * A) :=
  match d with
  | [] => [(k, v)]
  | (k', v') :: r =>
      if String.eqb k k' then (k, v) :: r else (k', v') :: dict_set k v r
  end.

(** [d.pop(k, None)], result dropped. *)
Definition dict_pop {A : Type} (k : string) (d : list (string * A))
  : list (string * A) :=
  filter (fun kv => negb (String.eqb k (fst kv))) d.

(** [list(d.keys())] *)
Definition dict_keys {A : Type} (d : list (string * A)) : list string :=
  map fst d.

(** [k in d] *)
Definition dict_mem {A : Type} (k : string) (d : list (string * A)) : bool :=
  match dict_get k d with Some _ => true | None => false end.

(** [d.get(k)] as Python sees it: [None] when the key is absent. *)
Definition get_or_none (k : string) (d : dict) : value :=
  match dict_get k d with Some v => v | None => VNone end.

(** Truth value of an object, as [if x:] and [x or y] test it. *)
Definition truthy (v : value) : bool :=
  match v with
  | VNone => false
  | VBool b => b
  | VInt z => negb (Z.eqb z 0)
  | VFloat f => negb (PrimFloat.eqb f 0%float)
  | VStr s => negb (String.eqb s EmptyString)
  | VList l => match l with [] => false | _ => true end
  | VDict d => match d with [] => false | _ => true end
  end.

Definition is_dict (v : value) : bool :=
  match v with VDict _ => true | _ => false end.

Definition is_list (v : value) : bool :=
  match v with VList _ => true | _ => false end.

(** ** Exceptions *)

Inductive exn : Type :=
| AttributeError
| KeyError
| TypeError
| ValueError (msg : string)
| TimeoutError (msg : string)
| HTTPError (what : string)
| SystemExit (msg : string).

Inductive Result (A : Type) : Type :=
| Ok (a : A)
| Raise (e : exn).
Arguments Ok {A} a.
Arguments Raise {A} e.

Definition bind {A B : Type} (m : Result A) (k : A -> Result B) : Result B :=
  match m with
  | Ok a => k a
  | Raise e => Raise e
  end.

End Py.

Import Py.

Notation "x <- m ;; k" := (Py.bind m (fun x => k))
  (at level 61, m at next level, right associativity).

(** ** Strings *)

Module Str.

Local Open Scope N_scope.

Definition code (c : ascii) : N := N_of_ascii c.

Definition between (lo hi n : N) : bool := (N.leb lo n && N.leb n hi)%bool.

(** The one-byte members of [str.isspace]: U+0009..U+000D, U+001C..U+0020. *)
Definition ascii_space (c : ascii) : bool :=
  (between 9 13 (code c) || between 28 32 (code c))%bool.

(** The rest of the text after one leading whitespace character, if the
    text starts with one.  Beyond ASCII the whitespace characters are
    U+0085, U+00A0 (two bytes), U+1680, U+2000..U+200A, U+2028, U+2029,
    U+202F, U+205F and U+3000 (three bytes). *)
Definition ws_head (s : string) : option string :=
  match s with
  | EmptyString => None
  | String a r =>
      if ascii_space a then Some r else
      match r with
      | EmptyString => None
      | String b r2 =>
          if (N.eqb (code a) 194
              && (N.eqb (code b) 133 || N.eqb (code b) 160))%bool
          then Some r2 else
          match r2 with
          | EmptyString => None
          | String c r3 =>
              let three x y z :=
                (N.eqb (code a) x && N.eqb (code b) y && z (code c))%bool in
              if (three 225 154 (N.eqb 128)
                  || three 226 128 (between 128 138)
                  || three 226 128 (between 168 169)
                  || three 226 128 (N.eqb 175)
                  || three 226 129 (N.eqb 159)
                  || three 227 128 (N.eqb 128))%bool
              then Some r3 else None
          end
      end
  end.

Fixpoint lstrip_fuel (fuel : nat) (s : string) : string :=
  match fuel with
  | O => s
  | S n => match ws_head s with
           | Some r => lstrip_fuel n r
           | None => s
           end
  end.

(** [s.lstrip()], also the effect of a leading [\s*] of a pattern. *)
Definition lstrip (s : string) : string := lstrip_fuel (String.length s) s.

(** Whether [s] is made of whitespace only. *)
Definition all_space (s : string) : bool :=
  match lstrip s with EmptyString => true | _ => false end.

Fixpoint rstrip (s : string) : string :=
  match s with
  | EmptyString => EmptyString
  | String c r => if all_space s then EmptyString else String c (rstrip r)
  end.

(** [s.strip()] *)
Definition strip (s : string) : string := rstrip (lstrip s).

(** [needle in hay] *)
Fixpoint contains (needle hay : string) : bool :=
  if String.prefix needle hay then true
  else match hay with
       | EmptyString => false
       | String _ r => contains needle r
       end.

(** [s.startswith(p)] *)
Definition startswith (p s : string) : bool := String.prefix p s.

(** [s] without its prefix [p], when it has it. *)
Fixpoint drop_prefix (p s : string) : option string :=
  match p, s with
  | EmptyString, _ => Some s
  | String a p', String b s' =>
      if Ascii.eqb a b then drop_prefix p' s' else None
  | String _ _, EmptyString => None
  end.

(** The rest of the text after one leading line boundary of
    [str.splitlines]: CR LF, LF, CR, VT, FF, FS, GS, RS, U+0085, U+2028,
    U+2029. *)
Definition linebreak_head (s : string) : option string :=
  match s with
  | EmptyString => None
  | String a r =>
      if N.eqb (code a) 13 then
        match r with
        | String b r2 => if N.eqb (code b) 10 then Some r2 else Some r
        | EmptyString => Some r
        end
      else if (between 10 12 (code a) || between 28 30 (code a))%bool
      then Some r else
      match r with
      | EmptyString => None
      | String b r2 =>
          if (N.eqb (code a) 194 && N.eqb (code b) 133)%bool then Some r2 else
          match r2 with
          | EmptyString => None
          | String c r3 =>
              if (N.eqb (code a) 226 && N.eqb (code b) 128
                  && between 168 169 (code c))%bool
              then Some r3 else None
          end
      end
  end.

Fixpoint splitlines_from (fuel : nat) (cur s : string) : list string :=
  match fuel with
  | O => []
  | S n =>
      match s with
      | EmptyString =>
          match cur with EmptyString => [] | _ => [cur] end
      | String c r =>
          match linebreak_head s with
          | Some rest => cur :: splitlines_from n EmptyString rest
          | None => splitlines_from n (cur ++ String c EmptyString) r
          end
      end
  end.

(** [s.splitlines()] *)
Definition splitlines (s : string) : list string :=
  splitlines_from (S (String.length s)) EmptyString s.

(** The longest prefix of bytes satisfying [p], and the rest. *)
Fixpoint span (p : ascii -> bool) (s : string) : string * string :=
  match s with
  | EmptyString => (EmptyString, EmptyString)
  | String c r =>
      if p c then let (a, b) := span p r in (String c a, b)
      else (EmptyString, s)
  end.

Definition nl : string := String "010"%char EmptyString.

Definition is_empty (s : string) : bool :=
  match s with EmptyString => true | _ => false end.

(** Decimal text of an integer, as [str(n)] and an f-string print it. *)
Definition of_Z (z : Z) : string := NilZero.string_of_int (Z.to_int z).

End Str.

(** ** Library functions taken as parameters

    [str.upper], [repr], [str] and [ast.literal_eval] belong to Python, not
    to this program; their full behaviour depends on the Unicode database
    and on the whole literal grammar.  The program is embedded over any
    implementation of them.  [literal_eval] returns [None] where the
    library raises (the caller catches every [Exception]). *)

Record Builtins : Type := {
  upper : string -> string;
  repr : value -> string;
  str_of : value -> string;
  literal_eval : string -> option value
}.

(** ** Validation Issue Parser *)

Module Parser.

(** The dict the parser builds for one rejected input (lines 127-133).
    Its five keys are always there; [node_id], [class_type] and
    [input_name] are [str] and [choices] is a list of [str], so the
    record carries them with these types.  With them the tests
    [isinstance(node_id, str)] and [isinstance(input_name, str)] of the
    patcher (line 166) always pass and [issue.get("choices") or []] is
    the list itself. *)
Record Issue : Type := {
  node_id : string;
  class_type : string;
  input_name : string;
  received_value : value;
  choices : list string
}.

Definition bullet_node : string := "• Node ".

(** [(.+)$]: at least one character other than a newline, up to the end
    of the text or to a newline that ends the text. *)
Definition dot_plus_eol (s : string) : option string :=
  let (x, rest) := Str.span (fun c => negb (Ascii.eqb c "010"%char)) s in
  if Str.is_empty x then None
  else if (Str.is_empty rest || String.eqb rest Str.nl)%bool then Some x
  else None.

(** [re.match] of [^\s*• Node ([^ ]+) \(<tag>\): (.+)$]; the two groups. *)
Definition node_line (tag line : string) : option (string * string) :=
  match Str.drop_prefix bullet_node (Str.lstrip line) with
  | None => None
  | Some s1 =>
      let (id, s2) := Str.span (fun c => negb (Ascii.eqb c " "%char)) s1 in
      if Str.is_empty id then None else
      match Str.drop_prefix (" (" ++ tag ++ "): ") s2 with
      | None => None
      | Some s3 =>
          match dot_plus_eol s3 with
          | None => None
          | Some g2 => Some (id, g2)
          end
      end
  end.

Definition errors_pattern : string -> option (string * string) :=
  node_line "errors".

Definition class_pattern : string -> option (string * string) :=
  node_line "class_type".

(** [[x for x in l if isinstance(x, str)]] *)
Fixpoint strings_of (l : list value) : list string :=
  match l with
  | [] => []
  | VStr s :: r => s :: strings_of r
  | _ :: r => strings_of r
  end.

Section WithBuiltins.

Variable L : Builtins.

(** The body of the loop over the lines: the state is
    [(node_errors, node_class)]. *)
Definition scan_line
    (st : list (string * list value) * list (string * string))
    (line : string) : list (string * list value) * list (string * string) :=
  let (node_errors, node_class) := st in
  match errors_pattern line with
  | Some (nid, g2) =>
      match literal_eval L (Str.strip g2) with
      | None => st
      | Some (VList parsed) => (dict_set nid (filter is_dict parsed) node_errors, node_class)
      | Some _ => st
      end
  | None =>
      match class_pattern line with
      | Some (nid, g2) => (node_errors, dict_set nid (Str.strip g2) node_class)
      | None => st
      end
  end.

(** The body of the inner loop over one node's errors: [None] where the
    source says [continue]. *)
Definition issue_of_error (node_class : list (string * string))
    (nid : string) (err : value) : option Issue :=
  match err with
  | VDict e =>
      match dict_get "extra_info" e with
      | Some (VDict extra) =>
          match dict_get "input_name" extra with
          | Some (VStr name) =>
              let choices :=
                match dict_get "input_config" extra with
                | Some (VList (VList first :: _)) => strings_of first
                | _ => []
                end in
              Some {| node_id := nid;
                      class_type :=
                        match dict_get nid node_class with
                        | Some c => c
                        | None => "Unknown"
                        end;
                      input_name := name;
                      received_value := get_or_none "received_value" extra;
                      choices := choices |}
          | _ => None
          end
      | _ => None
      end
  | _ => None
  end.

Definition issues_of_node (node_class : list (string * string))
    (entry : string * list value) : list Issue :=
  flat_map (fun err => match issue_of_error node_class (fst entry) err with
                       | Some i => [i]
                       | None => []
                       end) (snd entry).

Definition marker : string := "Workflow validation failed".

Definition parse_validation_issues (error_text : value) : list Issue :=
  match error_text with
  | VStr text =>
      if negb (Str.contains marker text) then [] else
      let (node_errors, node_class) :=
        fold_left scan_line (Str.splitlines text) ([], []) in
      flat_map (issues_of_node node_class) node_errors
  | _ => []
  end.

End WithBuiltins.

End Parser.

Import Parser.

(** ** Fallback Patcher *)

Module Patcher.

(** [payload.get("input", {}).get("workflow")]: [AttributeError] when
    the payload or its ["input"] has no [get]. *)
Definition get_workflow (payload : value) : Result (option value) :=
  match payload with
  | VDict p =>
      match dict_get "input" p with
      | None => Ok None
      | Some (VDict i) => Ok (dict_get "workflow" i)
      | Some _ => Raise AttributeError
      end
  | _ => Raise AttributeError
  end.

(** The payload after its workflow dict was updated in place to [w]. *)
Definition set_workflow (payload : value) (w : dict) : value :=
  match payload with
  | VDict p =>
      match dict_get "input" p with
      | Some (VDict i) =>
          VDict (dict_set "input" (VDict (dict_set "workflow" (VDict w) i)) p)
      | _ => payload
      end
  | _ => payload
  end.

Definition model_dir_by_class : list (string * string) :=
  [ ("UNETLoader", "models/unet");
    ("CLIPLoader", "models/clip");
    ("VAELoader", "models/vae");
    ("CheckpointLoaderSimple", "models/checkpoints");
    ("DualCLIPLoader", "models/clip") ].

Definition model_dir (class_type : string) : string :=
  match dict_get class_type model_dir_by_class with
  | Some d => d
  | None => "models/<unknown>"
  end.

(** [old_value != new_value] for a [str] on the right: only an equal
    [str] compares equal to it. *)
Definition differs (old_value : value) (new_value : string) : bool :=
  match old_value with
  | VStr s => negb (String.eqb s new_value)
  | _ => true
  end.

(** The inputs dict of node [nid], when the node is a dict and its
    ["inputs"] is a dict; the node is returned with it. *)
Definition node_inputs (nid : string) (workflow : dict) : option (dict * dict) :=
  match dict_get nid workflow with
  | Some (VDict node) =>
      match dict_get "inputs" node with
      | Some (VDict inputs) => Some (node, inputs)
      | _ => None
      end
  | _ => None
  end.

Section WithBuiltins.

Variable L : Builtins.

Definition patched_message (i : Issue) (old_value : value) (new_value : string)
  : string :=
  "Node " ++ node_id i ++ " (" ++ class_type i ++ ") " ++ input_name i
  ++ ": " ++ repr L old_value ++ " -> " ++ repr L (VStr new_value).

Definition missing_message (i : Issue) : string :=
  "Node " ++ node_id i ++ " (" ++ class_type i ++ ") " ++ input_name i
  ++ ": " ++ "required=" ++ repr L (received_value i)
  ++ ", available=[] (put model under " ++ model_dir (class_type i) ++ ")".

(** The loop state: the workflow dict, [patched] and [missing]. *)
Definition state : Type := dict * list string * list string.

(** One turn of the loop over the issues. *)
Definition fallback_step (st : state) (i : Issue) : state :=
  let '(workflow, patched, missing) := st in
  match node_inputs (node_id i) workflow with
  | None => st
  | Some (node, inputs) =>
      match choices i with
      | new_value :: _ =>
          let old_value := get_or_none (input_name i) inputs in
          if differs old_value new_value then
            let inputs' := dict_set (input_name i) (VStr new_value) inputs in
            let node' := dict_set "inputs" (VDict inputs') node in
            (dict_set (node_id i) (VDict node') workflow,
             patched ++ [patched_message i old_value new_value],
             missing)
          else st
      | [] => (workflow, patched, missing ++ [missing_message i])
      end
  end.

(** Returns the payload as the call leaves it, then
    [(patched, missing)]. *)
Definition apply_validation_fallbacks (payload : value) (issues : list Issue)
  : Result (value * list string * list string) :=
  wf <- get_workflow payload ;;
  match wf with
  | Some (VDict workflow) =>
      let '(workflow', patched, missing) :=
        fold_left fallback_step issues (workflow, [], []) in
      Ok (set_workflow payload workflow', patched, missing)
  | _ => Ok (payload, [], [])
  end.

End WithBuiltins.

End Patcher.

Import Patcher.

(** ** Workflow Sanitizer *)

Module Sanitizer.

Definition frontend_message : string :=
  "Detected frontend workflow JSON (contains nodes/links). "
  ++ "This worker expects API prompt JSON. "
  ++ "Please export `workflow_api.json` (or Save as API format) from ComfyUI and use that file.".

Definition empty_message : string :=
  "Workflow has no executable nodes after sanitization. "
  ++ "Please provide an API prompt JSON export from ComfyUI.".

(** [isinstance(value, dict) and "class_type" in value] *)
Definition is_node (v : option value) : bool :=
  match v with
  | Some (VDict d) => dict_mem "class_type" d
  | _ => false
  end.

(** [key.startswith("#") or key in {"config", "definitions"}] *)
Definition removable (key : string) : bool :=
  (Str.startswith "#" key || String.eqb key "config"
   || String.eqb key "definitions")%bool.

(** Key [k] is settled in [w]: it is gone, or it names a node record, or
    its name is not one the sweep removes. *)
Definition settled (w : dict) (k : string) : Prop :=
  forall v, dict_get k w = Some v ->
            is_node (Some v) = true \/ removable k = false.

(** One turn of the loop over the keys. *)
Definition sweep (st : dict * list string) (key : string) : dict * list string :=
  let (workflow, removed) := st in
  if is_node (dict_get key workflow) then st
  else if removable key then (dict_pop key workflow, removed ++ [key])
  else st.

Definition is_list_opt (v : option value) : bool :=
  match v with Some (VList _) => true | _ => false end.

(** Returns the payload as the call leaves it, then the removed keys. *)
Definition sanitize_workflow (payload : value) : Result (value * list string) :=
  wf <- get_workflow payload ;;
  match wf with
  | Some (VDict workflow) =>
      if (is_list_opt (dict_get "nodes" workflow)
          && is_list_opt (dict_get "links" workflow))%bool
      then Raise (ValueError frontend_message)
      else
        let (workflow', removed) :=
          fold_left sweep (dict_keys workflow) (workflow, []) in
        match workflow' with
        | [] => Raise (ValueError empty_message)
        | _ => Ok (set_workflow payload workflow', removed)
        end
  | _ => Ok (payload, [])
  end.

End Sanitizer.

Import Sanitizer.

(** ** Job Runner and the recovery part of [main] *)

Module Runner.

(** What a run does to the outside, in order. *)
Inductive event : Type :=
| Submitted (k : nat) (mode : string) (payload : value)
| Polled (res : value)
| Slept (seconds : float)
| Returned (result : value)
| Printed (line : string)
| WroteResultJson (result : value).

(** How a computation ends: with a value, with an exception, or still
    inside [while True] when the fuel is spent. *)
Inductive outcome (A : Type) : Type :=
| Done (a : A)
| Raised (e : exn)
| Running.
Arguments Done {A} a.
Arguments Raised {A} e.
Arguments Running {A}.

Definition Comp (A : Type) : Type := list event * outcome A.

Definition ret {A : Type} (a : A) : Comp A := ([], Done a).

Definition emit (e : event) : Comp unit := ([e], Done tt).

Definition bindC {A B : Type} (m : Comp A) (k : A -> Comp B) : Comp B :=
  match snd m with
  | Done a => let r := k a in (fst m ++ fst r, snd r)
  | Raised e => (fst m, Raised e)
  | Running => (fst m, Running)
  end.

Definition lift {A : Type} (r : Result A) : Comp A :=
  match r with
  | Ok a => ([], Done a)
  | Raise e => ([], Raised e)
  end.

Notation "x <~ m ;; k" := (bindC m (fun x => k))
  (at level 61, m at next level, right associativity).
Notation "m ;;; k" := (bindC m (fun _ => k))
  (at level 61, right associativity).

(** The remote service and the clock, as the run meets them.  [k] counts
    the calls of [run_job] (0 for the first, 1 for the retry) and [i] the
    turns of the polling loop of that call.  A transport failure
    ([raise_for_status], a connection error) is a [string].
    [deadline_passed k i] is the outcome of the test
    [time.time() - start > max_wait_s] in turn [i]. *)
Record Remote : Type := {
  run_sync_reply : nat -> value -> Z -> value + string;
  run_async_reply : nat -> value -> value + string;
  status_reply : nat -> value -> nat -> value + string;
  deadline_passed : nat -> nat -> bool
}.

Definition transport (r : value + string) : Comp value :=
  match r with
  | inl v => ret v
  | inr what => ([], Raised (HTTPError what))
  end.

(** [x[key]] for a [str] key. *)
Definition subscript (x : value) (key : string) : Result value :=
  match x with
  | VDict d => match dict_get key d with
               | Some v => Ok v
               | None => Raise KeyError
               end
  | _ => Raise TypeError
  end.

(** [x.get(key, default)] *)
Definition get_default (x : value) (key : string) (default : value)
  : Result value :=
  match x with
  | VDict d => match dict_get key d with
               | Some v => Ok v
               | None => Ok default
               end
  | _ => Raise AttributeError
  end.

Definition terminal_statuses : list string :=
  ["COMPLETED"; "FAILED"; "CANCELLED"; "TIMED_OUT"].

Definition is_terminal (st : string) : bool :=
  existsb (String.eqb st) terminal_statuses.

(** Python's [min(a, b)]: [b] only when [b < a]. *)
Definition py_min (a b : float) : float :=
  if PrimFloat.ltb b a then b else a.

Definition initial_sleep : float := 2.0%float.

Definition next_sleep (sleep_s : float) : float :=
  py_min (PrimFloat.mul sleep_s 1.2%float) 10.0%float.

Definition timeout_message (max_wait_s : Z) (st : string) : string :=
  "Job not finished in " ++ Str.of_Z max_wait_s ++ "s, last status=" ++ st.

Section WithWorld.

Variable L : Builtins.
Variable R : Remote.

(** [(res.get("status") or "").upper()] *)
Definition status_upper (res : value) : Result string :=
  match res with
  | VDict d =>
      let v := get_or_none "status" d in
      if truthy v then
        match v with
        | VStr s => Ok (upper L s)
        | _ => Raise AttributeError
        end
      else Ok (upper L EmptyString)
  | _ => Raise AttributeError
  end.

(** The [while True] of [poll_until_done], from turn [i] on. *)
Fixpoint poll_loop (fuel : nat) (k : nat) (job_id : value) (max_wait_s : Z)
    (i : nat) (sleep_s : float) : Comp value :=
  match fuel with
  | O => ([], Running)
  | S fuel' =>
      res <~ transport (status_reply R k job_id i) ;;
      emit (Polled res) ;;;
      st <~ lift (status_upper res) ;;
      if is_terminal st then ret res
      else if deadline_passed R k i
      then ([], Raised (TimeoutError (timeout_message max_wait_s st)))
      else
        emit (Slept sleep_s) ;;;
        poll_loop fuel' k job_id max_wait_s (S i) (next_sleep sleep_s)
  end.

Definition poll_until_done (fuel : nat) (k : nat) (job_id : value)
    (max_wait_s : Z) : Comp value :=
  poll_loop fuel k job_id max_wait_s 0 initial_sleep.

Definition run_job (fuel : nat) (k : nat) (payload : value) (mode : string)
    (wait_ms max_wait_s : Z) : Comp value :=
  emit (Submitted k mode payload) ;;;
  result <~
    (if String.eqb mode "runsync"
     then transport (run_sync_reply R k payload wait_ms)
     else
       job <~ transport (run_async_reply R k payload) ;;
       job_id <~ lift (subscript job "id") ;;
       emit (Printed ("[INFO] submitted job id: " ++ str_of L job_id)) ;;;
       poll_until_done fuel k job_id max_wait_s) ;;
  emit (Returned result) ;;;
  ret result.

Definition print_all (lines : list string) : Comp unit :=
  (map Printed lines, Done tt).

Definition fix_options : string :=
  "[ERROR] fix options:" ++ Str.nl
  ++ "  1) upload/mount the required model files to the endpoint volume and restart worker" ++ Str.nl
  ++ "  2) edit workflow to use model names that actually exist on this endpoint" ++ Str.nl
  ++ "  3) switch to an endpoint with preloaded models".

Definition not_completed (status : string) : bool :=
  negb (String.eqb status "COMPLETED").

Definition exit_message (result : value) (result_path : string) : string :=
  "Job finished with status="
  ++ str_of L (match result with VDict d => get_or_none "status" d | _ => VNone end)
  ++ ", see " ++ result_path.

(** [main] from the first [run_job] on (lines 441-475); [payload] is the
    prepared payload and [result_path] the text of
    [outdir / "result.json"].  The saving of the images that follows a
    COMPLETED result is outside this development. *)
Definition main (fuel : nat) (payload : value) (mode : string)
    (wait_ms max_wait_s : Z) (result_path : string) : Comp unit :=
  result <~ run_job fuel 0 payload mode wait_ms max_wait_s ;;
  status <~ lift (status_upper result) ;;
  rs <~
    (if not_completed status then
       err <~ lift (get_default result "error" (VStr EmptyString)) ;;
       match parse_validation_issues L err with
       | [] => ret (result, status)
       | issues =>
           pm <~ lift (apply_validation_fallbacks L payload issues) ;;
           let '(payload', patched, missing) := pm in
           rs <~
             (match patched with
              | [] => ret (result, status)
              | _ =>
                  print_all
                    (["[INFO] auto-fixed workflow inputs:"]
                     ++ map (fun msg => ("  - " ++ msg)%string) patched
                     ++ ["[INFO] retrying once with patched workflow..."]) ;;;
                  result' <~ run_job fuel 1 payload' mode wait_ms max_wait_s ;;
                  status' <~ lift (status_upper result') ;;
                  ret (result', status')
              end) ;;
           (match missing with
            | [] => ret tt
            | _ =>
                if not_completed (snd rs) then
                  print_all
                    (["[ERROR] endpoint model inventory is incomplete:"]
                     ++ map (fun msg => ("  - " ++ msg)%string) missing
                     ++ [fix_options])
                else ret tt
            end) ;;;
           ret rs
       end
     else ret (result, status)) ;;
  emit (WroteResultJson (fst rs)) ;;;
  final <~ lift (status_upper (fst rs)) ;;
  if not_completed final
  then ([], Raised (SystemExit (exit_message (fst rs) result_path)))
  else ret tt.

End WithWorld.

(** The backoff schedule: the sleep of turn [n]. *)
Fixpoint backoff (n : nat) : float :=
  match n with
  | O => initial_sleep
  | S m => next_sleep (backoff m)
  end.

(** Readings of a trace. *)
Definition submissions (t : list event) : list (nat * string * value) :=
  flat_map (fun e => match e with
                     | Submitted k m p => [(k, m, p)]
                     | _ => []
                     end) t.

Definition sleeps (t : list event) : list float :=
  flat_map (fun e => match e with Slept s => [s] | _ => [] end) t.

(** The JobResults the run obtained, in order: every status reply and
    every result [run_job] returned. *)
Definition obtained (t : list event) : list value :=
  flat_map (fun e => match e with
                     | Polled r => [r]
                     | Returned r => [r]
                     | _ => []
                     end) t.

Definition returned (t : list event) : list value :=
  flat_map (fun e => match e with Returned r => [r] | _ => [] end) t.

Definition written (t : list event) : list value :=
  flat_map (fun e => match e with WroteResultJson r => [r] | _ => [] end) t.

(** The events of the polling loop. *)
Definition is_poll_event (e : event) : bool :=
  match e with
  | Polled _ | Slept _ => true
  | _ => false
  end.

Definition is_exit (e : exn) : bool :=
  match e with
  | SystemExit _ => true
  | _ => false
  end.

(** The run retries with payload [payload']: the first job returned a
    result whose status is not COMPLETED, its error text parsed to at least
    one issue, and the patcher, leaving [payload'], returned at least one
    patched message. *)
Definition retries_with (L : Builtins) (R : Remote) (fuel : nat)
    (payload : value) (mode : string) (wait_ms max_wait_s : Z)
    (payload' : value) : Prop :=
  exists t1 r1 st err patched missing,
    run_job L R fuel 0 payload mode wait_ms max_wait_s = (t1, Done r1)
    /\ status_upper L r1 = Ok st
    /\ st <> "COMPLETED"
    /\ get_default r1 "error" (VStr EmptyString) = Ok err
    /\ parse_validation_issues L err <> []
    /\ apply_validation_fallbacks L payload (parse_validation_issues L err)
       = Ok (payload', patched, missing)
    /\ patched <> [].

End Runner.

Import Runner.

(** ** An implementation of the library functions, for the examples

    [Demo.builtins] implements the four library functions on the fragment
    the examples below use: ASCII letters for [upper]; for [repr] and [str],
    [None], booleans, integers and texts of printable ASCII without quote
    or backslash; for [literal_eval], lists, dicts with text keys, quoted
    texts without backslash, decimal integers, [None], [True], [False].
    Outside the fragment [literal_eval] answers [None]. *)

Module Demo.

Local Open Scope N_scope.

Definition upper_char (c : ascii) : ascii :=
  if Str.between 97 122 (Str.code c) then ascii_of_N (Str.code c - 32) else c.

Fixpoint ascii_upper (s : string) : string :=
  match s with
  | EmptyString => EmptyString
  | String c r => String (upper_char c) (ascii_upper r)
  end.

Definition quote : ascii := "'"%char.
Definition dquote : ascii := "034"%char.

Definition quoted (s : string) : string :=
  (String quote s ++ String quote EmptyString)%string.

Fixpoint join (sep : string) (l : list string) : string :=
  match l with
  | [] => EmptyString
  | [x] => x
  | x :: r => (x ++ sep ++ join sep r)%string
  end.

Fixpoint simple_repr (v : value) : string :=
  match v with
  | VNone => "None"
  | VBool true => "True"
  | VBool false => "False"
  | VInt z => Str.of_Z z
  | VFloat _ => "<float>"
  | VStr s => quoted s
  | VList l => ("[" ++ join ", " (map simple_repr l) ++ "]")%string
  | VDict d =>
      ("{" ++ join ", "
         (map (fun kv => (quoted (fst kv) ++ ": " ++ simple_repr (snd kv))%string) d)
       ++ "}")%string
  end.

Definition simple_str (v : value) : string :=
  match v with
  | VStr s => s
  | _ => simple_repr v
  end.

(** *** A reader of Python literals *)

Definition is_blank (c : ascii) : bool :=
  (Ascii.eqb c " "%char || Ascii.eqb c "009"%char)%bool.

Fixpoint skip_blank (s : string) : string :=
  match s with
  | String c r => if is_blank c then skip_blank r else s
  | EmptyString => s
  end.

Definition is_digit (c : ascii) : bool := Str.between 48 57 (Str.code c).

Definition is_word (c : ascii) : bool :=
  (is_digit c || Str.between 97 122 (Str.code c)
   || Str.between 65 90 (Str.code c)
   || Ascii.eqb c "_"%char || Ascii.eqb c "."%char)%bool.

Fixpoint digits_value (acc : Z) (s : string) : Z :=
  match s with
  | EmptyString => acc
  | String c r => digits_value (10 * acc + Z.of_N (Str.code c - 48))%Z r
  end.

(** The token is over: the next character cannot continue a word. *)
Definition token_ends (rest : string) : bool :=
  match rest with
  | EmptyString => true
  | String c _ => negb (is_word c)
  end.

Definition read_number (s : string) : option (value * string) :=
  let (ds, rest) := Str.span is_digit s in
  match ds with
  | EmptyString => None
  | String d more =>
      if (token_ends rest
          && (negb (Ascii.eqb d "0"%char) || Str.is_empty more))%bool
      then Some (VInt (digits_value 0 ds), rest)
      else None
  end.

Definition read_keyword (s : string) : option (value * string) :=
  let try (word : string) (v : value) :=
    match Str.drop_prefix word s with
    | Some rest => if token_ends rest then Some (v, rest) else None
    | None => None
    end in
  match try "None" VNone with
  | Some r => Some r
  | None =>
      match try "True" (VBool true) with
      | Some r => Some r
      | None => try "False" (VBool false)
      end
  end.

(** The text up to the closing quote [q]; no backslash, no newline. *)
Definition read_quoted (q : ascii) (s : string) : option (string * string) :=
  let (body, rest) :=
    Str.span (fun c => negb (Ascii.eqb c q || Ascii.eqb c "\"%char
                             || Ascii.eqb c "010"%char)) s in
  match rest with
  | String c rest' => if Ascii.eqb c q then Some (body, rest') else None
  | EmptyString => None
  end.

Fixpoint read_value (fuel : nat) (s : string) : option (value * string) :=
  match fuel with
  | O => None
  | S n =>
      match skip_blank s with
      | EmptyString => None
      | String c r =>
          if Ascii.eqb c "["%char then read_items n r []
          else if Ascii.eqb c "{"%char then read_pairs n r []
          else if (Ascii.eqb c quote || Ascii.eqb c dquote)%bool then
            match read_quoted c r with
            | Some (body, rest) => Some (VStr body, rest)
            | None => None
            end
          else if Ascii.eqb c "-"%char then
            match read_number r with
            | Some (VInt z, rest) => Some (VInt (- z), rest)
            | _ => None
            end
          else if is_digit c then read_number (String c r)
          else read_keyword (String c r)
      end
  end

with read_items (fuel : nat) (s : string) (acc : list value)
  : option (value * string) :=
  match fuel with
  | O => None
  | S n =>
      match skip_blank s with
      | EmptyString => None
      | String c r =>
          if Ascii.eqb c "]"%char then Some (VList (rev acc), r) else
          match read_value n (String c r) with
          | None => None
          | Some (v, rest) =>
              match skip_blank rest with
              | String d rest' =>
                  if Ascii.eqb d ","%char then read_items n rest' (v :: acc)
                  else if Ascii.eqb d "]"%char
                  then Some (VList (rev (v :: acc)), rest')
                  else None
              | EmptyString => None
              end
          end
      end
  end

with read_pairs (fuel : nat) (s : string) (acc : list (string * value))
  : option (value * string) :=
  match fuel with
  | O => None
  | S n =>
      match skip_blank s with
      | EmptyString => None
      | String c r =>
          if Ascii.eqb c "}"%char then Some (VDict acc, r)
          else if (Ascii.eqb c quote || Ascii.eqb c dquote)%bool then
            match read_quoted c r with
            | None => None
            | Some (key, rest) =>
                match skip_blank rest with
                | String colon rest1 =>
                    if Ascii.eqb colon ":"%char then
                      match read_value n rest1 with
                      | None => None
                      | Some (v, rest2) =>
                          match skip_blank rest2 with
                          | String d rest3 =>
                              if Ascii.eqb d ","%char
                              then read_pairs n rest3 (dict_set key v acc)
                              else if Ascii.eqb d "}"%char
                              then Some (VDict (dict_set key v acc), rest3)
                              else None
                          | EmptyString => None
                          end
                      end
                    else None
                | EmptyString => None
                end
            end
          else None
      end
  end.

Definition read_literal (s : string) : option value :=
  match read_value (S (String.length s)) s with
  | Some (v, rest) => if Str.is_empty (skip_blank rest) then Some v else None
  | None => None
  end.

Definition builtins : Builtins :=
  {| upper := ascii_upper;
     repr := simple_repr;
     str_of := simple_str;
     literal_eval := read_literal |}.

End Demo.

(** ** The scenario of the validator rejecting a checkpoint name *)

Module ScenarioB.

Definition raw_errors : string :=
  "[{'extra_info': {'input_name': 'ckpt_name', 'received_value': 'foo.safetensors', 'input_config': [['bar.safetensors','baz.safetensors']]}}]".

Definition line0 : string := "Workflow validation failed:".
Definition line1 : string := "  • Node 12 (errors): " ++ raw_errors.
Definition line2 : string := "  • Node 12 (class_type): CheckpointLoaderSimple".

Definition error_text : string :=
  line0 ++ Str.nl ++ line1 ++ Str.nl ++ line2.

(** What [ast.literal_eval] makes of [raw_errors]. *)
Definition literal : value :=
  VList
    [VDict
       [("extra_info",
         VDict
           [("input_name", VStr "ckpt_name");
            ("received_value", VStr "foo.safetensors");
            ("input_config",
             VList [VList [VStr "bar.safetensors"; VStr "baz.safetensors"]])])]].

Definition issue : Issue :=
  {| node_id := "12";
     class_type := "CheckpointLoaderSimple";
     input_name := "ckpt_name";
     received_value := VStr "foo.safetensors";
     choices := ["bar.safetensors"; "baz.safetensors"] |}.

(** A payload whose node 12 holds [ckpt] as its checkpoint name. *)
Definition payload_with (ckpt : string) : value :=
  VDict
    [("input",
      VDict
        [("workflow",
          VDict
            [("12",
              VDict
                [("class_type", VStr "CheckpointLoaderSimple");
                 ("inputs", VDict [("ckpt_name", VStr ckpt)])])])])].

End ScenarioB.

(** ** Concrete inputs *)

Module Cases.

(** A graph with one loader node, [9], whose inputs are [inputs]. *)
Definition loader_payload (inputs : dict) : value :=
  VDict
    [("input",
      VDict
        [("workflow",
          VDict
            [("9",
              VDict
                [("class_type", VStr "UNETLoader");
                 ("inputs", VDict inputs)])])])].

(** An issue on [unet_name] of node [nid] with the given choices. *)
Definition unet_issue (nid : string) (choices : list string) : Issue :=
  {| node_id := nid;
     class_type := "UNETLoader";
     input_name := "unet_name";
     received_value := VStr "flux.safetensors";
     choices := choices |}.

(** An API export that carries a top-level ["version"] entry beside its
    one node. *)
Definition versioned_payload : value :=
  VDict
    [("input",
      VDict
        [("workflow",
          VDict
            [("3", VDict [("class_type", VStr "KSampler");
                          ("inputs", VDict [])]);
             ("version", VInt 1)])])].

(** A payload whose workflow is not a mapping. *)
Definition list_payload : value :=
  VDict [("input", VDict [("workflow", VList [])])].

(** The invariant of the sanitized payload as the specification words
    it: the workflow is a non-empty mapping and every entry is a node
    record. *)
Definition node_records_only (payload : value) : Prop :=
  exists w : dict,
    get_workflow payload = Ok (Some (VDict w))
    /\ w <> []
    /\ forall k v, dict_get k w = Some v -> is_node (Some v) = true.

(** *** Remote services *)

Definition job_result (status : string) : value :=
  VDict [("id", VStr "job-1"); ("status", VStr status)].

Definition failed_validation : value :=
  VDict [("id", VStr "job-1"); ("status", VStr "FAILED");
         ("error", VStr ScenarioB.error_text)].

(** Every job completes at once, in either mode; the deadline test is
    true from the first turn on. *)
Definition prompt_remote : Remote :=
  {| run_sync_reply := fun _ _ _ => inl (job_result "COMPLETED");
     run_async_reply := fun _ _ => inl (VDict [("id", VStr "job-1")]);
     status_reply := fun _ _ _ => inl (job_result "COMPLETED");
     deadline_passed := fun _ _ => true |}.

(** The job never leaves IN_PROGRESS and the deadline has passed when
    it is first tested. *)
Definition stuck_remote : Remote :=
  {| run_sync_reply := fun _ _ _ => inl (job_result "IN_PROGRESS");
     run_async_reply := fun _ _ => inl (VDict [("id", VStr "job-1")]);
     status_reply := fun _ _ _ => inl (job_result "IN_PROGRESS");
     deadline_passed := fun _ _ => true |}.

(** The first job fails validation as in scenario B; the retry
    completes. *)
Definition picky_remote : Remote :=
  {| run_sync_reply :=
       fun k _ _ => match k with
                    | O => inl failed_validation
                    | S _ => inl (job_result "COMPLETED")
                    end;
     run_async_reply := fun _ _ => inl (VDict [("id", VStr "job-1")]);
     status_reply := fun _ _ _ => inl (job_result "COMPLETED");
     deadline_passed := fun _ _ => false |}.

(** The first job fails validation as in scenario B; the retry meets a
    transport failure. *)
Definition flaky_remote : Remote :=
  {| run_sync_reply :=
       fun k _ _ => match k with
                    | O => inl failed_validation
                    | S _ => inr "503 Service Unavailable"
                    end;
     run_async_reply := fun _ _ => inr "503 Service Unavailable";
     status_reply := fun _ _ _ => inr "503 Service Unavailable";
     deadline_passed := fun _ _ => false |}.

(** The persistence promise as the specification words it: the last
    JobResult the run obtained is in what was written to result.json. *)
Definition persisted_last_obtained (t : list event) : Prop :=
  forall pre r, obtained t = pre ++ [r] -> In r (written t).

End Cases.

(** ** Readings of a graph *)

Module Shape.

(** The sweep of the sanitizer removes key [k] of [w]: its value is not
    a node record and its name is one of those the sweep looks for. *)
Definition doomed (w : dict) (k : string) : bool :=
  (negb (is_node (dict_get k w)) && removable k)%bool.

(** [nodes] and [links] are both lists: the shape of a frontend export. *)
Definition frontend_shape (w : dict) : bool :=
  (is_list_opt (dict_get "nodes" w) && is_list_opt (dict_get "links" w))%bool.

(** Two graphs with the same keys in the same order, whose entries agree
    on being a node record and on being a list. *)
Definition same_shape (w w' : dict) : Prop :=
  dict_keys w' = dict_keys w
  /\ (forall k, is_node (dict_get k w') = is_node (dict_get k w))
  /\ (forall k, is_list_opt (dict_get k w') = is_list_opt (dict_get k w)).

(** A graph the sanitizer has nothing to say about: not a frontend
    export, not empty, and none of its keys is one the sweep removes. *)
Definition clean (w : dict) : Prop :=
  frontend_shape w = false
  /\ w <> []
  /\ forall k, In k (dict_keys w) -> doomed w k = false.

(** The issue finds its node, with an inputs mapping, in [w]. *)
Definition present (w : dict) (i : Issue) : bool :=
  match node_inputs (node_id i) w with Some _ => true | None => false end.

Definition no_choices (i : Issue) : bool :=
  match choices i with [] => true | _ :: _ => false end.

End Shape.

Import Shape.

(** ** More concrete inputs *)

Module Inputs.

Definition wrap (w : dict) : value :=
  VDict [("input", VDict [("workflow", VDict w)])].

(** A graph with a note, an empty [config] and a node that happens to
    be called [definitions]. *)
Definition noted_workflow : dict :=
  [("#note", VStr "draft");
   ("config", VDict []);
   ("definitions", VDict [("class_type", VStr "Reroute")])].

(** The job is IN_PROGRESS for the first two polls and COMPLETED at
    the third; the deadline test is never true. *)
Definition slow_remote : Remote :=
  {| run_sync_reply := fun _ _ _ => inl (Cases.job_result "IN_PROGRESS");
     run_async_reply := fun _ _ => inl (VDict [("id", VStr "job-1")]);
     status_reply :=
       fun _ _ i => if Nat.ltb i 2 then inl (Cases.job_result "IN_PROGRESS")
                    else inl (Cases.job_result "COMPLETED");
     deadline_passed := fun _ _ => false |}.

End Inputs.

(** ** Payload Normalizer: [load_payload] *)

Module Loader.

(** How [load_payload] fails: [NoSuchFile] is Python's
    FileNotFoundError, [BadJSON] the ValueError raised for text that is
    not JSON, [NoFirstLine] the IndexError that [splitlines()[0]] would
    raise on an empty list of lines. *)
Inductive load_error : Type :=
| NoSuchFile (msg : string)
| BadJSON (msg : string)
| NoFirstLine.

Definition wrap (workflow : value) : value :=
  VDict [("input", VDict [("workflow", workflow)])].

(** The wrapping rules (lines 42-56), on the parsed JSON. *)
Definition normalize (data : value) : value :=
  match data with
  | VDict d =>
      if dict_mem "input" d then data
      else
        match dict_get "prompt" d with
        | Some (VDict prompt_obj) => wrap (VDict prompt_obj)
        | _ =>
            match dict_get "output" d with
            | Some (VDict output_obj) => wrap (VDict output_obj)
            | _ => wrap data
            end
        end
  | _ => wrap data
  end.

(** [raw_text.splitlines()[0].strip() if raw_text else ""]; [None] is
    the IndexError of the subscript. *)
Definition first_line (raw_text : string) : option string :=
  if Str.is_empty raw_text then Some EmptyString
  else match Str.splitlines raw_text with
       | l :: _ => Some (Str.strip l)
       | [] => None
       end.

Definition script_hint : string :=
  " This file looks like a Python script, not a ComfyUI workflow JSON.".

(** [path] is the text of [payload_path]; [file] is the text of the
    file, [None] when [payload_path.exists()] is false; [json_loads] is
    [json.loads], answering the text of the JSONDecodeError where it
    raises. *)
Definition load_payload (json_loads : string -> value + string)
    (path : string) (file : option string) : value + load_error :=
  match file with
  | None => inr (NoSuchFile ("workflow file not found: " ++ path))
  | Some raw_text =>
      match json_loads raw_text with
      | inr exc =>
          match first_line raw_text with
          | None => inr NoFirstLine
          | Some line =>
              let hint :=
                if (Str.startswith "#!" line
                    || Str.startswith "import " line)%bool
                then script_hint else EmptyString in
              inr (BadJSON ("Invalid workflow JSON in " ++ path ++ ": "
                            ++ exc ++ "." ++ hint))
          end
      | inl data => inl (normalize data)
      end
  end.

(** [resolve_workflow_path]: [exists] is [Path.exists] on the text of a
    path and [beside_script] joins a name to the directory of the
    script. *)
Definition resolve_workflow_path (exists_ : string -> bool)
    (beside_script : string -> string) (workflow_arg : string) : string :=
  if exists_ workflow_arg then workflow_arg
  else if exists_ (beside_script workflow_arg) then beside_script workflow_arg
  else workflow_arg.

End Loader.

Import Loader.

(** ** Prompt Patcher: [patch_positive_prompt] *)

Module Prompt.

(** ["text" in inputs] *)
Definition has_text (inputs : value) : Result bool :=
  match inputs with
  | VDict d => Ok (dict_mem "text" d)
  | VList l =>
      Ok (existsb (fun x => match x with
                            | VStr s => String.eqb s "text"
                            | _ => false
                            end) l)
  | VStr s => Ok (Str.contains "text" s)
  | _ => Raise TypeError
  end.

(** [x or {}], then used through [.get]: a true object that is not a
    mapping has no [get]. *)
Definition or_empty_dict (x : value) : Result dict :=
  if truthy x then
    match x with
    | VDict d => Ok d
    | _ => Raise AttributeError
    end
  else Ok [].

Section WithLower.

(** [str.lower], a library function. *)
Variable lower : string -> string.

(** [(holder.get("title") or "").lower()] *)
Definition lowered_title (holder : dict) : Result string :=
  let v := get_or_none "title" holder in
  if truthy v then
    match v with
    | VStr s => Ok (lower s)
    | _ => Raise AttributeError
    end
  else Ok (lower EmptyString).

(** The body of the first loop, on a node that is a mapping: the node
    as the turn leaves it, and whether [changed] was incremented. *)
Definition patch_api_node (prompt : string) (node : dict)
  : Result (dict * bool) :=
  if differs (get_or_none "class_type" node) "CLIPTextEncode"
  then Ok (node, false)
  else
    meta <- or_empty_dict (get_or_none "_meta" node) ;;
    title <- lowered_title meta ;;
    if Str.contains "positive" title then
      (* inputs = node.setdefault("inputs", {}) *)
      let node1 :=
        match dict_get "inputs" node with
        | Some _ => node
        | None => dict_set "inputs" (VDict []) node
        end in
      let inputs :=
        match dict_get "inputs" node with
        | Some v => v
        | None => VDict []
        end in
      found <- has_text inputs ;;
      if found then
        match inputs with
        | VDict d =>
            Ok (dict_set "inputs" (VDict (dict_set "text" (VStr prompt) d))
                  node1, true)
        | _ => Raise TypeError
        end
      else Ok (node1, false)
    else Ok (node, false).

(** The first loop, over [workflow.items()]. *)
Fixpoint patch_api (prompt : string) (entries : dict) : Result (dict * nat) :=
  match entries with
  | [] => Ok ([], 0%nat)
  | (k, VDict node) :: r =>
      nb <- patch_api_node prompt node ;;
      rest <- patch_api prompt r ;;
      Ok ((k, VDict (fst nb)) :: fst rest,
          ((if snd nb then 1 else 0) + snd rest)%nat)
  | (k, v) :: r =>
      rest <- patch_api prompt r ;;
      Ok ((k, v) :: fst rest, snd rest)
  end.

(** The body of the second loop, on an element of [nodes]. *)
Definition patch_frontend_node (prompt : string) (node : value)
  : Result (value * bool) :=
  match node with
  | VDict d =>
      if differs (get_or_none "type" d) "CLIPTextEncode" then Ok (node, false)
      else
        title <- lowered_title d ;;
        if negb (Str.contains "positive" title) then Ok (node, false)
        else
          match dict_get "widgets_values" d with
          | Some (VList (_ :: ws)) =>
              Ok (VDict (dict_set "widgets_values"
                           (VList (VStr prompt :: ws)) d), true)
          | _ => Ok (node, false)
          end
  | _ => Ok (node, false)
  end.

Fixpoint patch_frontend (prompt : string) (nodes : list value)
  : Result (list value * nat) :=
  match nodes with
  | [] => Ok ([], 0%nat)
  | node :: r =>
      nb <- patch_frontend_node prompt node ;;
      rest <- patch_frontend prompt r ;;
      Ok (fst nb :: fst rest, ((if snd nb then 1 else 0) + snd rest)%nat)
  end.

(** Returns the payload as the call leaves it, then [changed].  A
    workflow that is absent reads as the default [{}] of the source: no
    node, nothing changed. *)
Definition patch_positive_prompt (payload : value) (prompt : string)
  : Result (value * nat) :=
  wf <- get_workflow payload ;;
  match wf with
  | Some (VDict workflow) =>
      api <- patch_api prompt workflow ;;
      match dict_get "nodes" (fst api) with
      | Some (VList nodes) =>
          front <- patch_frontend prompt nodes ;;
          Ok (set_workflow payload
                (dict_set "nodes" (VList (fst front)) (fst api)),
              (snd api + snd front)%nat)
      | _ => Ok (set_workflow payload (fst api), snd api)
      end
  | _ => Ok (payload, 0%nat)
  end.

End WithLower.

End Prompt.

Import Prompt.

(** ** Inputs for the prompt patcher *)

Module PromptInputs.

Definition lower_char (c : ascii) : ascii :=
  if Str.between 65 90 (Str.code c)
  then ascii_of_N (Str.code c + 32) else c.

(** [str.lower] on ASCII text. *)
Fixpoint ascii_lower (s : string) : string :=
  match s with
  | EmptyString => EmptyString
  | String c r => String (lower_char c) (ascii_lower r)
  end.

Definition encode_node (title text : string) : value :=
  VDict [("class_type", VStr "CLIPTextEncode");
         ("_meta", VDict [("title", VStr title)]);
         ("inputs", VDict [("text", VStr text); ("clip", VList [VStr "4"; VInt 1])])].

Definition two_prompts : dict :=
  [("6", encode_node "CLIP Text Encode (Positive Prompt)" "a cat");
   ("7", encode_node "CLIP Text Encode (Negative Prompt)" "blurry")].

End PromptInputs.

(** ** Input and output images *)

Module Images.

(** [encode_image_data_uri]: [ext] is [image_path.suffix.lower()] and
    [b64] the base64 text of the bytes of the file. *)
Definition encode_image_data_uri (ext b64 : string) : string :=
  let mime :=
    if (String.eqb ext ".jpg" || String.eqb ext ".jpeg")%bool
    then "image/jpeg" else "image/png" in
  "data:" ++ mime ++ ";base64," ++ b64.

(** [d.setdefault(k, v)]: the dict afterwards. *)
Definition setdefault (k : string) (v : value) (d : dict) : dict :=
  match dict_get k d with
  | Some _ => d
  | None => dict_set k v d
  end.

(** How [attach_input_image] fails: on an object without [setdefault]
    or [append] (AttributeError), or on reading the image file. *)
Inductive attach_error : Type :=
| NoSuchAttribute
| ImageNotRead.

(** [image] is [(ext, b64)] for a file that could be read, [None] for
    one that could not.  The two [setdefault] and the lookup of [append]
    come before the file is read. *)
Definition attach_input_image (payload : value)
    (image : option (string * string)) (name : value)
  : value + attach_error :=
  match payload with
  | VDict p =>
      let p1 := setdefault "input" (VDict []) p in
      match dict_get "input" p1 with
      | Some (VDict i) =>
          let i1 := setdefault "images" (VList []) i in
          match dict_get "images" i1 with
          | Some (VList images) =>
              match image with
              | Some (ext, b64) =>
                  let entry :=
                    VDict [("name", name);
                           ("image", VStr (encode_image_data_uri ext b64))] in
                  inl (VDict (dict_set "input"
                                (VDict (dict_set "images"
                                          (VList (images ++ [entry])) i1))
                                p1))
              | None => inr ImageNotRead
              end
          | _ => inr NoSuchAttribute
          end
      | _ => inr NoSuchAttribute
      end
  | _ => inr NoSuchAttribute
  end.

(** [payload["input"]["images"]], where there is such a list. *)
Definition images_of (payload : value) : option (list value) :=
  match payload with
  | VDict p =>
      match dict_get "input" p with
      | Some (VDict i) =>
          match dict_get "images" i with
          | Some (VList l) => Some l
          | _ => None
          end
      | _ => None
      end
  | _ => None
  end.

Definition legacy_image (msg : string) : value :=
  VDict [("filename", VStr "output.png"); ("type", VStr "base64");
         ("data", VStr msg)].

Definition extract_images_from_result (result : value)
  : Result (list value) :=
  match result with
  | VDict r =>
      output <- Prompt.or_empty_dict (get_or_none "output" r) ;;
      match dict_get "images" output with
      | Some (VList (first :: more)) => Ok (first :: more)
      | _ =>
          match dict_get "message" output with
          | Some (VStr msg) =>
              if Str.is_empty (Str.strip msg) then Ok []
              else Ok [legacy_image msg]
          | _ => Ok []
          end
      end
  | _ => Raise AttributeError
  end.

(** ["," in data] *)
Definition has_comma (data : value) : Result bool :=
  match data with
  | VStr s => Ok (Str.contains "," s)
  | VList l =>
      Ok (existsb (fun x => match x with
                            | VStr s => String.eqb s ","
                            | _ => false
                            end) l)
  | VDict d => Ok (dict_mem "," d)
  | _ => Raise TypeError
  end.

(** [data.split(",", 1)[1]] for a text that holds a comma. *)
Fixpoint after_comma (s : string) : string :=
  match s with
  | EmptyString => EmptyString
  | String c r => if Ascii.eqb c ","%char then r else after_comma r
  end.

(** [f"image_{i:02d}.png"] *)
Definition default_name (i : nat) : string :=
  "image_" ++ (if Nat.ltb i 10 then "0" else EmptyString)
  ++ Str.of_Z (Z.of_nat i) ++ ".png".

(** What [save_images] does to the outside: the line it prints for an
    image kept in remote storage, or the decoding and saving of an image
    under [outdir / filename] (followed by the line that reports it). *)
Inductive save_event : Type :=
| S3Printed (line : string)
| Stored (filename : value) (data : value).

(** How [save_images] fails: a Python exception of the loop itself, or
    a failure of the decoding, opening or saving of an image. *)
Inductive save_error : Type :=
| LoopRaised (e : exn)
| StoreFailed.

Section WithLibrary.

Variable L : Builtins.
Variable lower : string -> string.

(** [store filename data]: whether [base64.b64decode], [Image.open],
    [outdir / filename] and [img.save] all succeed. *)
Variable store : value -> value -> bool.

(** The body of the loop, for item number [i]. *)
Definition save_item (i : nat) (item : value)
  : list save_event * option save_error :=
  match item with
  | VDict d =>
      let filename :=
        if truthy (get_or_none "filename" d) then get_or_none "filename" d
        else VStr (default_name i) in
      let t := get_or_none "type" d in
      match (if truthy t then
               match t with
               | VStr s => Ok (lower s)
               | _ => Raise AttributeError
               end
             else Ok (lower "base64")) with
      | Raise e => ([], Some (LoopRaised e))
      | Ok typ =>
          let data :=
            if truthy (get_or_none "data" d) then get_or_none "data" d
            else VStr EmptyString in
          if String.eqb typ "s3_url" then
            ([S3Printed ("[S3] " ++ str_of L filename ++ " -> "
                         ++ str_of L data)], None)
          else
            match has_comma data with
            | Raise e => ([], Some (LoopRaised e))
            | Ok true =>
                match data with
                | VStr s =>
                    if store filename (VStr (after_comma s))
                    then ([Stored filename (VStr (after_comma s))], None)
                    else ([], Some StoreFailed)
                | _ => ([], Some (LoopRaised AttributeError))
                end
            | Ok false =>
                if store filename data
                then ([Stored filename data], None)
                else ([], Some StoreFailed)
            end
      end
  | _ => ([], Some (LoopRaised AttributeError))
  end.

Fixpoint save_from (i : nat) (images : list value)
  : list save_event * option save_error :=
  match images with
  | [] => ([], None)
  | item :: rest =>
      match save_item i item with
      | (events, Some e) => (events, Some e)
      | (events, None) =>
          let r := save_from (S i) rest in (events ++ fst r, snd r)
      end
  end.

(** [save_images], after [outdir.mkdir]; [enumerate] starts at 1. *)
Definition save_images (images : list value)
  : list save_event * option save_error :=
  save_from 1 images.

End WithLibrary.

End Images.

Import Images.

(** ** Inputs for the image functions *)

Module ImageInputs.

Definition first_entry : value :=
  VDict [("name", VStr "a.png");
         ("image", VStr "data:image/png;base64,AAAA")].

(** A payload that carries one input image already. *)
Definition with_one_image : value :=
  VDict [("input",
          VDict [("workflow", VDict PromptInputs.two_prompts);
                 ("images", VList [first_entry])])].

Definition second_entry : value :=
  VDict [("name", VStr "b.jpg");
         ("image", VStr "data:image/jpeg;base64,BBBB")].

Definition with_two_images : value :=
  VDict [("input",
          VDict [("workflow", VDict PromptInputs.two_prompts);
                 ("images", VList [first_entry; second_entry])])].

End ImageInputs.


(** ** The program from its start: [main], lines 415-475 *)

Module Entry.

(** The parsed command line. *)
Record Args : Type := {
  workflow : string;
  mode : string;
  prompt : string;
  outdir : string;
  input_image : option string;
  input_name : option string;
  wait_ms : Z;
  max_wait_s : Z
}.

(** What the program reads from its surroundings: the two environment
    variables, the file system and [json.loads].  A workflow file that
    exists can be read as UTF-8 text; [read_image] is [(ext, b64)] for
    an image file that can be read; [result_json] is the text of
    [outdir / "result.json"]. *)
Record Env : Type := {
  api_key : option string;
  endpoint_id : option string;
  path_exists : string -> bool;
  beside_script : string -> string;
  read_text : string -> string;
  json_loads : string -> value + string;
  read_image : string -> option (string * string);
  result_json : string -> string
}.

(** How the program stops early: [SystemExit] with a message, or an
    exception nothing catches. *)
Inductive stop : Type :=
| Exits (msg : string)
| Uncaught (e : exn)
| UncaughtIndexError
| UncaughtReadError.

(** [not x] is false. *)
Definition given (x : option string) : bool :=
  match x with
  | Some s => negb (Str.is_empty s)
  | None => false
  end.

(** [", ".join(keys)] *)
Fixpoint comma_join (keys : list string) : string :=
  match keys with
  | [] => EmptyString
  | [k] => k
  | k :: rest => (k ++ ", " ++ comma_join rest)%string
  end.

(** [str(x)] of an optional text. *)
Definition shown (x : option string) : string :=
  match x with
  | Some s => s
  | None => "None"
  end.

Definition as_value (x : option string) : value :=
  match x with
  | Some s => VStr s
  | None => VNone
  end.

Definition missing_env : string :=
  "Missing env vars: RUNPOD_API_KEY / ENDPOINT_ID".

Section WithWorld.

Variable L : Builtins.
Variable R : Remote.
Variable lower : string -> string.
Variable E : Env.

Definition workflow_path (a : Args) : string :=
  resolve_workflow_path (path_exists E) (beside_script E) (workflow a).

(** Lines 415-437: the lines printed, and the payload to submit or the
    way the program stops. *)
Definition prepare (a : Args) : list string * (value + stop) :=
  if negb (given (api_key E) && given (endpoint_id E))
  then ([], inr (Exits missing_env))
  else
    let path := workflow_path a in
    match load_payload (json_loads E) path
            (if path_exists E path then Some (read_text E path) else None)
    with
    | inr (NoSuchFile msg) => ([], inr (Exits msg))
    | inr (BadJSON msg) => ([], inr (Exits msg))
    | inr NoFirstLine => ([], inr UncaughtIndexError)
    | inl loaded =>
        match sanitize_workflow loaded with
        | Raise (ValueError msg) => ([], inr (Exits msg))
        | Raise e => ([], inr (Uncaught e))
        | Ok (sanitized, removed_keys) =>
            let log1 :=
              match removed_keys with
              | [] => []
              | _ => [("[INFO] sanitized workflow keys: "
                       ++ comma_join removed_keys)%string]
              end in
            match (if Str.is_empty (prompt a) then Ok (sanitized, [])
                   else
                     r <- patch_positive_prompt lower sanitized (prompt a) ;;
                     Ok (fst r,
                         [("[INFO] patched positive prompt nodes: "
                           ++ Str.of_Z (Z.of_nat (snd r)))%string]))
            with
            | Raise e => (log1, inr (Uncaught e))
            | Ok (prompted, log2) =>
                if given (input_image a) then
                  match attach_input_image prompted
                          (read_image E (shown (input_image a)))
                          (as_value (input_name a))
                  with
                  | inl attached =>
                      (log1 ++ log2
                       ++ [("[INFO] attached input image: "
                            ++ shown (input_image a) ++ " as name="
                            ++ shown (input_name a))%string],
                       inl attached)
                  | inr NoSuchAttribute =>
                      (log1 ++ log2, inr (Uncaught AttributeError))
                  | inr ImageNotRead => (log1 ++ log2, inr UncaughtReadError)
                  end
                else (log1 ++ log2, inl prompted)
            end
        end
    end.

(** How the program ends: past line 475 (the job is COMPLETED), stopped,
    or still polling when the fuel is spent. *)
Inductive ending : Type :=
| Completed
| Stopped (s : stop)
| Polling.

(** [main] from line 415 to line 475. *)
Definition main_from_start (fuel : nat) (a : Args) : list event * ending :=
  match prepare a with
  | (log, inr s) => (map Printed log, Stopped s)
  | (log, inl payload) =>
      let run :=
        main L R fuel payload (mode a) (wait_ms a) (max_wait_s a)
          (result_json E (outdir a)) in
      (map Printed log ++ fst run,
       match snd run with
       | Done _ => Completed
       | Raised (SystemExit msg) => Stopped (Exits msg)
       | Raised e => Stopped (Uncaught e)
       | Running => Polling
       end)
  end.

End WithWorld.

End Entry.

(** ** Inputs for the whole program *)

Module EntryInputs.

Import Entry.

Definition args : Args :=
  {| workflow := "comfyui_workflow.json";
     mode := "runsync";
     prompt := "a dog";
     outdir := "outputs";
     input_image := None;
     input_name := None;
     wait_ms := 120000;
     max_wait_s := 600 |}.

(** The workflow file holds the graph of [PromptInputs.two_prompts]
    and a note. *)
Definition env : Env :=
  {| api_key := Some "key";
     endpoint_id := Some "endpoint";
     path_exists := fun p => String.eqb p "comfyui_workflow.json";
     beside_script := fun p => ("/app/" ++ p)%string;
     read_text := fun _ => "{...}";
     json_loads := fun _ =>
       inl (VDict (("#note", VStr "draft") :: PromptInputs.two_prompts));
     read_image := fun _ => None;
     result_json := fun d => (d ++ "/result.json")%string |}.

(** The same surroundings, where no workflow file exists. *)
Definition env_without_file : Env :=
  {| api_key := Some "key";
     endpoint_id := Some "endpoint";
     path_exists := fun _ => false;
     beside_script := fun p => ("/app/" ++ p)%string;
     read_text := fun _ => EmptyString;
     json_loads := fun _ => inr "Expecting value";
     read_image := fun _ => None;
     result_json := fun d => (d ++ "/result.json")%string |}.

(** What the program submits in the surroundings [env]: the graph of
    the file without its note, with the prompt of [args]. *)
Definition submitted : value :=
  VDict [("input",
          VDict [("workflow",
                  VDict [("6", PromptInputs.encode_node
                                 "CLIP Text Encode (Positive Prompt)" "a dog");
                         ("7", PromptInputs.encode_node
                                 "CLIP Text Encode (Negative Prompt)"
                                 "blurry")])])].

End EntryInputs.
(** * Properties *)

(** ** Dictionaries *)

Section DictFacts.

Context {A : Type}.
Implicit Types (d : list (string * A)) (k : string) (v : A).

Lemma dict_get_set_eq k v d : dict_get k (dict_set k v d) = Some v.
Proof.
  induction d as [|[k' v'] r IH]; simpl.
  - now rewrite String.eqb_refl.
  - destruct (String.eqb k k') eqn:E; simpl.
    + now rewrite String.eqb_refl.
    + now rewrite E.
Qed.

Lemma dict_get_set_neq k k' v d :
  k <> k' -> dict_get k' (dict_set k v d) = dict_get k' d.
Proof.
  intros Hne. induction d as [|[k0 v0] r IH]; simpl.
  - destruct (String.eqb k' k) eqn:E; [|reflexivity].
    apply String.eqb_eq in E. congruence.
  - destruct (String.eqb k k0) eqn:E; simpl.
    + apply String.eqb_eq in E. subst k0.
      destruct (String.eqb k' k) eqn:E'; [|reflexivity].
      apply String.eqb_eq in E'. congruence.
    + now rewrite IH.
Qed.

Lemma dict_set_same k v d : dict_get k d = Some v -> dict_set k v d = d.
Proof.
  induction d as [|[k' v'] r IH]; simpl; [discriminate|].
  destruct (String.eqb k k') eqn:E.
  - apply String.eqb_eq in E. intros [= ->]. now subst.
  - intros H. now rewrite IH.
Qed.

Lemma dict_get_pop k k' d :
  dict_get k' (dict_pop k d) =
  if String.eqb k k' then None else dict_get k' d.
Proof.
  unfold dict_pop. induction d as [|[k0 v0] r IH]; simpl.
  - now destruct (String.eqb k k').
  - destruct (String.eqb k k0) eqn:E0; simpl.
    + apply String.eqb_eq in E0. subst k0. rewrite IH.
      destruct (String.eqb k k') eqn:E; [reflexivity|].
      rewrite String.eqb_sym, E. reflexivity.
    + rewrite IH. destruct (String.eqb k' k0) eqn:E1; [|reflexivity].
      apply String.eqb_eq in E1. subst k0. now rewrite E0.
Qed.

End DictFacts.

(** ** Substrings *)

Lemma prefix_app (p s : string) :
  String.prefix p s = true <-> exists b, s = (p ++ b)%string.
Proof.
  revert s. induction p as [|c p IH]; intros s.
  - split; [intros _; now exists s | intros _; now destruct s].
  - destruct s as [|c' s]; simpl.
    + split; [discriminate | intros [b H]; discriminate].
    + destruct (ascii_dec c c') as [->|Hne].
      * rewrite IH. split; intros [b H]; exists b; congruence.
      * split; [discriminate | intros [b H]; congruence].
Qed.

Lemma contains_unfold (needle hay : string) :
  Str.contains needle hay =
  if String.prefix needle hay then true
  else match hay with
       | EmptyString => false
       | String _ r => Str.contains needle r
       end.
Proof. destruct hay; reflexivity. Qed.

Lemma contains_substring (needle hay : string) :
  Str.contains needle hay = true <->
  exists a b, hay = (a ++ needle ++ b)%string.
Proof.
  induction hay as [|c hay IH]; rewrite contains_unfold.
  - destruct (String.prefix needle EmptyString) eqn:E.
    + split; [intros _|reflexivity].
      apply prefix_app in E. destruct E as [b E]. now exists EmptyString, b.
    + split; [discriminate|]. intros (a & b & H).
      destruct a; simpl in H.
      * assert (String.prefix needle EmptyString = true)
          by (apply prefix_app; now exists b).
        congruence.
      * discriminate.
  - destruct (String.prefix needle (String c hay)) eqn:E.
    + split; [intros _|reflexivity].
      apply prefix_app in E. destruct E as [b E]. now exists EmptyString, b.
    + rewrite IH. split.
      * intros (a & b & H). exists (String c a), b. simpl. now rewrite H.
      * intros (a & b & H). destruct a as [|c' a]; simpl in H.
        -- assert (String.prefix needle (String c hay) = true)
             by (apply prefix_app; now exists b).
           congruence.
        -- injection H as _ H. now exists a, b.
Qed.

(** ** Validation Issue Parser *)

(** C2. A text that does not contain the marker "Workflow validation
    failed" parses to the empty list of issues, whatever the library
    functions are; the parser is a total function, so nothing is raised. *)
Theorem parse_without_marker (L : Builtins) (text : string) :
  (~ exists a b, text = (a ++ marker ++ b)%string) ->
  parse_validation_issues L (VStr text) = [].
Proof.
  intros H. unfold parse_validation_issues.
  destruct (Str.contains marker text) eqn:E; [|reflexivity].
  exfalso. apply H. now apply contains_substring.
Qed.

Lemma parse_without_marker_witness :
  parse_validation_issues Demo.builtins (VStr EmptyString) = []
  /\ parse_validation_issues Demo.builtins (VStr "502 Bad Gateway") = [].
Proof.
  split; apply parse_without_marker; intros H;
    apply contains_substring in H; vm_compute in H; discriminate.
Defined.

(** ** Fallback Patcher *)

Section PatcherFacts.

Variable L : Builtins.

Implicit Types (w cur node inputs : dict) (p m : list string) (i : Issue).

Lemma get_set_workflow payload w w' :
  get_workflow payload = Ok (Some (VDict w)) ->
  get_workflow (set_workflow payload w') = Ok (Some (VDict w')).
Proof.
  unfold get_workflow, set_workflow.
  destruct payload as [| | | | | |p]; try discriminate.
  destruct (dict_get "input" p) as [[| | | | | |i]|] eqn:Ei; try discriminate.
  intros _. now rewrite !dict_get_set_eq.
Qed.

Lemma set_workflow_same payload w :
  get_workflow payload = Ok (Some (VDict w)) -> set_workflow payload w = payload.
Proof.
  unfold get_workflow, set_workflow.
  destruct payload as [| | | | | |p]; try discriminate.
  destruct (dict_get "input" p) as [[| | | | | |i]|] eqn:Ei; try discriminate.
  intros [= H]. rewrite (dict_set_same _ _ _ H).
  now rewrite (dict_set_same _ _ _ Ei).
Qed.

Lemma apply_unfold payload w issues :
  get_workflow payload = Ok (Some (VDict w)) ->
  apply_validation_fallbacks L payload issues =
  let st := fold_left (fallback_step L) issues (w, [], []) in
  Ok (set_workflow payload (fst (fst st)), snd (fst st), snd st).
Proof.
  intros H. unfold apply_validation_fallbacks. rewrite H. simpl.
  now destruct (fold_left _ _ _) as [[w' p'] m'].
Qed.

Lemma differs_false old c : differs old c = false <-> old = VStr c.
Proof.
  destruct old; simpl; try (split; [discriminate | intros [=]]).
  rewrite negb_false_iff, String.eqb_eq. split; [now intros -> | now intros [=]].
Qed.

Lemma step_absent w p m i :
  node_inputs (node_id i) w = None ->
  fallback_step L (w, p, m) i = (w, p, m).
Proof. intros H. unfold fallback_step. now rewrite H. Qed.

Lemma step_missing w p m i node inputs :
  node_inputs (node_id i) w = Some (node, inputs) ->
  choices i = [] ->
  fallback_step L (w, p, m) i = (w, p, m ++ [missing_message L i]).
Proof. intros H Hc. unfold fallback_step. now rewrite H, Hc. Qed.

Lemma step_patch w p m i node inputs c rest :
  node_inputs (node_id i) w = Some (node, inputs) ->
  choices i = c :: rest ->
  get_or_none (input_name i) inputs <> VStr c ->
  fallback_step L (w, p, m) i =
  (dict_set (node_id i)
     (VDict (dict_set "inputs"
               (VDict (dict_set (input_name i) (VStr c) inputs)) node)) w,
   p ++ [patched_message L i (get_or_none (input_name i) inputs) c],
   m).
Proof.
  intros H Hc Hd. unfold fallback_step. rewrite H, Hc.
  destruct (differs _ c) eqn:E; [reflexivity|].
  apply differs_false in E. contradiction.
Qed.

Lemma step_converged w p m i node inputs c rest :
  node_inputs (node_id i) w = Some (node, inputs) ->
  choices i = c :: rest ->
  dict_get (input_name i) inputs = Some (VStr c) ->
  fallback_step L (w, p, m) i = (w, p, m).
Proof.
  intros H Hc Hg. unfold fallback_step. rewrite H, Hc.
  unfold get_or_none. rewrite Hg. simpl. now rewrite String.eqb_refl.
Qed.

Lemma node_inputs_patched nid node inputs' w :
  node_inputs nid
    (dict_set nid (VDict (dict_set "inputs" (VDict inputs') node)) w)
  = Some (dict_set "inputs" (VDict inputs') node, inputs').
Proof. unfold node_inputs. now rewrite !dict_get_set_eq. Qed.

Lemma node_inputs_other nid nid' v w :
  nid' <> nid ->
  node_inputs nid (dict_set nid' v w) = node_inputs nid w.
Proof. intros H. unfold node_inputs. now rewrite dict_get_set_neq. Qed.

(** A node that is absent stays absent: a patch only rewrites a node
    that is there. *)
Lemma step_keeps_absent nid st i :
  node_inputs nid (fst (fst st)) = None ->
  node_inputs nid (fst (fst (fallback_step L st i))) = None.
Proof.
  destruct st as [[w p] m]. simpl. intros H. unfold fallback_step.
  destruct (node_inputs (node_id i) w) as [[node inputs]|] eqn:E; [|exact H].
  destruct (choices i) as [|c rest]; [exact H|].
  destruct (differs _ c); [|exact H].
  simpl. destruct (string_dec (node_id i) nid) as [<-|Hne].
  - congruence.
  - now rewrite node_inputs_other.
Qed.

Lemma fold_keeps_absent nid issues st :
  node_inputs nid (fst (fst st)) = None ->
  node_inputs nid (fst (fst (fold_left (fallback_step L) issues st))) = None.
Proof.
  revert st. induction issues as [|i r IH]; intros st H; simpl; [exact H|].
  apply IH. now apply step_keeps_absent.
Qed.

Lemma fold_skips_absent pre i post st :
  node_inputs (node_id i) (fst (fst st)) = None ->
  fold_left (fallback_step L) (pre ++ i :: post) st =
  fold_left (fallback_step L) (pre ++ post) st.
Proof.
  intros H. rewrite !fold_left_app. simpl. f_equal.
  pose proof (fold_keeps_absent (node_id i) pre st H) as H'.
  destruct (fold_left (fallback_step L) pre st) as [[w p] m].
  now apply step_absent.
Qed.

End PatcherFacts.

Lemma model_dir_unknown (c : string) :
  ~ In c ["UNETLoader"; "CLIPLoader"; "VAELoader"; "CheckpointLoaderSimple";
          "DualCLIPLoader"] ->
  model_dir c = "models/<unknown>".
Proof.
  intros H. unfold model_dir, model_dir_by_class. cbn [dict_get].
  repeat match goal with
         | |- context [String.eqb c ?k] =>
             destruct (String.eqb c k) eqn:Heq;
             [apply String.eqb_eq in Heq; exfalso; apply H; subst c; simpl; tauto
             |clear Heq]
         end.
  reflexivity.
Qed.

(** C4, amended.  An issue whose list of choices is empty never changes
    the graph.  When its node is in the graph with an inputs mapping, the
    turn of the loop adds exactly one missing message, which names the
    node, the class, the input, the received value and the directory of
    the class in the fixed table (a placeholder for a class outside the
    table); when the node is not there, the issue is skipped and nothing
    is reported.  [cur] is the graph at the turn of the issue, [w] the
    graph of the payload when the patcher is called with this issue
    alone. *)
Theorem empty_choices_report (L : Builtins) (payload : value)
    (w cur : dict) (p m : list string) (i : Issue) :
  get_workflow payload = Ok (Some (VDict w)) ->
  choices i = [] ->
  let report (g : dict) :=
    match node_inputs (node_id i) g with
    | Some _ => [missing_message L i]
    | None => []
    end in
  fallback_step L (cur, p, m) i = (cur, p, m ++ report cur)
  /\ apply_validation_fallbacks L payload [i] = Ok (payload, [], report w)
  /\ missing_message L i =
     ("Node " ++ node_id i ++ " (" ++ class_type i ++ ") " ++ input_name i
      ++ ": required=" ++ repr L (received_value i)
      ++ ", available=[] (put model under " ++ model_dir (class_type i)
      ++ ")")%string
  /\ model_dir "UNETLoader" = "models/unet"
  /\ model_dir "CLIPLoader" = "models/clip"
  /\ model_dir "VAELoader" = "models/vae"
  /\ model_dir "CheckpointLoaderSimple" = "models/checkpoints"
  /\ model_dir "DualCLIPLoader" = "models/clip"
  /\ (forall c,
        ~ In c ["UNETLoader"; "CLIPLoader"; "VAELoader";
                "CheckpointLoaderSimple"; "DualCLIPLoader"] ->
        model_dir c = "models/<unknown>").
Proof.
  intros Hw Hc report.
  assert (Hstep : forall g a b,
             fallback_step L (g, a, b) i = (g, a, b ++ report g)).
  { intros g a b. subst report. cbv beta.
    destruct (node_inputs (node_id i) g) as [[node inputs]|] eqn:E.
    - now apply step_missing with (node := node) (inputs := inputs).
    - rewrite app_nil_r. now apply step_absent. }
  split; [apply Hstep|].
  split.
  { rewrite (apply_unfold L payload w [i] Hw). cbn [fold_left].
    rewrite Hstep. cbn [fst snd app].
    now rewrite (set_workflow_same payload w Hw). }
  split; [reflexivity|].
  repeat (split; [reflexivity|]).
  exact model_dir_unknown.
Qed.

Lemma empty_choices_report_witness :
  apply_validation_fallbacks Demo.builtins
    (Cases.loader_payload [("unet_name", VStr "flux.safetensors")])
    [Cases.unet_issue "9" []]
  = Ok (Cases.loader_payload [("unet_name", VStr "flux.safetensors")], [],
        ["Node 9 (UNETLoader) unet_name: required='flux.safetensors', available=[] (put model under models/unet)"]).
Proof.
  exact (proj1 (proj2
    (empty_choices_report Demo.builtins
       (Cases.loader_payload [("unet_name", VStr "flux.safetensors")])
       [("9", VDict [("class_type", VStr "UNETLoader");
                     ("inputs", VDict [("unet_name", VStr "flux.safetensors")])])]
       [] [] [] (Cases.unet_issue "9" []) eq_refl eq_refl))).
Defined.

(** C4 as first stated fails: an issue with no choices whose node is not
    in the graph gets no missing message. *)
Lemma empty_choices_absent_node_counterexample :
  choices (Cases.unet_issue "12" []) = []
  /\ apply_validation_fallbacks Demo.builtins
       (Cases.loader_payload [("unet_name", VStr "flux.safetensors")])
       [Cases.unet_issue "12" []]
     = Ok (Cases.loader_payload [("unet_name", VStr "flux.safetensors")], [], [])
  /\ ~ (exists payload' patched msg,
          apply_validation_fallbacks Demo.builtins
            (Cases.loader_payload [("unet_name", VStr "flux.safetensors")])
            [Cases.unet_issue "12" []]
          = Ok (payload', patched, [msg])).
Proof.
  split; [reflexivity|]. split; [reflexivity|].
  intros (payload' & patched & msg & H). vm_compute in H. discriminate.
Qed.

(** C5, amended.  An issue whose node is not in the graph as a mapping
    with an inputs mapping is skipped: its turn leaves the graph and both
    message lists as they are, and the whole call gives the same result
    as without the issue, wherever the issue stands in the list. *)
Theorem absent_node_skipped (L : Builtins) (payload : value) (w : dict)
    (p m : list string) (pre post : list Issue) (i : Issue) :
  get_workflow payload = Ok (Some (VDict w)) ->
  node_inputs (node_id i) w = None ->
  fallback_step L (w, p, m) i = (w, p, m)
  /\ apply_validation_fallbacks L payload [i] = Ok (payload, [], [])
  /\ apply_validation_fallbacks L payload (pre ++ i :: post)
     = apply_validation_fallbacks L payload (pre ++ post).
Proof.
  intros Hw Ha. split; [now apply step_absent|]. split.
  - rewrite (apply_unfold L payload w [i] Hw). cbn [fold_left].
    rewrite step_absent by exact Ha. cbn [fst snd].
    now rewrite (set_workflow_same payload w Hw).
  - rewrite !(apply_unfold L payload w _ Hw).
    now rewrite fold_skips_absent.
Qed.

Lemma absent_node_skipped_witness :
  apply_validation_fallbacks Demo.builtins
    (Cases.loader_payload [("unet_name", VStr "flux.safetensors")])
    [Cases.unet_issue "12" ["a.safetensors"]]
  = Ok (Cases.loader_payload [("unet_name", VStr "flux.safetensors")], [], []).
Proof.
  exact (proj1 (proj2
    (absent_node_skipped Demo.builtins
       (Cases.loader_payload [("unet_name", VStr "flux.safetensors")])
       [("9", VDict [("class_type", VStr "UNETLoader");
                     ("inputs", VDict [("unet_name", VStr "flux.safetensors")])])]
       [] [] [] [] (Cases.unet_issue "12" ["a.safetensors"])
       eq_refl eq_refl))).
Defined.

(** C5 as first stated fails: when the node and its inputs mapping are
    there and only the input name is missing from the mapping, the issue is
    not skipped; the input is added and a patched message is returned. *)
Lemma absent_input_patched_counterexample :
  dict_get "unet_name" ([] : dict) = None
  /\ apply_validation_fallbacks Demo.builtins (Cases.loader_payload [])
       [Cases.unet_issue "9" ["a.safetensors"]]
     = Ok (Cases.loader_payload [("unet_name", VStr "a.safetensors")],
           ["Node 9 (UNETLoader) unet_name: None -> 'a.safetensors'"], [])
  /\ apply_validation_fallbacks Demo.builtins (Cases.loader_payload [])
       [Cases.unet_issue "9" ["a.safetensors"]]
     <> Ok (Cases.loader_payload [], [], []).
Proof.
  split; [reflexivity|]. split; [reflexivity|].
  intros H. vm_compute in H. discriminate.
Qed.

(** C7.  An issue with choices [c0 :: _] whose input does not hold [c0]
    yet (node and inputs mapping present) sets the input to [c0] and
    returns exactly one patched message and no missing message; the patcher
    run again with the same issue on the payload it left changes nothing
    and returns no message. *)
Theorem patch_then_converged (L : Builtins) (payload : value) (w : dict)
    (i : Issue) (c0 : string) (rest : list string) (node inputs : dict) :
  get_workflow payload = Ok (Some (VDict w)) ->
  choices i = c0 :: rest ->
  node_inputs (node_id i) w = Some (node, inputs) ->
  dict_get (input_name i) inputs <> Some (VStr c0) ->
  exists payload' w' node' inputs',
    apply_validation_fallbacks L payload [i]
    = Ok (payload',
          [patched_message L i (get_or_none (input_name i) inputs) c0], [])
    /\ get_workflow payload' = Ok (Some (VDict w'))
    /\ node_inputs (node_id i) w' = Some (node', inputs')
    /\ dict_get (input_name i) inputs' = Some (VStr c0)
    /\ apply_validation_fallbacks L payload' [i] = Ok (payload', [], []).
Proof.
  intros Hw Hc Hn Hd.
  set (inputs' := dict_set (input_name i) (VStr c0) inputs).
  set (node' := dict_set "inputs" (VDict inputs') node).
  set (w' := dict_set (node_id i) (VDict node') w).
  exists (set_workflow payload w'), w', node', inputs'.
  assert (Hold : get_or_none (input_name i) inputs <> VStr c0).
  { unfold get_or_none. destruct (dict_get (input_name i) inputs); congruence. }
  assert (Hw' : get_workflow (set_workflow payload w') = Ok (Some (VDict w')))
    by (eapply get_set_workflow; exact Hw).
  assert (Hn' : node_inputs (node_id i) w' = Some (node', inputs'))
    by apply node_inputs_patched.
  assert (Hg' : dict_get (input_name i) inputs' = Some (VStr c0))
    by apply dict_get_set_eq.
  split.
  { rewrite (apply_unfold L payload w [i] Hw). cbn [fold_left].
    rewrite (step_patch L w [] [] i node inputs c0 rest Hn Hc Hold).
    reflexivity. }
  split; [exact Hw'|]. split; [exact Hn'|]. split; [exact Hg'|].
  rewrite (apply_unfold L _ w' [i] Hw'). cbn [fold_left].
  rewrite (step_converged L w' [] [] i node' inputs' c0 rest Hn' Hc Hg').
  cbn [fst snd]. now rewrite (set_workflow_same _ w' Hw').
Qed.

Lemma patch_then_converged_witness :
  exists payload' w' node' inputs',
    apply_validation_fallbacks Demo.builtins
      (Cases.loader_payload [("unet_name", VStr "flux.safetensors")])
      [Cases.unet_issue "9" ["a.safetensors"; "b.safetensors"]]
    = Ok (payload',
          ["Node 9 (UNETLoader) unet_name: 'flux.safetensors' -> 'a.safetensors'"],
          [])
    /\ get_workflow payload' = Ok (Some (VDict w'))
    /\ node_inputs "9" w' = Some (node', inputs')
    /\ dict_get "unet_name" inputs' = Some (VStr "a.safetensors")
    /\ apply_validation_fallbacks Demo.builtins payload'
         [Cases.unet_issue "9" ["a.safetensors"; "b.safetensors"]]
       = Ok (payload', [], []).
Proof.
  apply (patch_then_converged Demo.builtins
           (Cases.loader_payload [("unet_name", VStr "flux.safetensors")])
           [("9", VDict [("class_type", VStr "UNETLoader");
                         ("inputs", VDict [("unet_name", VStr "flux.safetensors")])])]
           (Cases.unet_issue "9" ["a.safetensors"; "b.safetensors"])
           "a.safetensors" ["b.safetensors"]
           [("class_type", VStr "UNETLoader");
            ("inputs", VDict [("unet_name", VStr "flux.safetensors")])]
           [("unet_name", VStr "flux.safetensors")]
           eq_refl eq_refl eq_refl).
  simpl. discriminate.
Defined.

(** ** Scenario B *)

Lemma scenario_lines :
  Str.contains marker ScenarioB.error_text = true
  /\ Str.splitlines ScenarioB.error_text
     = [ScenarioB.line0; ScenarioB.line1; ScenarioB.line2].
Proof. split; vm_compute; reflexivity. Qed.

Lemma scenario_patterns :
  errors_pattern ScenarioB.line0 = None
  /\ class_pattern ScenarioB.line0 = None
  /\ errors_pattern ScenarioB.line1 = Some ("12", ScenarioB.raw_errors)
  /\ Str.strip ScenarioB.raw_errors = ScenarioB.raw_errors
  /\ errors_pattern ScenarioB.line2 = None
  /\ class_pattern ScenarioB.line2 = Some ("12", "CheckpointLoaderSimple")
  /\ Str.strip "CheckpointLoaderSimple" = "CheckpointLoaderSimple".
Proof. repeat split; vm_compute; reflexivity. Qed.

Lemma scenario_parse (L : Builtins) :
  literal_eval L ScenarioB.raw_errors = Some ScenarioB.literal ->
  parse_validation_issues L (VStr ScenarioB.error_text) = [ScenarioB.issue].
Proof.
  intros Hlit.
  destruct scenario_lines as [Hc Hl].
  destruct scenario_patterns as (E0 & C0 & E1 & S1 & E2 & C2 & S2).
  unfold parse_validation_issues. rewrite Hc, Hl. cbn [negb fold_left].
  unfold scan_line at 3. rewrite E0, C0.
  unfold scan_line at 2. rewrite E1, S1, Hlit. unfold ScenarioB.literal at 1.
  unfold scan_line. rewrite E2, C2, S2.
  vm_compute. reflexivity.
Qed.

(** C1, amended.  The error text of scenario B parses to exactly one
    issue: node 12, class CheckpointLoaderSimple, input ckpt_name, choices
    bar.safetensors and baz.safetensors ([ast.literal_eval] reading the
    list of errors as Python does).  Applied to a payload whose graph has
    node 12 with an inputs mapping that does not hold bar.safetensors as
    ckpt_name already, the patcher sets ckpt_name to bar.safetensors and
    returns exactly one patched message and no missing message. *)
Theorem scenario_B_patch (L : Builtins) (payload : value)
    (w node inputs : dict) :
  literal_eval L ScenarioB.raw_errors = Some ScenarioB.literal ->
  get_workflow payload = Ok (Some (VDict w)) ->
  node_inputs "12" w = Some (node, inputs) ->
  dict_get "ckpt_name" inputs <> Some (VStr "bar.safetensors") ->
  parse_validation_issues L (VStr ScenarioB.error_text) = [ScenarioB.issue]
  /\ exists payload' w' node' inputs',
       apply_validation_fallbacks L payload [ScenarioB.issue]
       = Ok (payload',
             [("Node 12 (CheckpointLoaderSimple) ckpt_name: "
               ++ repr L (get_or_none "ckpt_name" inputs) ++ " -> "
               ++ repr L (VStr "bar.safetensors"))%string],
             [])
       /\ get_workflow payload' = Ok (Some (VDict w'))
       /\ node_inputs "12" w' = Some (node', inputs')
       /\ dict_get "ckpt_name" inputs' = Some (VStr "bar.safetensors").
Proof.
  intros Hlit Hw Hn Hd. split; [now apply scenario_parse|].
  set (inputs' := dict_set "ckpt_name" (VStr "bar.safetensors") inputs).
  set (node' := dict_set "inputs" (VDict inputs') node).
  set (w' := dict_set "12" (VDict node') w).
  exists (set_workflow payload w'), w', node', inputs'.
  assert (Hold : get_or_none "ckpt_name" inputs <> VStr "bar.safetensors").
  { unfold get_or_none. destruct (dict_get "ckpt_name" inputs); congruence. }
  split.
  { rewrite (apply_unfold L payload w [ScenarioB.issue] Hw). cbn [fold_left].
    rewrite (step_patch L w [] [] ScenarioB.issue node inputs
               "bar.safetensors" ["baz.safetensors"] Hn eq_refl Hold).
    reflexivity. }
  split; [eapply get_set_workflow; exact Hw|].
  split; [apply node_inputs_patched | apply dict_get_set_eq].
Qed.

Lemma scenario_B_patch_witness :
  parse_validation_issues Demo.builtins (VStr ScenarioB.error_text)
  = [ScenarioB.issue]
  /\ exists payload' w' node' inputs',
       apply_validation_fallbacks Demo.builtins
         (ScenarioB.payload_with "foo.safetensors") [ScenarioB.issue]
       = Ok (payload',
             ["Node 12 (CheckpointLoaderSimple) ckpt_name: 'foo.safetensors' -> 'bar.safetensors'"],
             [])
       /\ get_workflow payload' = Ok (Some (VDict w'))
       /\ node_inputs "12" w' = Some (node', inputs')
       /\ dict_get "ckpt_name" inputs' = Some (VStr "bar.safetensors").
Proof.
  apply (scenario_B_patch Demo.builtins
           (ScenarioB.payload_with "foo.safetensors")
           [("12", VDict [("class_type", VStr "CheckpointLoaderSimple");
                          ("inputs", VDict [("ckpt_name", VStr "foo.safetensors")])])]
           [("class_type", VStr "CheckpointLoaderSimple");
            ("inputs", VDict [("ckpt_name", VStr "foo.safetensors")])]
           [("ckpt_name", VStr "foo.safetensors")]).
  - vm_compute. reflexivity.
  - reflexivity.
  - reflexivity.
  - simpl. discriminate.
Defined.

(** C1 as first stated fails: a payload whose node 12 already holds
    bar.safetensors has node 12 with an inputs mapping, and the patcher
    returns no patched message for it. *)
Lemma scenario_B_converged_counterexample :
  (exists node inputs,
     node_inputs "12"
       [("12", VDict [("class_type", VStr "CheckpointLoaderSimple");
                      ("inputs", VDict [("ckpt_name", VStr "bar.safetensors")])])]
     = Some (node, inputs))
  /\ apply_validation_fallbacks Demo.builtins
       (ScenarioB.payload_with "bar.safetensors") [ScenarioB.issue]
     = Ok (ScenarioB.payload_with "bar.safetensors", [], [])
  /\ ~ (exists payload' msg,
          apply_validation_fallbacks Demo.builtins
            (ScenarioB.payload_with "bar.safetensors") [ScenarioB.issue]
          = Ok (payload', [msg], [])).
Proof.
  split; [eexists; eexists; reflexivity|]. split; [reflexivity|].
  intros (payload' & msg & H). vm_compute in H. discriminate.
Qed.

(** ** Workflow Sanitizer *)

Lemma sweep_settles (w : dict) (r : list string) (key : string) :
  settled (fst (sweep (w, r) key)) key.
Proof.
  unfold sweep, settled.
  destruct (is_node (dict_get key w)) eqn:En; simpl.
  - intros v Hv. rewrite Hv in En. now left.
  - destruct (removable key) eqn:Er; simpl.
    + intros v. rewrite dict_get_pop, String.eqb_refl. discriminate.
    + intros v _. now right.
Qed.

Lemma sweep_keeps (w : dict) (r : list string) (key k : string) :
  settled w k -> settled (fst (sweep (w, r) key)) k.
Proof.
  unfold sweep, settled. intros H.
  destruct (is_node (dict_get key w)); simpl; [exact H|].
  destruct (removable key); simpl; [|exact H].
  intros v. rewrite dict_get_pop.
  destruct (String.eqb key k); [discriminate | apply H].
Qed.

Lemma fold_sweep_keeps (keys : list string) (st : dict * list string)
    (k : string) :
  settled (fst st) k -> settled (fst (fold_left sweep keys st)) k.
Proof.
  revert st. induction keys as [|key keys IH]; intros [w r] H; simpl;
    [exact H|].
  apply IH. now apply sweep_keeps.
Qed.

Lemma fold_sweep_settles (keys : list string) (st : dict * list string)
    (k : string) :
  In k keys -> settled (fst (fold_left sweep keys st)) k.
Proof.
  revert st. induction keys as [|key keys IH]; intros [w r] Hin; simpl;
    [contradiction|].
  destruct Hin as [->|Hin].
  - apply fold_sweep_keeps. apply sweep_settles.
  - now apply IH.
Qed.

Lemma dict_get_in_keys (w : dict) (k : string) (v : value) :
  dict_get k w = Some v -> In k (dict_keys w).
Proof.
  induction w as [|[k' v'] r IH]; simpl; [discriminate|].
  destruct (String.eqb k k') eqn:E.
  - apply String.eqb_eq in E. now left.
  - intros H. right. now apply IH.
Qed.

Lemma swept_all_settled (w : dict) (k : string) :
  settled (fst (fold_left sweep (dict_keys w) (w, []))) k.
Proof.
  destruct (dict_get k w) as [v|] eqn:E.
  - apply fold_sweep_settles. eapply dict_get_in_keys; exact E.
  - apply fold_sweep_keeps. simpl. intros v. rewrite E. discriminate.
Qed.

(** C6, amended.  When the sanitizer returns without error on a payload
    whose workflow is a mapping, the workflow it leaves is a non-empty
    mapping, and every entry left in it either is a node record (a mapping
    with class_type) or has a name the sweep never removes: one that does
    not start with # and is neither config nor definitions. *)
Theorem sanitized_entries (payload payload' : value) (w : dict)
    (removed : list string) :
  get_workflow payload = Ok (Some (VDict w)) ->
  sanitize_workflow payload = Ok (payload', removed) ->
  exists w' : dict,
    get_workflow payload' = Ok (Some (VDict w'))
    /\ w' <> []
    /\ forall k v, dict_get k w' = Some v ->
                   is_node (Some v) = true \/ removable k = false.
Proof.
  intros Hw Hs. unfold sanitize_workflow in Hs. rewrite Hw in Hs.
  simpl in Hs.
  destruct (is_list_opt (dict_get "nodes" w)
            && is_list_opt (dict_get "links" w))%bool; [discriminate|].
  pose proof (swept_all_settled w) as Hall.
  match type of Hs with
  | context [fold_left sweep ?ks ?st] =>
      change (fold_left sweep (dict_keys w) (w, []))
        with (fold_left sweep ks st) in Hall;
      destruct (fold_left sweep ks st) as [w' r']
  end.
  destruct w' as [|e w'']; [discriminate|].
  injection Hs as <- <-.
  exists (e :: w''). split; [eapply get_set_workflow; exact Hw|].
  split; [discriminate|].
  intros k v Hv. exact (Hall k v Hv).
Qed.

Lemma sanitized_entries_witness :
  exists w' : dict,
    get_workflow Cases.versioned_payload = Ok (Some (VDict w'))
    /\ w' <> []
    /\ forall k v, dict_get k w' = Some v ->
                   is_node (Some v) = true \/ removable k = false.
Proof.
  apply (sanitized_entries Cases.versioned_payload Cases.versioned_payload
           [("3", VDict [("class_type", VStr "KSampler");
                         ("inputs", VDict [])]);
            ("version", VInt 1)] []); reflexivity.
Defined.

(** C6 as first stated fails: an entry that is not a node record and
    whose name is not #..., config or definitions survives the sweep, and a
    workflow that is not a mapping is returned as it is, even empty. *)
Lemma sanitized_not_only_nodes_counterexample :
  sanitize_workflow Cases.versioned_payload = Ok (Cases.versioned_payload, [])
  /\ ~ Cases.node_records_only Cases.versioned_payload
  /\ sanitize_workflow Cases.list_payload = Ok (Cases.list_payload, [])
  /\ ~ Cases.node_records_only Cases.list_payload.
Proof.
  split; [reflexivity|]. split.
  - intros (w & Hw & _ & Hall). injection Hw as <-.
    specialize (Hall "version" (VInt 1) eq_refl). discriminate.
  - split; [reflexivity|]. intros (w & Hw & _). discriminate.
Qed.

(** ** Job Runner *)

Section RunnerFacts.

Variable L : Builtins.
Variable R : Remote.

(** One turn of the polling loop, case by case. *)
Lemma poll_loop_S fuel k job_id max_wait_s i sleep_s :
  poll_loop L R (S fuel) k job_id max_wait_s i sleep_s =
  match status_reply R k job_id i with
  | inr what => ([], Raised (HTTPError what))
  | inl res =>
      match status_upper L res with
      | Raise e => ([Polled res], Raised e)
      | Ok st =>
          if is_terminal st then ([Polled res], Done res)
          else if deadline_passed R k i
          then ([Polled res],
                Raised (TimeoutError (timeout_message max_wait_s st)))
          else
            let r := poll_loop L R fuel k job_id max_wait_s (S i)
                       (next_sleep sleep_s) in
            (Polled res :: Slept sleep_s :: fst r, snd r)
      end
  end.
Proof.
  cbn [poll_loop].
  destruct (status_reply R k job_id i) as [res|what]; [|reflexivity].
  cbv beta iota delta [bindC transport ret emit lift fst snd].
  destruct (status_upper L res) as [st|e]; [|reflexivity].
  destruct (is_terminal st); [reflexivity|].
  destruct (deadline_passed R k i); [reflexivity|].
  destruct (poll_loop L R fuel k job_id max_wait_s (S i) (next_sleep sleep_s))
    as [t [r|e|]]; reflexivity.
Qed.

Lemma is_terminal_spec st :
  is_terminal st = true <-> In st terminal_statuses.
Proof.
  unfold is_terminal. rewrite existsb_exists. split.
  - intros (x & Hin & E). apply String.eqb_eq in E. now subst.
  - intros H. exists st. split; [exact H | apply String.eqb_refl].
Qed.

Lemma poll_timeout fuel k job_id max_wait_s : forall i sleep_s t msg,
  poll_loop L R fuel k job_id max_wait_s i sleep_s
  = (t, Raised (TimeoutError msg)) ->
  exists j res st pre,
    status_reply R k job_id j = inl res
    /\ status_upper L res = Ok st
    /\ is_terminal st = false
    /\ deadline_passed R k j = true
    /\ msg = timeout_message max_wait_s st
    /\ t = pre ++ [Polled res].
Proof.
  induction fuel as [|fuel IH]; intros i sleep_s t msg H;
    [discriminate|].
  rewrite poll_loop_S in H.
  destruct (status_reply R k job_id i) as [res|what] eqn:Er;
    [|discriminate].
  destruct (status_upper L res) as [st|e] eqn:Es.
  - destruct (is_terminal st) eqn:Et; [discriminate|].
    destruct (deadline_passed R k i) eqn:Ed.
    + injection H as <- <-. now exists i, res, st, [].
    + cbv zeta in H.
      destruct (poll_loop L R fuel k job_id max_wait_s (S i) _)
        as [t' o'] eqn:E'.
      simpl in H. injection H as <- ->.
      destruct (IH _ _ _ _ E') as (j & res' & st' & pre & H1 & H2 & H3 & H4 & H5 & H6).
      exists j, res', st', (Polled res :: Slept sleep_s :: pre).
      subst t'. repeat split; assumption.
  - injection H as _ H. subst e.
    unfold status_upper in Es.
    destruct res; try discriminate.
    destruct (truthy _); [|discriminate].
    destruct (get_or_none "status" d); discriminate.
Qed.

Lemma poll_sleeps fuel k job_id max_wait_s : forall i n,
  sleeps (fst (poll_loop L R fuel k job_id max_wait_s i (backoff n)))
  = map backoff
      (seq n (length
                (sleeps (fst (poll_loop L R fuel k job_id max_wait_s i
                                (backoff n)))))).
Proof.
  induction fuel as [|fuel IH]; intros i n; [reflexivity|].
  rewrite poll_loop_S.
  destruct (status_reply R k job_id i) as [res|what]; [|reflexivity].
  destruct (status_upper L res) as [st|e]; [|reflexivity].
  destruct (is_terminal st); [reflexivity|].
  destruct (deadline_passed R k i); [reflexivity|].
  cbv zeta. cbn [fst sleeps flat_map app length seq map].
  change (next_sleep (backoff n)) with (backoff (S n)).
  f_equal. apply (IH (S i) (S n)).
Qed.

End RunnerFacts.

Lemma backoff_capped (n : nat) : backoff (9 + n) = 10.0%float.
Proof.
  induction n as [|n IH].
  - vm_compute. reflexivity.
  - replace (9 + S n)%nat with (S (9 + n)) by lia.
    cbn [backoff]. rewrite IH. vm_compute. reflexivity.
Qed.

Lemma backoff_split (n : nat) : (n < 9)%nat \/ exists m, n = (9 + m)%nat.
Proof.
  destruct (Nat.lt_ge_cases n 9) as [H|H]; [now left|].
  right. exists (n - 9)%nat. lia.
Qed.

(** C8.  The sleeps of the polling loop follow the schedule [backoff]:
    it starts at 2.0, each next sleep is [min(previous * 1.2, 10.0)], no
    sleep exceeds 10.0, the schedule never decreases, and from the tenth
    sleep on (index 9) it is exactly 10.0. *)
Theorem backoff_schedule (L : Builtins) (R : Remote) (fuel k : nat)
    (job_id : value) (max_wait_s : Z) :
  let slept := sleeps (fst (poll_until_done L R fuel k job_id max_wait_s)) in
  slept = map backoff (seq 0 (length slept))
  /\ backoff 0 = 2.0%float
  /\ (forall n, backoff (S n)
                = py_min (PrimFloat.mul (backoff n) 1.2%float) 10.0%float)
  /\ (forall n, PrimFloat.leb (backoff n) 10.0%float = true)
  /\ (forall n, PrimFloat.leb (backoff n) (backoff (S n)) = true)
  /\ (forall n, backoff (9 + n) = 10.0%float).
Proof.
  cbv zeta. split; [apply (poll_sleeps L R fuel k job_id max_wait_s 0 0)|].
  split; [reflexivity|]. split; [reflexivity|].
  split; [|split; [|exact backoff_capped]].
  - intros n. destruct (backoff_split n) as [H|[m ->]].
    + do 9 (destruct n as [|n]; [vm_compute; reflexivity|]). lia.
    + rewrite backoff_capped. vm_compute. reflexivity.
  - intros n. destruct (backoff_split n) as [H|[m ->]].
    + do 9 (destruct n as [|n]; [vm_compute; reflexivity|]). lia.
    + replace (S (9 + m)) with (9 + S m)%nat by lia.
      rewrite !backoff_capped. vm_compute. reflexivity.
Qed.

(** C10.  In a turn of the polling loop the status, uppercased, is
    tested against COMPLETED, FAILED, CANCELLED and TIMED_OUT before the
    deadline is: a terminal reply is returned whatever the deadline test
    would say.  A TimeoutError comes only from a turn whose reply was not
    terminal and whose deadline test was true, and its message ends with
    the status of that reply, the last one polled. *)
Theorem terminal_checked_before_deadline (L : Builtins) (R : Remote)
    (k : nat) (job_id : value) (max_wait_s : Z) :
  (forall fuel i sleep_s res st,
     status_reply R k job_id i = inl res ->
     status_upper L res = Ok st ->
     In st ["COMPLETED"; "FAILED"; "CANCELLED"; "TIMED_OUT"] ->
     poll_loop L R (S fuel) k job_id max_wait_s i sleep_s
     = ([Polled res], Done res))
  /\ (forall fuel i sleep_s t msg,
        poll_loop L R fuel k job_id max_wait_s i sleep_s
        = (t, Raised (TimeoutError msg)) ->
        exists j res st pre,
          status_reply R k job_id j = inl res
          /\ status_upper L res = Ok st
          /\ ~ In st ["COMPLETED"; "FAILED"; "CANCELLED"; "TIMED_OUT"]
          /\ deadline_passed R k j = true
          /\ msg = ("Job not finished in " ++ Str.of_Z max_wait_s
                    ++ "s, last status=" ++ st)%string
          /\ t = pre ++ [Polled res]).
Proof.
  split.
  - intros fuel i sleep_s res st Hr Hs Ht.
    rewrite poll_loop_S, Hr, Hs.
    apply is_terminal_spec in Ht. now rewrite Ht.
  - intros fuel i sleep_s t msg H.
    destruct (poll_timeout L R fuel k job_id max_wait_s i sleep_s t msg H)
      as (j & res & st & pre & H1 & H2 & H3 & H4 & H5 & H6).
    exists j, res, st, pre. repeat split; try assumption.
    intros Hin. apply is_terminal_spec in Hin. congruence.
Qed.

Lemma terminal_checked_before_deadline_witness :
  deadline_passed Cases.prompt_remote 0 0 = true
  /\ poll_until_done Demo.builtins Cases.prompt_remote 1 0 (VStr "job-1") 600
     = ([Polled (Cases.job_result "COMPLETED")],
        Done (Cases.job_result "COMPLETED")).
Proof.
  split; [reflexivity|].
  apply (proj1 (terminal_checked_before_deadline Demo.builtins
                  Cases.prompt_remote 0 (VStr "job-1") 600)
           0%nat 0%nat initial_sleep (Cases.job_result "COMPLETED") "COMPLETED").
  - reflexivity.
  - reflexivity.
  - simpl. tauto.
Defined.

(** ** The recovery part of [main] *)

Lemma submissions_app (a b : list event) :
  submissions (a ++ b) = submissions a ++ submissions b.
Proof. apply flat_map_app. Qed.

Lemma returned_app (a b : list event) :
  returned (a ++ b) = returned a ++ returned b.
Proof. apply flat_map_app. Qed.

Lemma written_app (a b : list event) :
  written (a ++ b) = written a ++ written b.
Proof. apply flat_map_app. Qed.

Lemma poll_events_quiet (t : list event) :
  forallb is_poll_event t = true ->
  submissions t = [] /\ returned t = [] /\ written t = [].
Proof.
  induction t as [|e t IH]; [easy|].
  simpl. intros H. apply andb_prop in H. destruct H as [He Ht].
  destruct (IH Ht) as (H1 & H2 & H3).
  destruct e; try discriminate; simpl; now rewrite ?H1, ?H2, ?H3.
Qed.

Lemma prints_submissions (lines : list string) :
  submissions (map Printed lines) = [].
Proof. induction lines as [|l r IH]; [easy|]. simpl. exact IH. Qed.

Lemma prints_returned (lines : list string) :
  returned (map Printed lines) = [].
Proof. induction lines as [|l r IH]; [easy|]. simpl. exact IH. Qed.

Lemma prints_written (lines : list string) :
  written (map Printed lines) = [].
Proof. induction lines as [|l r IH]; [easy|]. simpl. exact IH. Qed.

Section MainFacts.

Variable L : Builtins.
Variable R : Remote.

Lemma status_upper_raise r e : status_upper L r = Raise e -> is_exit e = false.
Proof.
  unfold status_upper. destruct r; try (now intros [= <-]).
  destruct (truthy _); [|discriminate].
  destruct (get_or_none "status" d); try discriminate; now intros [= <-].
Qed.

Lemma get_default_raise r k d e :
  get_default r k d = Raise e -> is_exit e = false.
Proof.
  unfold get_default. destruct r; try (now intros [= <-]).
  destruct (dict_get k d0); discriminate.
Qed.

Lemma apply_raise payload issues e :
  apply_validation_fallbacks L payload issues = Raise e -> is_exit e = false.
Proof.
  unfold apply_validation_fallbacks, get_workflow.
  destruct payload as [| | | | | |p]; try (now intros [= <-]).
  destruct (dict_get "input" p) as [[| | | | | |i]|]; simpl;
    try (now intros [= <-]); try discriminate.
  - destruct (dict_get "workflow" i) as [[| | | | | |w]|]; try discriminate.
    now destruct (fold_left _ _ _) as [[? ?] ?].
Qed.

Lemma poll_loop_trace fuel k job_id max_wait_s : forall i sleep_s,
  forallb is_poll_event
    (fst (poll_loop L R fuel k job_id max_wait_s i sleep_s)) = true
  /\ match snd (poll_loop L R fuel k job_id max_wait_s i sleep_s) with
     | Raised e => is_exit e = false
     | _ => True
     end.
Proof.
  induction fuel as [|fuel IH]; intros i sleep_s; [easy|].
  rewrite poll_loop_S.
  destruct (status_reply R k job_id i) as [res|what]; [|easy].
  destruct (status_upper L res) as [st|e] eqn:Es.
  - destruct (is_terminal st); [easy|].
    destruct (deadline_passed R k i); [easy|].
    cbv zeta. cbn [fst snd forallb is_poll_event andb]. apply IH.
  - split; [reflexivity|]. simpl. eapply status_upper_raise; exact Es.
Qed.

(** What a call of [run_job] leaves in the trace: its submission, then
    events that are neither submissions nor results nor writes, then the
    result when there is one. *)
Lemma run_job_trace fuel k payload mode wait_ms max_wait_s :
  exists mid,
    fst (run_job L R fuel k payload mode wait_ms max_wait_s)
    = Submitted k mode payload :: mid
      ++ match snd (run_job L R fuel k payload mode wait_ms max_wait_s) with
         | Done r => [Returned r]
         | _ => []
         end
    /\ submissions mid = [] /\ returned mid = [] /\ written mid = []
    /\ match snd (run_job L R fuel k payload mode wait_ms max_wait_s) with
       | Raised e => is_exit e = false
       | _ => True
       end.
Proof.
  unfold run_job.
  destruct (String.eqb mode "runsync").
  - destruct (run_sync_reply R k payload wait_ms) as [r|what];
      exists []; easy.
  - destruct (run_async_reply R k payload) as [job|what];
      [|exists []; easy].
    cbv beta iota zeta delta [bindC transport ret emit lift]. cbn [fst snd app].
    destruct (subscript job "id") as [job_id|e] eqn:Ej; cbn [fst snd app].
    + destruct (poll_loop_trace fuel k job_id max_wait_s 0 initial_sleep)
        as [Hq He].
      fold (poll_until_done L R fuel k job_id max_wait_s) in Hq, He.
      destruct (poll_events_quiet _ Hq) as (H1 & H2 & H3).
      exists (Printed ("[INFO] submitted job id: " ++ str_of L job_id)
              :: fst (poll_until_done L R fuel k job_id max_wait_s)).
      destruct (poll_until_done L R fuel k job_id max_wait_s) as [t [r|e|]];
        cbn [fst snd app] in *; rewrite ?app_nil_r;
        (split; [reflexivity|]); simpl; rewrite ?H1, ?H2, ?H3; easy.
    + exists []. repeat split.
      unfold subscript in Ej. destruct job; try (now injection Ej as <-).
      destruct (dict_get "id" d); [discriminate | now injection Ej as <-].
Qed.

End MainFacts.

(** The case analysis of a run of [main]: the first job, its status, the
    error text, the issues, the patcher, the retry and its status. *)
Ltac main_cases L R fuel payload mode wait_ms max_wait_s :=
  unfold main;
  let mid := fresh "mid" in
  let Ht := fresh "Ht" in
  destruct (run_job_trace L R fuel 0 payload mode wait_ms max_wait_s)
    as (mid & Ht & Hs & Hr & Hw & He);
  destruct (run_job L R fuel 0 payload mode wait_ms max_wait_s)
    as [t1 [r1|e1|]] eqn:E0;
  cbn [fst snd] in Ht, He; subst t1;
  cbv beta iota zeta delta [bindC lift ret emit print_all]; cbn [fst snd];
  [ destruct (status_upper L r1) as [st|e] eqn:Es; cbn [fst snd];
    [ destruct (not_completed st) eqn:En; cbn [fst snd]; rewrite ?Es;
      cbn [fst snd]; rewrite ?En; cbn [fst snd];
      [ destruct (get_default r1 "error" (VStr EmptyString))
          as [err|e] eqn:Ee; cbn [fst snd];
        [ destruct (parse_validation_issues L err) as [|i0 rest] eqn:Ep;
          cbn [fst snd]; rewrite ?Es; cbn [fst snd]; rewrite ?En;
          cbn [fst snd];
          [ | destruct (apply_validation_fallbacks L payload (i0 :: rest))
                as [[[pl' patched] missing]|e] eqn:Ea; cbn [fst snd];
              [ destruct patched as [|m0 ms]; cbn [fst snd];
                [ | let mid2 := fresh "mid" in
                    let Ht2 := fresh "Ht" in
                    destruct (run_job_trace L R fuel 1 pl' mode wait_ms
                                max_wait_s)
                      as (mid2 & Ht2 & Hs2 & Hr2 & Hw2 & He2);
                    destruct (run_job L R fuel 1 pl' mode wait_ms max_wait_s)
                      as [t2 [r2|e2|]] eqn:E1;
                    cbn [fst snd] in Ht2, He2; subst t2; cbn [fst snd];
                    [ destruct (status_upper L r2) as [st2|e] eqn:Es2;
                      cbn [fst snd]; rewrite ?Es2; cbn [fst snd] | | ] ] | ] ]
        | ]
      | ]
    | ]
  | | ].

(** Splits on what is still undecided at a leaf of [main_cases]. *)
Ltac settle_leaf :=
  repeat (cbn [fst snd] in *;
          match goal with
          | H : status_upper ?L ?r = _ |- context [status_upper ?L ?r] =>
              rewrite H
          | H : status_upper ?L ?r = _, H' : context [status_upper ?L ?r]
            |- _ =>
              lazymatch H' with H => fail | _ => rewrite H in H' end
          | |- context [match ?m with [] => _ | _ :: _ => _ end] =>
              is_var m; destruct m
          | |- context [if not_completed ?s then _ else _] =>
              destruct (not_completed s) eqn:?
          | H : context [match ?m with [] => _ | _ :: _ => _ end] |- _ =>
              is_var m; destruct m
          | H : context [if not_completed ?s then _ else _] |- _ =>
              destruct (not_completed s) eqn:?
          end);
  cbn [fst snd] in *.

(** Reads the submissions, results and writes off a trace. *)
Ltac read_trace :=
  repeat (rewrite ?submissions_app, ?returned_app, ?written_app,
            ?prints_submissions, ?prints_returned, ?prints_written);
  repeat match goal with
         | |- context [submissions (?e :: ?t)] =>
             lazymatch t with [] => fail | _ => idtac end;
             change (submissions (e :: t))
               with (submissions [e] ++ submissions t)
         | |- context [returned (?e :: ?t)] =>
             lazymatch t with [] => fail | _ => idtac end;
             change (returned (e :: t)) with (returned [e] ++ returned t)
         | |- context [written (?e :: ?t)] =>
             lazymatch t with [] => fail | _ => idtac end;
             change (written (e :: t)) with (written [e] ++ written t)
         end;
  repeat (rewrite ?submissions_app, ?returned_app, ?written_app);
  repeat match goal with
         | H : submissions _ = [] |- _ => rewrite H; clear H
         | H : returned _ = [] |- _ => rewrite H; clear H
         | H : written _ = [] |- _ => rewrite H; clear H
         end;
  cbn [submissions returned written flat_map app].

Section RecoveryFacts.

Variable L : Builtins.
Variable R : Remote.

Lemma not_completed_true st : not_completed st = true <-> st <> "COMPLETED".
Proof.
  unfold not_completed. rewrite negb_true_iff. apply String.eqb_neq.
Qed.

Lemma main_submissions fuel payload mode wait_ms max_wait_s path :
  let subs :=
    submissions (fst (main L R fuel payload mode wait_ms max_wait_s path)) in
  (exists pl', retries_with L R fuel payload mode wait_ms max_wait_s pl'
               /\ subs = [(0%nat, mode, payload); (1%nat, mode, pl')])
  \/ ((~ exists pl', retries_with L R fuel payload mode wait_ms max_wait_s pl')
      /\ subs = [(0%nat, mode, payload)]).
Proof.
  cbv zeta. unfold retries_with.
  main_cases L R fuel payload mode wait_ms max_wait_s.
  (* the retry happened *)
  3-6: left; exists pl'; split;
    [ exists (Submitted 0 mode payload :: mid ++ [Returned r1]), r1, st, err,
        (m0 :: ms), missing;
      rewrite Ep;
      repeat split; try assumption; try discriminate;
      now apply not_completed_true
    | settle_leaf; read_trace; reflexivity ].
  (* no retry *)
  all: right; split;
    [ intros (pl0 & t' & r' & st' & err' & pt & mi & H0 & H1 & H2 & H3 & H4
              & H5 & H6);
      try discriminate H0; injection H0 as <- <-;
      try congruence;
      try (rewrite Es in H1; injection H1 as <-;
           try (apply not_completed_true in H2; congruence);
           rewrite Ee in H3; try discriminate H3; injection H3 as <-;
           rewrite Ep in *; congruence)
    | settle_leaf; read_trace; reflexivity ].
Qed.

Lemma retries_with_unique fuel payload mode wait_ms max_wait_s pl1 pl2 :
  retries_with L R fuel payload mode wait_ms max_wait_s pl1 ->
  retries_with L R fuel payload mode wait_ms max_wait_s pl2 ->
  pl1 = pl2.
Proof.
  intros (t & r & st & err & pt & mi & A0 & A1 & _ & A3 & _ & A5 & _)
         (t' & r' & st' & err' & pt' & mi' & B0 & B1 & _ & B3 & _ & B5 & _).
  rewrite A0 in B0. injection B0 as <- <-.
  rewrite A3 in B3. injection B3 as <-.
  rewrite A5 in B5. now injection B5.
Qed.

End RecoveryFacts.

(** C3.  A run of [main] calls [run_job] at most twice.  It calls it a
    second time exactly when the first job returned a result whose status
    is not COMPLETED, the error text of that result parsed to at least one
    issue and the patcher returned at least one patched message; the
    second call then has the same mode and the payload the patcher
    left. *)
Theorem single_retry (L : Builtins) (R : Remote) (fuel : nat)
    (payload : value) (mode : string) (wait_ms max_wait_s : Z)
    (path : string) :
  let subs :=
    submissions (fst (main L R fuel payload mode wait_ms max_wait_s path)) in
  (length subs <= 2)%nat
  /\ (length subs = 2%nat <->
      exists pl', retries_with L R fuel payload mode wait_ms max_wait_s pl')
  /\ (forall pl',
        retries_with L R fuel payload mode wait_ms max_wait_s pl' ->
        subs = [(0%nat, mode, payload); (1%nat, mode, pl')])
  /\ ((~ exists pl',
          retries_with L R fuel payload mode wait_ms max_wait_s pl') ->
      subs = [(0%nat, mode, payload)]).
Proof.
  intros subs.
  destruct (main_submissions L R fuel payload mode wait_ms max_wait_s path)
    as [(pl0 & Hretry & Hsubs) | (Hnone & Hsubs)];
    fold subs in Hsubs; rewrite Hsubs.
  - split; [simpl; lia|]. split; [split; [now exists pl0 | reflexivity]|].
    split.
    + intros pl' H. f_equal. f_equal. f_equal.
      eapply retries_with_unique; eassumption.
    + intros Hnone. exfalso. apply Hnone. now exists pl0.
  - split; [simpl; lia|]. split; [split; [discriminate | contradiction]|].
    split.
    + intros pl' H. exfalso. apply Hnone. now exists pl'.
    + reflexivity.
Qed.

Lemma single_retry_witness :
  submissions
    (fst (main Demo.builtins Cases.picky_remote 0
            (ScenarioB.payload_with "foo.safetensors") "runsync" 120000 600
            "outputs/result.json"))
  = [(0%nat, "runsync", ScenarioB.payload_with "foo.safetensors");
     (1%nat, "runsync", ScenarioB.payload_with "bar.safetensors")].
Proof.
  apply (proj1 (proj2 (proj2
    (single_retry Demo.builtins Cases.picky_remote 0
       (ScenarioB.payload_with "foo.safetensors") "runsync" 120000 600
       "outputs/result.json")))).
  exists [Submitted 0 "runsync" (ScenarioB.payload_with "foo.safetensors");
          Returned Cases.failed_validation],
    Cases.failed_validation, "FAILED", (VStr ScenarioB.error_text),
    ["Node 12 (CheckpointLoaderSimple) ckpt_name: 'foo.safetensors' -> 'bar.safetensors'"],
    [].
  repeat split; try (vm_compute; reflexivity); vm_compute; discriminate.
Defined.

(** C9, amended.  A run of [main] that ends by returning or by its own
    SystemExit for a status other than COMPLETED has written to
    result.json, once, the last result [run_job] returned.  A run that
    ends with any other exception (out of the transport, the polling loop,
    its TimeoutError included, or the patcher) has written nothing:
    nothing catches the exception on its way past the write. *)
Theorem result_written_on_exit (L : Builtins) (R : Remote) (fuel : nat)
    (payload : value) (mode : string) (wait_ms max_wait_s : Z)
    (path : string) :
  let run := main L R fuel payload mode wait_ms max_wait_s path in
  ((snd run = Done tt \/ exists msg, snd run = Raised (SystemExit msg)) ->
   exists pre r,
     returned (fst run) = pre ++ [r] /\ written (fst run) = [r])
  /\ (forall e,
        snd run = Raised e -> is_exit e = false -> written (fst run) = []).
Proof.
  cbv zeta.
  main_cases L R fuel payload mode wait_ms max_wait_s;
    settle_leaf;
    (split; [intros [H|[msg H]] | intros e0 H Hx]; cbn [snd] in H);
    try discriminate H;
    try (injection H as H; subst;
         match goal with
         | H1 : status_upper _ _ = Raise (SystemExit _) |- _ =>
             apply status_upper_raise in H1; discriminate H1
         | H1 : get_default _ _ _ = Raise (SystemExit _) |- _ =>
             apply get_default_raise in H1; discriminate H1
         | H1 : apply_validation_fallbacks _ _ _ = Raise (SystemExit _)
           |- _ =>
             apply apply_raise in H1; discriminate H1
         | H1 : is_exit (SystemExit _) = false |- _ => discriminate H1
         end);
    try (injection H as H; try subst);
    try congruence;
    read_trace;
    first [ reflexivity
          | exists [], r1; split; reflexivity
          | exists [r1], r2; split; reflexivity ].
Qed.

Lemma result_written_on_exit_witness :
  (exists pre r,
     returned
       (fst (main Demo.builtins Cases.picky_remote 0
               (ScenarioB.payload_with "foo.safetensors") "runsync" 120000 600
               "outputs/result.json"))
     = pre ++ [r]
     /\ written
          (fst (main Demo.builtins Cases.picky_remote 0
                  (ScenarioB.payload_with "foo.safetensors") "runsync" 120000
                  600 "outputs/result.json"))
        = [r])
  /\ written
       (fst (main Demo.builtins Cases.stuck_remote 3
               (ScenarioB.payload_with "foo.safetensors") "async" 120000 600
               "outputs/result.json"))
     = [].
Proof.
  split.
  - apply (proj1 (result_written_on_exit Demo.builtins Cases.picky_remote 0
                    (ScenarioB.payload_with "foo.safetensors") "runsync"
                    120000 600 "outputs/result.json")).
    left. vm_compute. reflexivity.
  - apply (proj2 (result_written_on_exit Demo.builtins Cases.stuck_remote 3
                    (ScenarioB.payload_with "foo.safetensors") "async"
                    120000 600 "outputs/result.json")
             (TimeoutError
                "Job not finished in 600s, last status=IN_PROGRESS"));
      vm_compute; reflexivity.
Defined.

(** C9 as first stated fails.  In async mode, a job still IN_PROGRESS
    when the deadline test turns true ends the run with TimeoutError: a
    JobResult was obtained from the status endpoint and result.json is
    never written.  In the same way a retry that meets a transport failure
    ends the run after the first result was returned, with nothing
    written. *)
Lemma result_not_written_counterexample :
  let timed_out :=
    main Demo.builtins Cases.stuck_remote 3
      (ScenarioB.payload_with "foo.safetensors") "async" 120000 600
      "outputs/result.json" in
  let failed_retry :=
    main Demo.builtins Cases.flaky_remote 0
      (ScenarioB.payload_with "foo.safetensors") "runsync" 120000 600
      "outputs/result.json" in
  snd timed_out
  = Raised (TimeoutError "Job not finished in 600s, last status=IN_PROGRESS")
  /\ obtained (fst timed_out) = [Cases.job_result "IN_PROGRESS"]
  /\ written (fst timed_out) = []
  /\ ~ Cases.persisted_last_obtained (fst timed_out)
  /\ snd failed_retry = Raised (HTTPError "503 Service Unavailable")
  /\ obtained (fst failed_retry) = [Cases.failed_validation]
  /\ written (fst failed_retry) = []
  /\ ~ Cases.persisted_last_obtained (fst failed_retry).
Proof.
  cbv zeta.
  assert (A : forall t r, obtained t = [r] -> written t = [] ->
                          ~ Cases.persisted_last_obtained t).
  { intros t r Ho Hw H. specialize (H [] r Ho). rewrite Hw in H.
    contradiction. }
  repeat split; try (vm_compute; reflexivity).
  - apply (A _ (Cases.job_result "IN_PROGRESS")); vm_compute; reflexivity.
  - apply (A _ Cases.failed_validation); vm_compute; reflexivity.
Qed.
(** * Further properties *)

(** ** Workflow Sanitizer: what the sweep does *)

Lemma sweep_doomed (w : dict) (r : list string) (key : string) :
  sweep (w, r) key
  = if doomed w key then (dict_pop key w, r ++ [key]) else (w, r).
Proof.
  unfold sweep, doomed.
  destruct (is_node (dict_get key w)); [reflexivity|]. simpl.
  now destruct (removable key).
Qed.

Lemma doomed_after_pop (w : dict) (key k : string) :
  doomed w key = true -> doomed (dict_pop key w) k = doomed w k.
Proof.
  intros Hd. unfold doomed in *. rewrite dict_get_pop.
  destruct (String.eqb key k) eqn:E; [|reflexivity].
  apply String.eqb_eq in E. subst k.
  apply andb_prop in Hd. destruct Hd as [Hn Hr].
  rewrite Hr. apply negb_true_iff in Hn. now rewrite Hn.
Qed.

Lemma fold_sweep_removed (keys : list string) : forall (w : dict) r,
  snd (fold_left sweep keys (w, r)) = r ++ filter (doomed w) keys.
Proof.
  induction keys as [|key keys IH]; intros w r; cbn [fold_left filter].
  - now rewrite app_nil_r.
  - rewrite sweep_doomed. destruct (doomed w key) eqn:Hd.
    + rewrite IH, <- app_assoc. cbn [app]. f_equal. f_equal.
      apply filter_ext. intros k. now apply doomed_after_pop.
    + apply IH.
Qed.

Lemma fold_sweep_get (keys : list string) : forall (w : dict) r k,
  dict_get k (fst (fold_left sweep keys (w, r)))
  = if (existsb (String.eqb k) keys && doomed w k)%bool then None
    else dict_get k w.
Proof.
  induction keys as [|key keys IH]; intros w r k;
    cbn [fold_left existsb]; [reflexivity|].
  rewrite sweep_doomed. destruct (doomed w key) eqn:Hd.
  - rewrite IH, doomed_after_pop by exact Hd. rewrite dict_get_pop.
    destruct (String.eqb k key) eqn:E.
    + apply String.eqb_eq in E. subst key. rewrite Hd, String.eqb_refl.
      simpl. now destruct (existsb _ keys).
    + rewrite String.eqb_sym, E. reflexivity.
  - rewrite IH. destruct (String.eqb k key) eqn:E; [|reflexivity].
    apply String.eqb_eq in E. subst key. rewrite Hd.
    simpl. now rewrite andb_false_r.
Qed.

Lemma absent_not_in_keys (w : dict) (k : string) :
  existsb (String.eqb k) (dict_keys w) = false -> dict_get k w = None.
Proof.
  induction w as [|[k' v] r IH]; simpl; [reflexivity|].
  destruct (String.eqb k k'); [discriminate | exact IH].
Qed.

Lemma swept_get (w : dict) (k : string) :
  dict_get k (fst (fold_left sweep (dict_keys w) (w, [])))
  = if doomed w k then None else dict_get k w.
Proof.
  rewrite fold_sweep_get.
  destruct (existsb (String.eqb k) (dict_keys w)) eqn:E; [reflexivity|].
  simpl. rewrite (absent_not_in_keys w k E). now destruct (doomed w k).
Qed.

(** What a successful call makes of a mapping workflow. *)
Lemma sanitize_dict (payload : value) (w : dict) :
  get_workflow payload = Ok (Some (VDict w)) ->
  sanitize_workflow payload =
  if frontend_shape w then Raise (ValueError frontend_message)
  else match fst (fold_left sweep (dict_keys w) (w, [])) with
       | [] => Raise (ValueError empty_message)
       | e :: r =>
           Ok (set_workflow payload
                 (fst (fold_left sweep (dict_keys w) (w, []))),
               filter (doomed w) (dict_keys w))
       end.
Proof.
  intros Hw. unfold sanitize_workflow. rewrite Hw. simpl.
  unfold frontend_shape.
  destruct (is_list_opt (dict_get "nodes" w)
            && is_list_opt (dict_get "links" w))%bool; [reflexivity|].
  pose proof (fold_sweep_removed (dict_keys w) w []) as Hr. simpl in Hr.
  match goal with
  | |- context [fold_left sweep ?ks ?st] =>
      change (fold_left sweep (dict_keys w) (w, []))
        with (fold_left sweep ks st) in Hr |- *;
      destruct (fold_left sweep ks st) as [w' r']
  end.
  simpl in Hr. subst r'. now destruct w'.
Qed.

Lemma sanitize_result_get (payload payload' : value) (w : dict)
    (removed : list string) :
  get_workflow payload = Ok (Some (VDict w)) ->
  sanitize_workflow payload = Ok (payload', removed) ->
  exists w' : dict,
    get_workflow payload' = Ok (Some (VDict w'))
    /\ forall k, dict_get k w' = if doomed w k then None else dict_get k w.
Proof.
  intros Hw Hs. rewrite (sanitize_dict payload w Hw) in Hs.
  destruct (frontend_shape w); [discriminate|].
  pose proof (swept_get w) as Hg.
  destruct (fst (fold_left sweep (dict_keys w) (w, []))) as [|e r] eqn:E;
    [discriminate|].
  injection Hs as <- _. exists (e :: r).
  split; [eapply get_set_workflow; exact Hw | exact Hg].
Qed.

(** X2.  When the sanitizer returns on a mapping workflow, the keys it
    reports are, in the order of the workflow, exactly the keys whose
    value is not a node record and whose name starts with # or is config or
    definitions; those keys are gone from the workflow and every other key
    keeps its value.  So a node record is never removed, whatever its
    name. *)
Theorem sanitize_removes_exactly (payload payload' : value) (w : dict)
    (removed : list string) :
  get_workflow payload = Ok (Some (VDict w)) ->
  sanitize_workflow payload = Ok (payload', removed) ->
  removed = filter (doomed w) (dict_keys w)
  /\ exists w' : dict,
       get_workflow payload' = Ok (Some (VDict w'))
       /\ (forall k, dict_get k w'
                     = if doomed w k then None else dict_get k w)
       /\ (forall k, is_node (dict_get k w) = true ->
                     dict_get k w' = dict_get k w)
       /\ (forall k, removable k = false -> dict_get k w' = dict_get k w).
Proof.
  intros Hw Hs. rewrite (sanitize_dict payload w Hw) in Hs.
  destruct (frontend_shape w); [discriminate|].
  pose proof (swept_get w) as Hg.
  destruct (fst (fold_left sweep (dict_keys w) (w, []))) as [|e r] eqn:E;
    [discriminate|].
  injection Hs as <- <-. split; [reflexivity|].
  exists (e :: r). split; [eapply get_set_workflow; exact Hw|].
  split; [exact Hg|]. split.
  - intros k Hn. rewrite Hg. unfold doomed. now rewrite Hn.
  - intros k Hr. rewrite Hg. unfold doomed. rewrite Hr.
    now rewrite andb_false_r.
Qed.

Lemma sanitize_removes_exactly_witness :
  ["#note"; "config"]
  = filter (doomed Inputs.noted_workflow) (dict_keys Inputs.noted_workflow)
  /\ exists w' : dict,
       get_workflow
         (Inputs.wrap [("definitions", VDict [("class_type", VStr "Reroute")])])
       = Ok (Some (VDict w'))
       /\ (forall k, dict_get k w'
                     = if doomed Inputs.noted_workflow k then None
                       else dict_get k Inputs.noted_workflow)
       /\ (forall k, is_node (dict_get k Inputs.noted_workflow) = true ->
                     dict_get k w' = dict_get k Inputs.noted_workflow)
       /\ (forall k, removable k = false ->
                     dict_get k w' = dict_get k Inputs.noted_workflow).
Proof.
  apply (sanitize_removes_exactly (Inputs.wrap Inputs.noted_workflow)
           (Inputs.wrap [("definitions", VDict [("class_type", VStr "Reroute")])])
           Inputs.noted_workflow ["#note"; "config"]); reflexivity.
Defined.

Lemma fold_sweep_clean (keys : list string) (w : dict) (r : list string) :
  (forall k, In k keys -> doomed w k = false) ->
  fold_left sweep keys (w, r) = (w, r).
Proof.
  induction keys as [|key keys IH]; intros H; cbn [fold_left];
    [reflexivity|].
  rewrite sweep_doomed, (H key (or_introl eq_refl)).
  apply IH. intros k Hk. apply H. now right.
Qed.

Lemma sanitize_clean (payload : value) (w : dict) :
  get_workflow payload = Ok (Some (VDict w)) ->
  clean w ->
  sanitize_workflow payload = Ok (payload, []).
Proof.
  intros Hw (Hf & Hne & Hk). rewrite (sanitize_dict payload w Hw), Hf.
  rewrite (fold_sweep_clean (dict_keys w) w [] Hk). cbn [fst].
  destruct w as [|e r]; [contradiction|].
  rewrite (set_workflow_same payload (e :: r) Hw). f_equal. f_equal.
  clear -Hk. induction ((dict_keys (e :: r))) as [|k ks IH];
    [reflexivity|].
  cbn [filter]. rewrite (Hk k (or_introl eq_refl)).
  apply IH. intros k' Hk'. apply Hk. now right.
Qed.

Lemma sanitized_is_clean (payload payload' : value) (w : dict)
    (removed : list string) :
  get_workflow payload = Ok (Some (VDict w)) ->
  sanitize_workflow payload = Ok (payload', removed) ->
  exists w' : dict, get_workflow payload' = Ok (Some (VDict w')) /\ clean w'.
Proof.
  intros Hw Hs.
  destruct (sanitize_result_get payload payload' w removed Hw Hs)
    as (w' & Hw' & Hg).
  exists w'. split; [exact Hw'|].
  rewrite (sanitize_dict payload w Hw) in Hs.
  destruct (frontend_shape w) eqn:Hf; [discriminate|].
  split; [|split].
  - unfold frontend_shape in *. rewrite !Hg.
    destruct (doomed w "nodes"), (doomed w "links"); simpl; try reflexivity;
      try exact Hf.
    + now rewrite andb_false_r.
  - destruct (fst (fold_left sweep (dict_keys w) (w, []))) as [|e r] eqn:E;
      [discriminate|].
    injection Hs as <- _.
    rewrite (get_set_workflow payload w (e :: r) Hw) in Hw'.
    injection Hw' as <-. discriminate.
  - intros k Hk. unfold doomed. rewrite Hg.
    destruct (doomed w k) eqn:Hd.
    + exfalso. clear -Hk Hg Hd. specialize (Hg k). rewrite Hd in Hg.
      induction w' as [|[k' v] r IH]; [contradiction|].
      simpl in Hg. destruct (String.eqb k k') eqn:E; [discriminate|].
      destruct Hk as [Hk|Hk].
      * simpl in Hk. subst k'. now rewrite String.eqb_refl in E.
      * now apply IH.
    + exact Hd.
Qed.

(** X3.  The sanitizer is idempotent: called again on the payload it
    returned, it returns the same payload and removes nothing. *)
Theorem sanitize_idempotent (payload payload' : value)
    (removed : list string) :
  sanitize_workflow payload = Ok (payload', removed) ->
  sanitize_workflow payload' = Ok (payload', []).
Proof.
  intros Hs.
  destruct (get_workflow payload) as [[[| | | | | |w]|]|e] eqn:Hw;
    try (unfold sanitize_workflow in Hs; rewrite Hw in Hs; simpl in Hs;
         first [discriminate Hs
               | injection Hs as <- <-;
                 unfold sanitize_workflow; now rewrite Hw]).
  destruct (sanitized_is_clean payload payload' w removed Hw Hs)
    as (w' & Hw' & Hc).
  now apply (sanitize_clean payload' w').
Qed.

Lemma sanitize_idempotent_witness :
  sanitize_workflow
    (Inputs.wrap [("definitions", VDict [("class_type", VStr "Reroute")])])
  = Ok (Inputs.wrap [("definitions", VDict [("class_type", VStr "Reroute")])],
        []).
Proof.
  apply (sanitize_idempotent (Inputs.wrap Inputs.noted_workflow) _
           ["#note"; "config"]).
  reflexivity.
Defined.

Lemma all_absent_is_empty (w : dict) :
  (forall k, dict_get k w = None) -> w = [].
Proof.
  destruct w as [|[k v] r]; [reflexivity|].
  intros H. specialize (H k). simpl in H.
  now rewrite String.eqb_refl in H.
Qed.

(** X4.  A mapping workflow that holds no node record and only keys the
    sweep removes (the empty workflow among them) is refused with the
    ValueError for a workflow without executable nodes. *)
Theorem nothing_left_refused (payload : value) (w : dict) :
  get_workflow payload = Ok (Some (VDict w)) ->
  (forall k, In k (dict_keys w) -> doomed w k = true) ->
  sanitize_workflow payload = Raise (ValueError empty_message).
Proof.
  intros Hw Hk. rewrite (sanitize_dict payload w Hw).
  assert (Hf : frontend_shape w = false).
  { unfold frontend_shape.
    destruct (dict_get "nodes" w) as [v|] eqn:En; [|reflexivity].
    pose proof (Hk "nodes" (dict_get_in_keys w "nodes" v En)) as Hd.
    unfold doomed in Hd. apply andb_prop in Hd. destruct Hd as [_ Hr].
    discriminate Hr. }
  rewrite Hf.
  assert (He : fst (fold_left sweep (dict_keys w) (w, [])) = []).
  { apply all_absent_is_empty. intros k. rewrite swept_get.
    destruct (dict_get k w) as [v|] eqn:E.
    - now rewrite (Hk k (dict_get_in_keys w k v E)).
    - now destruct (doomed w k). }
  now rewrite He.
Qed.

Lemma nothing_left_refused_witness :
  sanitize_workflow (Inputs.wrap [("#note", VStr "draft"); ("config", VDict [])])
  = Raise (ValueError empty_message)
  /\ sanitize_workflow (Inputs.wrap []) = Raise (ValueError empty_message).
Proof.
  split.
  - apply (nothing_left_refused _ [("#note", VStr "draft"); ("config", VDict [])]);
      [reflexivity|].
    intros k [<-|[<-|[]]]; reflexivity.
  - apply (nothing_left_refused _ []); [reflexivity|]. intros k [].
Defined.

(** ** Fallback Patcher: what a call leaves alone *)

Lemma dict_keys_set_present {A : Type} (k : string) (v v0 : A)
    (d : list (string * A)) :
  dict_get k d = Some v0 -> dict_keys (dict_set k v d) = dict_keys d.
Proof.
  induction d as [|[k' v'] r IH]; simpl; [discriminate|].
  destruct (String.eqb k k') eqn:E.
  - intros _. apply String.eqb_eq in E. now subst.
  - intros H. simpl. f_equal. now apply IH.
Qed.

Lemma same_shape_refl (w : dict) : same_shape w w.
Proof. now repeat split. Qed.

Lemma same_shape_trans (a b c : dict) :
  same_shape a b -> same_shape b c -> same_shape a c.
Proof.
  intros (K1 & N1 & L1) (K2 & N2 & L2). repeat split.
  - congruence.
  - intros k. now rewrite N2, N1.
  - intros k. now rewrite L2, L1.
Qed.

Section PatcherFrame.

Variable L : Builtins.

Implicit Types (w : dict) (p m : list string) (i : Issue).

(** A turn of the loop either leaves the graph or rewrites the inputs
    of the node of its issue. *)
Lemma step_graph w p m i :
  fst (fst (fallback_step L (w, p, m) i)) = w
  \/ exists node inputs inputs',
       node_inputs (node_id i) w = Some (node, inputs)
       /\ fst (fst (fallback_step L (w, p, m) i))
          = dict_set (node_id i)
              (VDict (dict_set "inputs" (VDict inputs') node)) w.
Proof.
  unfold fallback_step.
  destruct (node_inputs (node_id i) w) as [[node inputs]|] eqn:E;
    [|now left].
  destruct (choices i) as [|c rest]; [now left|].
  destruct (differs _ c); [|now left].
  right. now exists node, inputs, (dict_set (input_name i) (VStr c) inputs).
Qed.

Lemma node_inputs_get nid w node inputs :
  node_inputs nid w = Some (node, inputs) ->
  dict_get nid w = Some (VDict node).
Proof.
  unfold node_inputs.
  destruct (dict_get nid w) as [[| | | | | |d]|]; try discriminate.
  destruct (dict_get "inputs" d) as [[| | | | | |x]|]; try discriminate.
  now intros [= <- _].
Qed.

Lemma step_same_shape w p m i :
  same_shape w (fst (fst (fallback_step L (w, p, m) i))).
Proof.
  destruct (step_graph w p m i)
    as [->|(node & inputs & inputs' & Hn & ->)]; [apply same_shape_refl|].
  pose proof (node_inputs_get _ _ _ _ Hn) as Hg.
  repeat split.
  - eapply dict_keys_set_present; exact Hg.
  - intros k. destruct (string_dec (node_id i) k) as [<-|Hne].
    + rewrite dict_get_set_eq, Hg. simpl. unfold dict_mem.
      now rewrite dict_get_set_neq by discriminate.
    + now rewrite dict_get_set_neq.
  - intros k. destruct (string_dec (node_id i) k) as [<-|Hne].
    + now rewrite dict_get_set_eq, Hg.
    + now rewrite dict_get_set_neq.
Qed.

Lemma step_frame w p m i k :
  k <> node_id i ->
  dict_get k (fst (fst (fallback_step L (w, p, m) i))) = dict_get k w.
Proof.
  intros Hne.
  destruct (step_graph w p m i)
    as [->|(node & inputs & inputs' & Hn & ->)]; [reflexivity|].
  rewrite dict_get_set_neq; [reflexivity | congruence].
Qed.

Lemma step_present w p m i j :
  present (fst (fst (fallback_step L (w, p, m) i))) j = present w j.
Proof.
  destruct (step_graph w p m i)
    as [->|(node & inputs & inputs' & Hn & ->)]; [reflexivity|].
  unfold present. destruct (string_dec (node_id i) (node_id j)) as [E|Hne].
  - rewrite <- E, node_inputs_patched, Hn. reflexivity.
  - now rewrite node_inputs_other.
Qed.

Lemma fold_same_shape issues : forall w p m,
  same_shape w (fst (fst (fold_left (fallback_step L) issues (w, p, m)))).
Proof.
  induction issues as [|i r IH]; intros w p m; cbn [fold_left];
    [apply same_shape_refl|].
  pose proof (step_same_shape w p m i) as H1.
  destruct (fallback_step L (w, p, m) i) as [[w1 p1] m1]. cbn [fst] in H1.
  eapply same_shape_trans; [exact H1 | apply IH].
Qed.

Lemma fold_frame issues : forall w p m k,
  ~ In k (map node_id issues) ->
  dict_get k (fst (fst (fold_left (fallback_step L) issues (w, p, m))))
  = dict_get k w.
Proof.
  induction issues as [|i r IH]; intros w p m k Hk; cbn [fold_left];
    [reflexivity|].
  pose proof (step_frame w p m i k) as H1.
  destruct (fallback_step L (w, p, m) i) as [[w1 p1] m1]. cbn [fst] in H1.
  rewrite IH, H1; [reflexivity | |]; intros H; apply Hk; simpl; auto.
Qed.

Lemma step_messages w p m i :
  snd (fallback_step L (w, p, m) i)
  = m ++ (if (no_choices i && present w i)%bool
          then [missing_message L i] else [])
  /\ exists added,
       snd (fst (fallback_step L (w, p, m) i)) = p ++ added
       /\ (length added
           <= length (if (negb (no_choices i) && present w i)%bool
                      then [i] else []))%nat.
Proof.
  unfold fallback_step, no_choices, present.
  destruct (node_inputs (node_id i) w) as [[node inputs]|] eqn:E.
  - destruct (choices i) as [|c rest]; cbn [fst snd negb andb].
    + split; [reflexivity|]. exists []. now rewrite app_nil_r.
    + destruct (differs _ c); cbn [fst snd].
      * split; [now rewrite app_nil_r|]. eexists. split; [reflexivity|].
        simpl. lia.
      * split; [now rewrite app_nil_r|]. exists []. rewrite app_nil_r.
        split; [reflexivity | simpl; lia].
  - cbn [fst snd]. rewrite !andb_false_r, app_nil_r. split; [reflexivity|].
    exists []. now rewrite app_nil_r.
Qed.

Lemma fold_messages issues : forall w p m,
  snd (fold_left (fallback_step L) issues (w, p, m))
  = m ++ map (missing_message L)
           (filter (fun i => (no_choices i && present w i)%bool) issues)
  /\ exists added,
       snd (fst (fold_left (fallback_step L) issues (w, p, m))) = p ++ added
       /\ (length added
           <= length (filter (fun i => (negb (no_choices i) && present w i)%bool)
                        issues))%nat.
Proof.
  induction issues as [|i r IH]; intros w p m; cbn [fold_left filter map].
  - rewrite app_nil_r. split; [reflexivity|]. exists [].
    now rewrite app_nil_r.
  - destruct (step_messages w p m i) as (Hm & a1 & Hp & Hl).
    assert (Hpres : forall j,
               present (fst (fst (fallback_step L (w, p, m) i))) j
               = present w j) by (intros j; apply step_present).
    destruct (fallback_step L (w, p, m) i) as [[w1 p1] m1].
    cbn [fst snd] in Hm, Hp, Hpres. subst m1 p1.
    destruct (IH w1 (p ++ a1)
                (m ++ (if (no_choices i && present w i)%bool
                       then [missing_message L i] else [])))
      as (IHm & a2 & IHp & IHl).
    assert (F1 : filter (fun j => (no_choices j && present w1 j)%bool) r
                 = filter (fun j => (no_choices j && present w j)%bool) r)
      by (apply filter_ext; intros j; now rewrite Hpres).
    assert (F2 : filter (fun j => (negb (no_choices j) && present w1 j)%bool) r
                 = filter (fun j => (negb (no_choices j) && present w j)%bool) r)
      by (apply filter_ext; intros j; now rewrite Hpres).
    rewrite F1 in IHm. rewrite F2 in IHl. split.
    + rewrite IHm, <- app_assoc. f_equal.
      now destruct (no_choices i && present w i)%bool.
    + exists (a1 ++ a2). rewrite IHp, app_assoc. split; [reflexivity|].
      rewrite length_app.
      destruct (negb (no_choices i) && present w i)%bool; simpl in *; lia.
Qed.

End PatcherFrame.

Lemma patcher_frame_shape (L : Builtins) (payload payload' : value)
    (w : dict) (issues : list Issue) (patched missing : list string) :
  get_workflow payload = Ok (Some (VDict w)) ->
  apply_validation_fallbacks L payload issues
  = Ok (payload', patched, missing) ->
  exists w' : dict,
    get_workflow payload' = Ok (Some (VDict w')) /\ same_shape w w'.
Proof.
  intros Hw Ha. rewrite (apply_unfold L payload w issues Hw) in Ha.
  cbv zeta in Ha. injection Ha as <- _ _.
  exists (fst (fst (fold_left (fallback_step L) issues (w, [], [])))).
  split; [eapply get_set_workflow; exact Hw | apply fold_same_shape].
Qed.

(** X5.  The patcher never adds, removes or reorders nodes and never
    turns a node record into something else; a node that no issue names
    comes out exactly as it went in. *)
Theorem patcher_frame (L : Builtins) (payload payload' : value) (w : dict)
    (issues : list Issue) (patched missing : list string) :
  get_workflow payload = Ok (Some (VDict w)) ->
  apply_validation_fallbacks L payload issues
  = Ok (payload', patched, missing) ->
  exists w' : dict,
    get_workflow payload' = Ok (Some (VDict w'))
    /\ dict_keys w' = dict_keys w
    /\ (forall k, is_node (dict_get k w') = is_node (dict_get k w))
    /\ (forall k, ~ In k (map node_id issues) ->
                  dict_get k w' = dict_get k w).
Proof.
  intros Hw Ha. rewrite (apply_unfold L payload w issues Hw) in Ha.
  cbv zeta in Ha. injection Ha as <- _ _.
  exists (fst (fst (fold_left (fallback_step L) issues (w, [], [])))).
  split; [eapply get_set_workflow; exact Hw|].
  destruct (fold_same_shape L issues w [] []) as (K & N & _).
  split; [exact K|]. split; [exact N|].
  intros k Hk. now apply fold_frame.
Qed.

Lemma patcher_frame_witness :
  exists w' : dict,
    get_workflow (ScenarioB.payload_with "bar.safetensors")
    = Ok (Some (VDict w'))
    /\ dict_keys w' = ["12"]
    /\ (forall k, is_node (dict_get k w')
                  = is_node (dict_get k
                               [("12",
                                 VDict [("class_type", VStr "CheckpointLoaderSimple");
                                        ("inputs",
                                         VDict [("ckpt_name", VStr "foo.safetensors")])])]))
    /\ (forall k, ~ In k (map node_id [ScenarioB.issue]) ->
                  dict_get k w'
                  = dict_get k
                      [("12",
                        VDict [("class_type", VStr "CheckpointLoaderSimple");
                               ("inputs",
                                VDict [("ckpt_name", VStr "foo.safetensors")])])]).
Proof.
  apply (patcher_frame Demo.builtins (ScenarioB.payload_with "foo.safetensors")
           (ScenarioB.payload_with "bar.safetensors")
           [("12", VDict [("class_type", VStr "CheckpointLoaderSimple");
                          ("inputs", VDict [("ckpt_name", VStr "foo.safetensors")])])]
           [ScenarioB.issue]
           ["Node 12 (CheckpointLoaderSimple) ckpt_name: 'foo.safetensors' -> 'bar.safetensors'"]
           []); reflexivity.
Defined.

(** X6.  For any list of issues, the missing messages the patcher
    returns are, in order, one for each issue that has no choices and
    whose node is in the graph with an inputs mapping; the patched
    messages are at most one for each issue that has choices and whose
    node is there. *)
Theorem patcher_messages (L : Builtins) (payload payload' : value)
    (w : dict) (issues : list Issue) (patched missing : list string) :
  get_workflow payload = Ok (Some (VDict w)) ->
  apply_validation_fallbacks L payload issues
  = Ok (payload', patched, missing) ->
  missing = map (missing_message L)
              (filter (fun i => (no_choices i && present w i)%bool) issues)
  /\ (length patched
      <= length (filter (fun i => (negb (no_choices i) && present w i)%bool)
                   issues))%nat
  /\ (length patched + length missing <= length issues)%nat.
Proof.
  intros Hw Ha. rewrite (apply_unfold L payload w issues Hw) in Ha.
  cbv zeta in Ha. injection Ha as _ Hp Hm.
  destruct (fold_messages L issues w [] []) as (Fm & added & Fp & Fl).
  rewrite Fm in Hm. rewrite Fp in Hp. cbn [app] in Hm, Hp. subst.
  split; [reflexivity|]. split; [exact Fl|].
  rewrite length_map.
  assert (G : forall (f : Issue -> bool) (g : Issue -> bool) (l : list Issue),
             (forall i, f i = true -> g i = true -> False) ->
             (length (filter f l) + length (filter g l) <= length l)%nat).
  { intros f g l Hfg. induction l as [|x l IH]; [simpl; lia|].
    cbn [filter]. destruct (f x) eqn:Ef, (g x) eqn:Eg; simpl; try lia.
    exfalso. now apply (Hfg x). }
  pose proof (G (fun i => (negb (no_choices i) && present w i)%bool)
                (fun i => (no_choices i && present w i)%bool) issues) as H.
  cbv beta in H. assert (Hx : forall i,
      (negb (no_choices i) && present w i)%bool = true ->
      (no_choices i && present w i)%bool = true -> False).
  { intros i. destruct (no_choices i); simpl; congruence. }
  specialize (H Hx). lia.
Qed.

Lemma patcher_messages_witness :
  ([] : list string)
  = map (missing_message Demo.builtins)
      (filter (fun i => (no_choices i
                         && present
                              [("12",
                                VDict [("class_type", VStr "CheckpointLoaderSimple");
                                       ("inputs",
                                        VDict [("ckpt_name", VStr "foo.safetensors")])])]
                              i)%bool)
         [ScenarioB.issue])
  /\ (1 <= length (filter
                     (fun i => (negb (no_choices i)
                                && present
                                     [("12",
                                       VDict [("class_type", VStr "CheckpointLoaderSimple");
                                              ("inputs",
                                               VDict [("ckpt_name", VStr "foo.safetensors")])])]
                                     i)%bool)
                     [ScenarioB.issue]))%nat
  /\ (1 + 0 <= 1)%nat.
Proof.
  apply (patcher_messages Demo.builtins
           (ScenarioB.payload_with "foo.safetensors")
           (ScenarioB.payload_with "bar.safetensors")
           [("12", VDict [("class_type", VStr "CheckpointLoaderSimple");
                          ("inputs", VDict [("ckpt_name", VStr "foo.safetensors")])])]
           [ScenarioB.issue]
           ["Node 12 (CheckpointLoaderSimple) ckpt_name: 'foo.safetensors' -> 'bar.safetensors'"]
           []); reflexivity.
Defined.

Lemma same_shape_clean (w w' : dict) :
  same_shape w w' -> clean w -> clean w'.
Proof.
  intros (K & N & Li) (Hf & Hne & Hk). repeat split.
  - unfold frontend_shape in *. now rewrite !Li.
  - intros ->. destruct w; [contradiction | discriminate K].
  - intros k Hin. unfold doomed. rewrite N. apply Hk. now rewrite <- K.
Qed.

(** X7.  A payload the sanitizer accepted is still accepted, with
    nothing to remove, after the patcher has worked on it: the payload of
    the retry needs no second sanitizing. *)
Theorem patched_stays_sanitized (L : Builtins)
    (payload0 payload payload' : value) (removed : list string)
    (issues : list Issue) (patched missing : list string) :
  sanitize_workflow payload0 = Ok (payload, removed) ->
  apply_validation_fallbacks L payload issues
  = Ok (payload', patched, missing) ->
  sanitize_workflow payload' = Ok (payload', []).
Proof.
  intros Hs Ha.
  destruct (get_workflow payload0) as [[[| | | | | |w0]|]|e] eqn:Hw0;
    try (unfold sanitize_workflow in Hs; rewrite Hw0 in Hs; simpl in Hs;
         first [discriminate Hs
               | injection Hs as <- <-;
                 unfold apply_validation_fallbacks in Ha;
                 rewrite Hw0 in Ha; simpl in Ha; injection Ha as <- _ _;
                 unfold sanitize_workflow; now rewrite Hw0]).
  destruct (sanitized_is_clean payload0 payload w0 removed Hw0 Hs)
    as (w & Hw & Hc).
  destruct (patcher_frame_shape L payload payload' w issues patched missing
              Hw Ha) as (w' & Hw' & Hsh).
  apply (sanitize_clean payload' w' Hw').
  now apply (same_shape_clean w w').
Qed.

Lemma patched_stays_sanitized_witness :
  sanitize_workflow (ScenarioB.payload_with "bar.safetensors")
  = Ok (ScenarioB.payload_with "bar.safetensors", []).
Proof.
  apply (patched_stays_sanitized Demo.builtins
           (ScenarioB.payload_with "foo.safetensors")
           (ScenarioB.payload_with "foo.safetensors")
           (ScenarioB.payload_with "bar.safetensors") []
           [ScenarioB.issue]
           ["Node 12 (CheckpointLoaderSimple) ckpt_name: 'foo.safetensors' -> 'bar.safetensors'"]
           []); reflexivity.
Defined.

(** ** Validation Issue Parser: the order of the lines *)

Lemma dict_set_set {A : Type} (k : string) (v1 v2 : A)
    (d : list (string * A)) :
  dict_set k v2 (dict_set k v1 d) = dict_set k v2 d.
Proof.
  induction d as [|[k' v'] r IH]; simpl.
  - now rewrite String.eqb_refl.
  - destruct (String.eqb k k') eqn:E; simpl.
    + now rewrite String.eqb_refl.
    + now rewrite E, IH.
Qed.

(** X8.  A line that matches the errors pattern and a line that does
    not may change places without changing what the scan collects: the
    class_type line of a node may come before or after its errors line. *)
Theorem class_line_order_free (L : Builtins) (pre post : list string)
    (l1 l2 : string) (g : string * string)
    (st : list (string * list value) * list (string * string)) :
  errors_pattern l1 = Some g ->
  errors_pattern l2 = None ->
  fold_left (scan_line L) (pre ++ l1 :: l2 :: post) st
  = fold_left (scan_line L) (pre ++ l2 :: l1 :: post) st.
Proof.
  intros H1 H2. rewrite !fold_left_app. cbn [fold_left]. f_equal.
  destruct (fold_left (scan_line L) pre st) as [ne nc].
  unfold scan_line. rewrite H1, H2. destruct g as [nid g2].
  destruct (class_pattern l2) as [[nid' g']|];
    destruct (literal_eval L (Str.strip g2)) as [[| | | | |parsed|]|];
    rewrite ?H1, ?H2; reflexivity.
Qed.

Lemma class_line_order_free_witness :
  fold_left (scan_line Demo.builtins) [ScenarioB.line1; ScenarioB.line2]
    ([], [])
  = fold_left (scan_line Demo.builtins) [ScenarioB.line2; ScenarioB.line1]
      ([], []).
Proof.
  apply (class_line_order_free Demo.builtins [] [] ScenarioB.line1
           ScenarioB.line2 ("12", ScenarioB.raw_errors) ([], []));
    vm_compute; reflexivity.
Defined.



(** ** Job Runner: what the polling loop returns and when it ends *)

Section PollFacts.

Variable L : Builtins.
Variable R : Remote.

(** X10.  The polling loop returns only a reply whose uppercased status
    is COMPLETED, FAILED, CANCELLED or TIMED_OUT, and that reply is the
    last one it polled. *)
Theorem poll_returns_terminal (fuel k : nat) (job_id : value)
    (max_wait_s : Z) (t : list event) (res : value) :
  poll_until_done L R fuel k job_id max_wait_s = (t, Done res) ->
  exists st pre,
    status_upper L res = Ok st
    /\ In st ["COMPLETED"; "FAILED"; "CANCELLED"; "TIMED_OUT"]
    /\ t = pre ++ [Polled res].
Proof.
  unfold poll_until_done. generalize 0%nat at 1 as i. generalize initial_sleep.
  revert t. induction fuel as [|fuel IH]; intros t s i H; [discriminate|].
  rewrite poll_loop_S in H.
  destruct (status_reply R k job_id i) as [r|what]; [|discriminate].
  destruct (status_upper L r) as [st|e] eqn:Es; [|discriminate].
  destruct (is_terminal st) eqn:Et.
  - injection H as <- <-. exists st, []. repeat split; [exact Es|].
    now apply is_terminal_spec.
  - destruct (deadline_passed R k i); [discriminate|]. cbv zeta in H.
    destruct (poll_loop L R fuel k job_id max_wait_s (S i) (next_sleep s))
      as [t' o'] eqn:E'.
    cbn [fst snd] in H. injection H as <- ->.
    destruct (IH _ _ _ E') as (st' & pre & H1 & H2 & ->).
    exists st', (Polled r :: Slept s :: pre). now repeat split.
Qed.

(** The loop from turn [i] on, when the deadline test is true in turn
    [n]. *)
Lemma poll_bounded_from (n : nat) (k : nat) (job_id : value)
    (max_wait_s : Z) :
  deadline_passed R k n = true ->
  forall fuel i s,
    (i <= n)%nat -> (n - i < fuel)%nat ->
    snd (poll_loop L R fuel k job_id max_wait_s i s) <> Running
    /\ (length (sleeps (fst (poll_loop L R fuel k job_id max_wait_s i s)))
        <= n - i)%nat.
Proof.
  intros Hd. induction fuel as [|fuel IH]; intros i s Hi Hf; [lia|].
  rewrite poll_loop_S.
  destruct (status_reply R k job_id i) as [r|what];
    [|split; [discriminate | simpl; lia]].
  destruct (status_upper L r) as [st|e];
    [|split; [discriminate | simpl; lia]].
  destruct (is_terminal st); [split; [discriminate | simpl; lia]|].
  destruct (deadline_passed R k i) eqn:Edi;
    [split; [discriminate | simpl; lia]|].
  assert (i <> n) by (intros ->; congruence).
  destruct (IH (S i) (next_sleep s)) as [H1 H2]; [lia | lia |].
  cbv zeta. cbn [fst snd sleeps flat_map app length]. split; [exact H1|].
  change (flat_map _ ?x) with (sleeps x). lia.
Qed.

(** X11.  Polling is bounded: when the deadline test is true in turn
    [n], a loop with more than [n] turns of fuel has ended (with a result
    or an exception) and has slept at most [n] times. *)
Theorem poll_bounded (n fuel k : nat) (job_id : value) (max_wait_s : Z) :
  deadline_passed R k n = true ->
  (n < fuel)%nat ->
  snd (poll_until_done L R fuel k job_id max_wait_s) <> Running
  /\ (length (sleeps (fst (poll_until_done L R fuel k job_id max_wait_s)))
      <= n)%nat.
Proof.
  intros Hd Hf.
  destruct (poll_bounded_from n k job_id max_wait_s Hd fuel 0 initial_sleep)
    as [H1 H2]; [lia | lia |].
  unfold poll_until_done. split; [exact H1 | lia].
Qed.

Lemma poll_waits_from (k : nat) (job_id : value) (max_wait_s : Z)
    (res : value) (st : string) (n : nat) :
  status_reply R k job_id n = inl res ->
  status_upper L res = Ok st ->
  In st ["COMPLETED"; "FAILED"; "CANCELLED"; "TIMED_OUT"] ->
  (forall j, (j < n)%nat ->
             exists r s, status_reply R k job_id j = inl r
                         /\ status_upper L r = Ok s
                         /\ is_terminal s = false
                         /\ deadline_passed R k j = false) ->
  forall fuel i m,
    (i <= n)%nat -> (n - i < fuel)%nat ->
    snd (poll_loop L R fuel k job_id max_wait_s i (backoff m)) = Done res
    /\ sleeps (fst (poll_loop L R fuel k job_id max_wait_s i (backoff m)))
       = map backoff (seq m (n - i)).
Proof.
  intros Hr Hs Ht Hbefore.
  induction fuel as [|fuel IH]; intros i m Hi Hf; [lia|].
  rewrite poll_loop_S.
  destruct (Nat.eq_dec i n) as [->|Hne].
  - rewrite Hr, Hs. apply is_terminal_spec in Ht. rewrite Ht.
    rewrite Nat.sub_diag. now split.
  - destruct (Hbefore i) as (r & s & E1 & E2 & E3 & E4); [lia|].
    rewrite E1, E2, E3, E4. cbv zeta.
    destruct (IH (S i) (S m)) as [H1 H2]; [lia | lia |].
    change (next_sleep (backoff m)) with (backoff (S m)).
    cbn [fst snd sleeps flat_map app]. split; [exact H1|].
    change (flat_map _ ?x) with (sleeps x). rewrite H2.
    replace (n - i)%nat with (S (n - S i)) by lia. reflexivity.
Qed.

(** X12.  When the replies of turns 0 to [n-1] are not terminal and
    their deadline tests are false, and the reply of turn [n] is terminal,
    a loop with more than [n] turns of fuel returns the reply of turn [n]
    after exactly [n] sleeps, the first [n] of the backoff schedule. *)
Theorem poll_waits_for_terminal (fuel k : nat) (job_id : value)
    (max_wait_s : Z) (res : value) (st : string) (n : nat) :
  status_reply R k job_id n = inl res ->
  status_upper L res = Ok st ->
  In st ["COMPLETED"; "FAILED"; "CANCELLED"; "TIMED_OUT"] ->
  (forall j, (j < n)%nat ->
             exists r s, status_reply R k job_id j = inl r
                         /\ status_upper L r = Ok s
                         /\ is_terminal s = false
                         /\ deadline_passed R k j = false) ->
  (n < fuel)%nat ->
  snd (poll_until_done L R fuel k job_id max_wait_s) = Done res
  /\ sleeps (fst (poll_until_done L R fuel k job_id max_wait_s))
     = map backoff (seq 0 n).
Proof.
  intros Hr Hs Ht Hb Hf.
  destruct (poll_waits_from k job_id max_wait_s res st n Hr Hs Ht Hb fuel 0 0)
    as [H1 H2]; [lia | lia |].
  unfold poll_until_done. change initial_sleep with (backoff 0).
  rewrite Nat.sub_0_r in H2. now split.
Qed.

End PollFacts.

Lemma poll_returns_terminal_witness :
  exists st pre,
    status_upper Demo.builtins (Cases.job_result "COMPLETED") = Ok st
    /\ In st ["COMPLETED"; "FAILED"; "CANCELLED"; "TIMED_OUT"]
    /\ [Polled (Cases.job_result "COMPLETED")]
       = pre ++ [Polled (Cases.job_result "COMPLETED")].
Proof.
  apply (poll_returns_terminal Demo.builtins Cases.prompt_remote 1 0
           (VStr "job-1") 600).
  reflexivity.
Defined.

Lemma poll_bounded_witness :
  snd (poll_until_done Demo.builtins Cases.stuck_remote 1 0 (VStr "job-1") 600)
  <> Running
  /\ (length (sleeps (fst (poll_until_done Demo.builtins Cases.stuck_remote 1
                              0 (VStr "job-1") 600))) <= 0)%nat.
Proof.
  apply (poll_bounded Demo.builtins Cases.stuck_remote 0 1 0 (VStr "job-1") 600).
  - reflexivity.
  - lia.
Defined.

Lemma poll_waits_for_terminal_witness :
  snd (poll_until_done Demo.builtins Inputs.slow_remote 3 0 (VStr "job-1") 600)
  = Done (Cases.job_result "COMPLETED")
  /\ sleeps (fst (poll_until_done Demo.builtins Inputs.slow_remote 3 0
                    (VStr "job-1") 600))
     = map backoff (seq 0 2).
Proof.
  apply (poll_waits_for_terminal Demo.builtins Inputs.slow_remote 3 0
           (VStr "job-1") 600 (Cases.job_result "COMPLETED") "COMPLETED" 2).
  - reflexivity.
  - reflexivity.
  - simpl. tauto.
  - intros j Hj. exists (Cases.job_result "IN_PROGRESS"), "IN_PROGRESS".
    destruct j as [|[|j]]; [now repeat split | now repeat split | lia].
  - lia.
Defined.

(** ** The recovery part of [main]: how a run ends *)

(** Turns the tests on a status into facts about the status. *)
Ltac status_facts :=
  repeat match goal with
         | H : not_completed ?s = false |- _ =>
             unfold not_completed in H;
             apply negb_false_iff, String.eqb_eq in H; subst s
         | H : not_completed ?s = true |- _ =>
             apply not_completed_true in H
         end.

(** Shows the trace at a leaf as what came before the write, then the
    write. *)
Ltac ends_with_write :=
  cbn [app]; repeat rewrite app_nil_r; repeat rewrite app_assoc;
  match goal with
  | |- exists pre r, ?x :: ?l ++ [WroteResultJson ?w] = _ /\ _ =>
      exists (x :: l), w; split; [reflexivity|]
  end.

(** X14.  How a run of [main] ends tells the status of the job: it
    returns only after writing a result whose status is COMPLETED, and it
    ends with its SystemExit only after writing a result whose status is
    something else; the write is then the last thing the run did and the
    message names that result's status and the path of the file. *)
Theorem exit_reflects_status (L : Builtins) (R : Remote) (fuel : nat)
    (payload : value) (mode : string) (wait_ms max_wait_s : Z)
    (path : string) :
  let run := main L R fuel payload mode wait_ms max_wait_s path in
  (snd run = Done tt ->
   exists pre r,
     fst run = pre ++ [WroteResultJson r]
     /\ status_upper L r = Ok "COMPLETED")
  /\ (forall msg,
        snd run = Raised (SystemExit msg) ->
        exists pre r,
          fst run = pre ++ [WroteResultJson r]
          /\ (exists st, status_upper L r = Ok st /\ st <> "COMPLETED")
          /\ msg = exit_message L r path).
Proof.
  cbv zeta.
  main_cases L R fuel payload mode wait_ms max_wait_s;
    settle_leaf;
    (split; [intros H | intros msg H]); cbn [fst snd] in *;
    try discriminate H;
    try (injection H as H); try subst;
    try match goal with
        | H1 : status_upper _ _ = Raise (SystemExit _) |- _ =>
            apply status_upper_raise in H1; discriminate H1
        | H1 : get_default _ _ _ = Raise (SystemExit _) |- _ =>
            apply get_default_raise in H1; discriminate H1
        | H1 : apply_validation_fallbacks _ _ _ = Raise (SystemExit _)
          |- _ =>
            apply apply_raise in H1; discriminate H1
        | H1 : is_exit (SystemExit _) = false |- _ => discriminate H1
        end;
    status_facts;
    try congruence;
    ends_with_write;
    first [ assumption
          | split; [eexists; split; eassumption | reflexivity] ].
Qed.

Lemma exit_reflects_status_witness :
  exists pre r,
    fst (main Demo.builtins Cases.picky_remote 0
           (ScenarioB.payload_with "foo.safetensors") "runsync" 120000 600
           "outputs/result.json")
    = pre ++ [WroteResultJson r]
    /\ status_upper Demo.builtins r = Ok "COMPLETED".
Proof.
  apply (proj1 (exit_reflects_status Demo.builtins Cases.picky_remote 0
                  (ScenarioB.payload_with "foo.safetensors") "runsync" 120000
                  600 "outputs/result.json")).
  vm_compute. reflexivity.
Defined.

(** ** Payload Normalizer *)

Lemma splitlines_from_nonempty (fuel : nat) : forall cur s,
  (String.length s < fuel)%nat ->
  cur <> EmptyString \/ s <> EmptyString ->
  Str.splitlines_from fuel cur s <> [].
Proof.
  induction fuel as [|fuel IH]; intros cur s Hf Hne; [lia|].
  destruct s as [|c r]; cbn [Str.splitlines_from].
  - destruct cur; [destruct Hne; contradiction | discriminate].
  - destruct (Str.linebreak_head (String c r)); [discriminate|].
    apply IH; [simpl in Hf; lia|]. left. now destruct cur.
Qed.

Lemma first_line_defined (raw : string) : first_line raw <> None.
Proof.
  unfold first_line. destruct raw as [|c r]; [discriminate|].
  cbn [Str.is_empty].
  pose proof (splitlines_from_nonempty (S (String.length (String c r)))
                EmptyString (String c r)) as H.
  fold (Str.splitlines (String c r)) in H.
  destruct (Str.splitlines (String c r)); [|discriminate].
  exfalso. apply H; [lia | right; discriminate | reflexivity].
Qed.

(** X15.  [load_payload] never fails on the subscript
    [splitlines()[0]]: a text that is not empty always has a first line.
    A missing file gives FileNotFoundError and a text that is not JSON a
    ValueError; any other text is loaded. *)
Theorem load_payload_first_line_safe (json_loads : string -> value + string)
    (path : string) (file : option string) :
  load_payload json_loads path file <> inr NoFirstLine
  /\ (file = None ->
      load_payload json_loads path file
      = inr (NoSuchFile ("workflow file not found: " ++ path)))
  /\ (forall raw data, file = Some raw -> json_loads raw = inl data ->
                       load_payload json_loads path file
                       = inl (normalize data))
  /\ (forall raw exc, file = Some raw -> json_loads raw = inr exc ->
                      exists msg, load_payload json_loads path file
                                  = inr (BadJSON msg)).
Proof.
  pose proof first_line_defined as Hfl.
  unfold load_payload. repeat split.
  - destruct file as [raw|]; [|discriminate].
    destruct (json_loads raw); [discriminate|].
    specialize (Hfl raw). destruct (first_line raw); [discriminate|].
    contradiction.
  - now intros ->.
  - intros raw data -> H. now rewrite H.
  - intros raw exc -> H. rewrite H. specialize (Hfl raw).
    destruct (first_line raw); [|contradiction]. now eexists.
Qed.

Lemma load_payload_first_line_safe_witness :
  load_payload (fun _ => inr "Expecting value: line 1 column 1 (char 0)")
    "comfyui_workflow.json" (Some "#!/usr/bin/env python3")
  = inr (BadJSON
           "Invalid workflow JSON in comfyui_workflow.json: Expecting value: line 1 column 1 (char 0). This file looks like a Python script, not a ComfyUI workflow JSON.")
  /\ exists msg,
       load_payload (fun _ => inr "Expecting value: line 1 column 1 (char 0)")
         "comfyui_workflow.json" (Some "#!/usr/bin/env python3")
       = inr (BadJSON msg).
Proof.
  split; [vm_compute; reflexivity|].
  apply (proj2 (proj2 (proj2
    (load_payload_first_line_safe
       (fun _ => inr "Expecting value: line 1 column 1 (char 0)")
       "comfyui_workflow.json" (Some "#!/usr/bin/env python3"))))
    "#!/usr/bin/env python3" "Expecting value: line 1 column 1 (char 0)");
    reflexivity.
Defined.

(** X16.  Whatever the JSON document, the normalized payload is a
    mapping with the key [input]; a document that has the key [input]
    already is returned as it is, so normalizing twice is normalizing
    once. *)
Theorem normalize_shape (data : value) :
  (exists d, normalize data = VDict d /\ dict_mem "input" d = true)
  /\ normalize (normalize data) = normalize data
  /\ (forall d, data = VDict d -> dict_mem "input" d = true ->
                normalize data = data).
Proof.
  assert (Hw : forall v, exists d, wrap v = VDict d /\ dict_mem "input" d = true)
    by (intros v; eexists; split; reflexivity).
  assert (Hk : forall d, dict_mem "input" d = true ->
                         normalize (VDict d) = VDict d)
    by (intros d H; simpl; now rewrite H).
  assert (Hs : exists d, normalize data = VDict d /\ dict_mem "input" d = true).
  { unfold normalize. destruct data as [| | | | | |d]; try apply Hw.
    destruct (dict_mem "input" d) eqn:E; [now exists d|].
    destruct (dict_get "prompt" d) as [[| | | | | |p]|];
      try apply Hw;
      destruct (dict_get "output" d) as [[| | | | | |o]|]; apply Hw. }
  split; [exact Hs|]. split.
  - destruct Hs as (d & -> & Hd). now apply Hk.
  - intros d -> Hd. now apply Hk.
Qed.

Lemma normalize_shape_witness :
  normalize (ScenarioB.payload_with "foo.safetensors")
  = ScenarioB.payload_with "foo.safetensors".
Proof.
  refine (proj2 (proj2 (normalize_shape
            (ScenarioB.payload_with "foo.safetensors"))) _ eq_refl eq_refl).
Defined.

(** X18.  A frontend export loaded from a file (a document with list
    [nodes] and list [links], no [input], and no mapping under [prompt] or
    [output]) is wrapped whole and then refused by the sanitizer. *)
Theorem frontend_file_refused (d : dict) (nodes links : list value) :
  dict_mem "input" d = false ->
  dict_get "nodes" d = Some (VList nodes) ->
  dict_get "links" d = Some (VList links) ->
  is_dict (get_or_none "prompt" d) = false ->
  is_dict (get_or_none "output" d) = false ->
  sanitize_workflow (normalize (VDict d))
  = Raise (ValueError frontend_message).
Proof.
  intros Hi Hn Hl Hp Ho.
  assert (E : normalize (VDict d) = wrap (VDict d)).
  { unfold normalize, get_or_none in *. rewrite Hi.
    destruct (dict_get "prompt" d) as [[| | | | | |p]|];
      try discriminate Hp;
      destruct (dict_get "output" d) as [[| | | | | |o]|];
      try discriminate Ho; reflexivity. }
  rewrite E, (sanitize_dict (wrap (VDict d)) d eq_refl).
  unfold frontend_shape. now rewrite Hn, Hl.
Qed.

Lemma frontend_file_refused_witness :
  sanitize_workflow
    (normalize (VDict [("nodes", VList []); ("links", VList []);
                       ("version", VInt 1)]))
  = Raise (ValueError frontend_message).
Proof.
  apply (frontend_file_refused
           [("nodes", VList []); ("links", VList []); ("version", VInt 1)]
           [] []); reflexivity.
Defined.

(** ** Prompt Patcher *)

Section PromptFacts.

Variable lower : string -> string.

Implicit Types (node : dict) (w : dict) (prompt : string).

(** A turn of the first loop touches nothing but the [inputs] of its
    node. *)
Lemma patch_api_node_frame prompt node node' b k :
  patch_api_node lower prompt node = Ok (node', b) ->
  k <> "inputs" -> dict_get k node' = dict_get k node.
Proof.
  unfold patch_api_node. intros H Hk.
  destruct (differs _ _); [now injection H as <- <-|].
  destruct (or_empty_dict _) as [meta|e]; [|discriminate]. cbn [bind] in H.
  destruct (lowered_title lower meta) as [title|e]; [|discriminate].
  cbn [bind] in H.
  destruct (Str.contains "positive" title); [|now injection H as <- <-].
  destruct (dict_get "inputs" node) as [v|] eqn:Ei.
  - destruct (has_text v) as [[|]|e]; try discriminate; cbn [bind] in H.
    + destruct v; try discriminate. injection H as <- <-.
      rewrite dict_get_set_neq; [reflexivity | congruence].
    + now injection H as <- <-.
  - cbn [has_text bind dict_mem dict_get] in H. injection H as <- <-.
    rewrite dict_get_set_neq; [reflexivity | congruence].
Qed.

(** What the first loop makes of each entry. *)
Lemma patch_api_get prompt : forall w w' n k,
  patch_api lower prompt w = Ok (w', n) ->
  match dict_get k w with
  | Some (VDict node) =>
      exists node' b,
        dict_get k w' = Some (VDict node')
        /\ patch_api_node lower prompt node = Ok (node', b)
  | other => dict_get k w' = other
  end.
Proof.
  induction w as [|[k0 v0] r IH]; intros w' n k H.
  - injection H as <- <-. reflexivity.
  - assert (Hrest : forall v1 c,
               (rest <- patch_api lower prompt r ;;
                Ok ((k0, v1) :: fst rest, (c + snd rest)%nat)) = Ok (w', n) ->
               exists r' m, patch_api lower prompt r = Ok (r', m)
                            /\ w' = (k0, v1) :: r').
    { intros v1 c E. destruct (patch_api lower prompt r) as [[r' m]|e];
        [|discriminate]. injection E as <- <-. now exists r', m. }
    cbn [dict_get]. destruct (String.eqb k k0) eqn:Ek.
    + destruct v0 as [| | | | | |node];
        try (cbn [patch_api] in H;
             destruct (Hrest _ 0%nat H) as (r' & m & _ & ->);
             cbn [dict_get]; now rewrite Ek).
      cbn [patch_api] in H.
      destruct (patch_api_node lower prompt node) as [[node' b]|e] eqn:En;
        [|discriminate].
      cbn [bind fst snd] in H.
      destruct (Hrest _ _ H) as (r' & m & _ & ->).
      exists node', b. cbn [dict_get]. now rewrite Ek.
    + assert (exists v1 r' m, patch_api lower prompt r = Ok (r', m)
                              /\ w' = (k0, v1) :: r')
        as (v1 & r' & m & Hr & ->).
      { destruct v0 as [| | | | | |node];
          try (cbn [patch_api] in H;
               destruct (Hrest _ 0%nat H) as (r' & m & Hr & ->);
               now eexists _, r', m).
        cbn [patch_api] in H.
        destruct (patch_api_node lower prompt node) as [[node' b]|e];
          [|discriminate].
        cbn [bind fst snd] in H.
        destruct (Hrest _ _ H) as (r' & m & Hr & ->).
        now eexists _, r', m. }
      cbn [dict_get]. rewrite Ek. exact (IH r' m k Hr).
Qed.

Lemma patch_api_keys prompt : forall w w' n,
  patch_api lower prompt w = Ok (w', n) -> dict_keys w' = dict_keys w.
Proof.
  induction w as [|[k0 v0] r IH]; intros w' n H.
  - now injection H as <- <-.
  - cbn [patch_api] in H.
    destruct v0 as [| | | | | |node];
      try (destruct (patch_api lower prompt r) as [[r' m]|e];
           [|discriminate]; injection H as <- <-; simpl; f_equal;
           now apply (IH r' m)).
    destruct (patch_api_node lower prompt node) as [[node' b]|e];
      [|discriminate].
    cbn [bind] in H.
    destruct (patch_api lower prompt r) as [[r' m]|e]; [|discriminate].
    injection H as <- <-. simpl. f_equal. now apply (IH r' m).
Qed.

Lemma patch_api_shape prompt w w' n :
  patch_api lower prompt w = Ok (w', n) -> same_shape w w'.
Proof.
  intros H. split; [eapply patch_api_keys; exact H|].
  split; intros k; pose proof (patch_api_get prompt w w' n k H) as G;
    destruct (dict_get k w) as [[| | | | | |node]|]; try (now rewrite G);
    destruct G as (node' & b & -> & Hn); [|reflexivity].
  simpl. unfold dict_mem.
  now rewrite (patch_api_node_frame prompt node node' b "class_type" Hn).
Qed.

Lemma set_list_shape (k : string) (l l0 : list value) w :
  dict_get k w = Some (VList l0) ->
  same_shape w (dict_set k (VList l) w).
Proof.
  intros Hg. split; [eapply dict_keys_set_present; exact Hg|].
  split; intros k'; (destruct (string_dec k k') as [<-|Hne];
    [now rewrite dict_get_set_eq, Hg | now rewrite dict_get_set_neq]).
Qed.

(** The graph a successful call leaves has the shape of the graph it
    found. *)
Lemma prompt_patch_shape payload payload' prompt w n :
  get_workflow payload = Ok (Some (VDict w)) ->
  patch_positive_prompt lower payload prompt = Ok (payload', n) ->
  exists w', get_workflow payload' = Ok (Some (VDict w')) /\ same_shape w w'.
Proof.
  intros Hw H. unfold patch_positive_prompt in H. rewrite Hw in H.
  cbn [bind] in H.
  destruct (patch_api lower prompt w) as [[w1 n1]|e] eqn:Ea; [|discriminate].
  cbn [bind fst snd] in H. pose proof (patch_api_shape prompt w w1 n1 Ea) as S1.
  destruct (dict_get "nodes" w1) as [[| | | | |nodes|]|] eqn:En;
    try (injection H as <- <-; exists w1;
         split; [eapply get_set_workflow; exact Hw | exact S1]).
  destruct (patch_frontend lower prompt nodes) as [[f m]|e]; [|discriminate].
  injection H as <- <-. eexists.
  split; [eapply get_set_workflow; exact Hw|].
  eapply same_shape_trans; [exact S1|].
  eapply set_list_shape; exact En.
Qed.

End PromptFacts.

(** X19.  The prompt patcher never adds, removes or reorders the
    top-level entries of the graph, and an entry is a node record after
    the call exactly when it was one before. *)
Theorem prompt_patch_frame (lower : string -> string)
    (payload payload' : value) (prompt : string) (w : dict) (n : nat) :
  get_workflow payload = Ok (Some (VDict w)) ->
  patch_positive_prompt lower payload prompt = Ok (payload', n) ->
  exists w' : dict,
    get_workflow payload' = Ok (Some (VDict w'))
    /\ dict_keys w' = dict_keys w
    /\ forall k, is_node (dict_get k w') = is_node (dict_get k w).
Proof.
  intros Hw H.
  destruct (prompt_patch_shape lower payload payload' prompt w n Hw H)
    as (w' & Hw' & K & N & _).
  exists w'. now repeat split.
Qed.

(** X20.  A payload the sanitizer accepted is still accepted, with
    nothing to remove, after the prompt patcher has worked on it. *)
Theorem prompt_patch_stays_sanitized (lower : string -> string)
    (payload0 payload payload' : value) (removed : list string)
    (prompt : string) (n : nat) :
  sanitize_workflow payload0 = Ok (payload, removed) ->
  patch_positive_prompt lower payload prompt = Ok (payload', n) ->
  sanitize_workflow payload' = Ok (payload', []).
Proof.
  intros Hs Hp.
  destruct (get_workflow payload0) as [[[| | | | | |w0]|]|e] eqn:Hw0;
    try (unfold sanitize_workflow in Hs; rewrite Hw0 in Hs; simpl in Hs;
         first [discriminate Hs
               | injection Hs as <- <-;
                 unfold patch_positive_prompt in Hp;
                 rewrite Hw0 in Hp; simpl in Hp; injection Hp as <- _;
                 unfold sanitize_workflow; now rewrite Hw0]).
  destruct (sanitized_is_clean payload0 payload w0 removed Hw0 Hs)
    as (w & Hw & Hc).
  destruct (prompt_patch_shape lower payload payload' prompt w n Hw Hp)
    as (w' & Hw' & Hsh).
  apply (sanitize_clean payload' w' Hw').
  now apply (same_shape_clean w w').
Qed.

Lemma prompt_patch_frame_witness :
  exists w' : dict,
    get_workflow
      (Inputs.wrap
         [("6", PromptInputs.encode_node "CLIP Text Encode (Positive Prompt)"
                  "a dog");
          ("7", PromptInputs.encode_node "CLIP Text Encode (Negative Prompt)"
                  "blurry")])
    = Ok (Some (VDict w'))
    /\ dict_keys w' = dict_keys PromptInputs.two_prompts
    /\ forall k, is_node (dict_get k w')
                 = is_node (dict_get k PromptInputs.two_prompts).
Proof.
  apply (prompt_patch_frame PromptInputs.ascii_lower
           (Inputs.wrap PromptInputs.two_prompts) _ "a dog"
           PromptInputs.two_prompts 1); reflexivity.
Defined.

Lemma prompt_patch_stays_sanitized_witness :
  sanitize_workflow
    (Inputs.wrap
       [("6", PromptInputs.encode_node "CLIP Text Encode (Positive Prompt)"
                "a dog");
        ("7", PromptInputs.encode_node "CLIP Text Encode (Negative Prompt)"
                "blurry")])
  = Ok (Inputs.wrap
          [("6", PromptInputs.encode_node "CLIP Text Encode (Positive Prompt)"
                   "a dog");
           ("7", PromptInputs.encode_node "CLIP Text Encode (Negative Prompt)"
                   "blurry")], []).
Proof.
  apply (prompt_patch_stays_sanitized PromptInputs.ascii_lower
           (Inputs.wrap PromptInputs.two_prompts)
           (Inputs.wrap PromptInputs.two_prompts) _ [] "a dog" 1);
    reflexivity.
Defined.

Section PromptAgain.

Variable lower : string -> string.

Implicit Types (node : dict) (w : dict).

(** A node the first loop has been through is, for a second prompt,
    as good as the node it was. *)
Lemma patch_api_node_again p1 p2 node node1 b1 :
  patch_api_node lower p1 node = Ok (node1, b1) ->
  patch_api_node lower p2 node1 = patch_api_node lower p2 node.
Proof.
  intros H.
  assert (Hc : get_or_none "class_type" node1 = get_or_none "class_type" node)
    by (unfold get_or_none;
        now rewrite (patch_api_node_frame lower p1 node node1 b1 "class_type" H)).
  assert (Hm : get_or_none "_meta" node1 = get_or_none "_meta" node)
    by (unfold get_or_none;
        now rewrite (patch_api_node_frame lower p1 node node1 b1 "_meta" H)).
  unfold patch_api_node in *. rewrite Hc, Hm. clear Hc Hm.
  destruct (differs _ _); [now injection H as <- _|].
  destruct (or_empty_dict _) as [meta|e]; [|discriminate]. cbn [bind] in *.
  destruct (lowered_title lower meta) as [title|e]; [|discriminate].
  cbn [bind] in *.
  destruct (Str.contains "positive" title); [|now injection H as <- _].
  destruct (dict_get "inputs" node) as [v|] eqn:Ei.
  - destruct (has_text v) as [[|]|e] eqn:Eh; try discriminate;
      cbn [bind] in *.
    + destruct v as [| | | | | |d]; try discriminate. injection H as <- _.
      rewrite dict_get_set_eq. cbn [has_text] in *.
      unfold dict_mem. rewrite dict_get_set_eq. cbn [bind].
      now rewrite !dict_set_set.
    + injection H as <- _. rewrite Ei, Eh. reflexivity.
  - cbn [has_text bind dict_mem dict_get] in *. injection H as <- _.
    rewrite dict_get_set_eq. cbn [has_text bind dict_mem dict_get].
    reflexivity.
Qed.

Lemma patch_api_again p1 p2 : forall w w1 n1,
  patch_api lower p1 w = Ok (w1, n1) ->
  patch_api lower p2 w1 = patch_api lower p2 w.
Proof.
  induction w as [|[k0 v0] r IH]; intros w1 n1 H.
  - now injection H as <- _.
  - cbn [patch_api] in H.
    destruct v0 as [| | | | | |node];
      try (destruct (patch_api lower p1 r) as [[r1 m1]|e] eqn:Er;
           [|discriminate]; injection H as <- _;
           cbn [patch_api fst]; now rewrite (IH r1 m1 eq_refl)).
    destruct (patch_api_node lower p1 node) as [[node1 b1]|e] eqn:En;
      [|discriminate].
    cbn [bind] in H.
    destruct (patch_api lower p1 r) as [[r1 m1]|e] eqn:Er; [|discriminate].
    injection H as <- _. cbn [patch_api fst].
    now rewrite (patch_api_node_again p1 p2 node node1 b1 En),
      (IH r1 m1 eq_refl).
Qed.

Lemma patch_frontend_node_again p1 p2 v v1 b1 :
  patch_frontend_node lower p1 v = Ok (v1, b1) ->
  patch_frontend_node lower p2 v1 = patch_frontend_node lower p2 v.
Proof.
  unfold patch_frontend_node. intros H.
  destruct v as [| | | | | |d]; try (now injection H as <- _).
  destruct (differs (get_or_none "type" d) _) eqn:Ed;
    [injection H as <- _; now rewrite Ed|].
  destruct (lowered_title lower d) as [title|e] eqn:Et; [|discriminate].
  cbn [bind] in H.
  destruct (Str.contains "positive" title) eqn:Ec; cbn [negb] in H;
    [|injection H as <- _; now rewrite Ed, Et; cbn [bind]; rewrite Ec].
  destruct (dict_get "widgets_values" d) as [[| | | | |[|w0 ws]|]|] eqn:Ew;
    try (injection H as <- _; rewrite Ed, Et; cbn [bind]; rewrite Ec, Ew;
         reflexivity).
  injection H as <- _.
  assert (Hty : get_or_none "type"
                  (dict_set "widgets_values" (VList (VStr p1 :: ws)) d)
                = get_or_none "type" d)
    by (unfold get_or_none; now rewrite dict_get_set_neq by discriminate).
  assert (Hti : lowered_title lower
                  (dict_set "widgets_values" (VList (VStr p1 :: ws)) d)
                = lowered_title lower d)
    by (unfold lowered_title, get_or_none;
        now rewrite dict_get_set_neq by discriminate).
  rewrite Hty, Hti, Ed, Et. cbn [bind]. rewrite Ec. cbn [negb].
  now rewrite dict_get_set_eq, dict_set_set.
Qed.

Lemma patch_frontend_again p1 p2 : forall l l1 n1,
  patch_frontend lower p1 l = Ok (l1, n1) ->
  patch_frontend lower p2 l1 = patch_frontend lower p2 l.
Proof.
  induction l as [|v r IH]; intros l1 n1 H.
  - now injection H as <- _.
  - cbn [patch_frontend] in H.
    destruct (patch_frontend_node lower p1 v) as [[v1 b1]|e] eqn:En;
      [|discriminate].
    cbn [bind] in H.
    destruct (patch_frontend lower p1 r) as [[r1 m1]|e] eqn:Er;
      [|discriminate].
    injection H as <- _. cbn [patch_frontend fst].
    now rewrite (patch_frontend_node_again p1 p2 v v1 b1 En),
      (IH r1 m1 eq_refl).
Qed.

(** The first loop passes over an entry that is a list. *)
Lemma patch_api_set_list p (k : string) (l : list value) : forall w l0,
  dict_get k w = Some (VList l0) ->
  patch_api lower p (dict_set k (VList l) w)
  = match patch_api lower p w with
    | Ok (w', n) => Ok (dict_set k (VList l) w', n)
    | Raise e => Raise e
    end.
Proof.
  induction w as [|[k0 v0] r IH]; intros l0 Hg; [discriminate|].
  cbn [dict_get dict_set] in *. destruct (String.eqb k k0) eqn:Ek.
  - injection Hg as ->. cbn [patch_api].
    destruct (patch_api lower p r) as [[r' m]|e]; [|reflexivity].
    cbn [bind fst snd dict_set]. now rewrite Ek.
  - destruct v0 as [| | | | | |node];
      try (cbn [patch_api]; rewrite (IH l0 Hg);
           destruct (patch_api lower p r) as [[r' m]|e]; [|reflexivity];
           cbn [bind fst snd dict_set]; now rewrite Ek).
    cbn [patch_api].
    destruct (patch_api_node lower p node) as [[node' b]|e]; [|reflexivity].
    cbn [bind]. rewrite (IH l0 Hg).
    destruct (patch_api lower p r) as [[r' m]|e]; [|reflexivity].
    cbn [bind fst snd dict_set]. now rewrite Ek.
Qed.

Lemma set_set_workflow payload w a b :
  get_workflow payload = Ok (Some (VDict w)) ->
  set_workflow (set_workflow payload a) b = set_workflow payload b.
Proof.
  unfold get_workflow, set_workflow.
  destruct payload as [| | | | | |p]; try discriminate.
  destruct (dict_get "input" p) as [[| | | | | |i]|] eqn:Ei; try discriminate.
  intros _. rewrite dict_get_set_eq. now rewrite !dict_set_set.
Qed.

Lemma patch_api_list_back p w w' n k l :
  patch_api lower p w = Ok (w', n) ->
  (dict_get k w' = Some (VList l) <-> dict_get k w = Some (VList l)).
Proof.
  intros H. pose proof (patch_api_get lower p w w' n k H) as G.
  destruct (dict_get k w) as [[| | | | | |node]|]; try (now rewrite G).
  destruct G as (node' & b & -> & _). split; discriminate.
Qed.

End PromptAgain.

(** X21.  The last prompt wins: patching a payload that was already
    patched gives the payload and the count that patching the original
    gives.  In particular, patching twice with the same prompt changes
    nothing the second time and reports the same count. *)
Theorem prompt_patch_last_wins (lower : string -> string)
    (payload payload1 : value) (p1 p2 : string) (n1 : nat) :
  patch_positive_prompt lower payload p1 = Ok (payload1, n1) ->
  patch_positive_prompt lower payload1 p2
  = patch_positive_prompt lower payload p2
  /\ patch_positive_prompt lower payload1 p1 = Ok (payload1, n1).
Proof.
  intros H.
  assert (G : forall p, patch_positive_prompt lower payload1 p
                        = patch_positive_prompt lower payload p).
  { intros p. unfold patch_positive_prompt in H.
    destruct (get_workflow payload) as [[[| | | | | |w]|]|e] eqn:Hw;
      try discriminate;
      try (cbn [bind] in H; injection H as <- _; reflexivity).
    cbn [bind] in H.
    destruct (patch_api lower p1 w) as [[wa1 na1]|e] eqn:Ea1; [|discriminate].
    cbn [bind fst snd] in H.
    pose proof (patch_api_again lower p1 p w wa1 na1 Ea1) as Hagain.
    assert (Hp2 : patch_positive_prompt lower payload p
                  = match patch_api lower p w with
                    | Ok (wa, na) =>
                        match dict_get "nodes" wa with
                        | Some (VList nodes) =>
                            front <- patch_frontend lower p nodes ;;
                            Ok (set_workflow payload
                                  (dict_set "nodes" (VList (fst front)) wa),
                                (na + snd front)%nat)
                        | _ => Ok (set_workflow payload wa, na)
                        end
                    | Raise e => Raise e
                    end).
    { unfold patch_positive_prompt. rewrite Hw. cbn [bind].
      now destruct (patch_api lower p w) as [[wa na]|e]. }
    rewrite Hp2. clear Hp2.
    destruct (dict_get "nodes" wa1) as [[| | | | |nodes|]|] eqn:En.
    6:{ (* the graph has a list of frontend nodes *)
      destruct (patch_frontend lower p1 nodes) as [[f1 m1]|e] eqn:Ef1;
        [|discriminate].
      cbn [bind fst snd] in H. injection H as <- _.
      unfold patch_positive_prompt.
      rewrite (get_set_workflow payload w _ Hw). cbn [bind].
      rewrite (patch_api_set_list lower p "nodes" f1 wa1 nodes En), Hagain.
      destruct (patch_api lower p w) as [[wa na]|e] eqn:Ea; [|reflexivity].
      cbn [bind fst snd]. rewrite dict_get_set_eq.
      rewrite (patch_frontend_again lower p1 p nodes f1 m1 Ef1).
      assert (Hn : dict_get "nodes" wa = Some (VList nodes)).
      { apply (patch_api_list_back lower p w wa na "nodes" nodes Ea).
        now apply (patch_api_list_back lower p1 w wa1 na1 "nodes" nodes Ea1). }
      rewrite Hn.
      destruct (patch_frontend lower p nodes) as [[f m]|e]; [|reflexivity].
      cbn [bind fst snd].
      now rewrite (set_set_workflow payload w _ _ Hw), dict_set_set. }
    all: injection H as <- _; unfold patch_positive_prompt;
      rewrite (get_set_workflow payload w _ Hw); cbn [bind]; rewrite Hagain;
      destruct (patch_api lower p w) as [[wa na]|e] eqn:Ea; [|reflexivity];
      cbn [bind fst snd];
      (destruct (dict_get "nodes" wa) as [[| | | | |nodes|]|] eqn:En2;
       try (now rewrite (set_set_workflow payload w _ _ Hw)));
      apply (patch_api_list_back lower p w wa na "nodes" nodes Ea) in En2;
      apply (patch_api_list_back lower p1 w wa1 na1 "nodes" nodes Ea1) in En2;
      congruence. }
  split; [apply G | now rewrite G].
Qed.

Lemma prompt_patch_last_wins_witness :
  patch_positive_prompt PromptInputs.ascii_lower
    (Inputs.wrap
       [("6", PromptInputs.encode_node "CLIP Text Encode (Positive Prompt)"
                "a dog");
        ("7", PromptInputs.encode_node "CLIP Text Encode (Negative Prompt)"
                "blurry")])
    "a bird"
  = patch_positive_prompt PromptInputs.ascii_lower
      (Inputs.wrap PromptInputs.two_prompts) "a bird"
  /\ patch_positive_prompt PromptInputs.ascii_lower
       (Inputs.wrap
          [("6", PromptInputs.encode_node "CLIP Text Encode (Positive Prompt)"
                   "a dog");
           ("7", PromptInputs.encode_node "CLIP Text Encode (Negative Prompt)"
                   "blurry")])
       "a dog"
     = Ok (Inputs.wrap
             [("6", PromptInputs.encode_node
                      "CLIP Text Encode (Positive Prompt)" "a dog");
              ("7", PromptInputs.encode_node
                      "CLIP Text Encode (Negative Prompt)" "blurry")],
           1%nat).
Proof.
  apply (prompt_patch_last_wins PromptInputs.ascii_lower
           (Inputs.wrap PromptInputs.two_prompts) _ "a dog" "a bird" 1).
  reflexivity.
Defined.

Section PromptReach.

Variable lower : string -> string.

Lemma patch_api_count p : forall (w w' : dict) n k node node',
  patch_api lower p w = Ok (w', n) ->
  dict_get k w = Some (VDict node) ->
  patch_api_node lower p node = Ok (node', true) ->
  (1 <= n)%nat.
Proof.
  induction w as [|[k0 v0] r IH]; intros w' n k node node' H Hg Hn;
    [discriminate|].
  cbn [dict_get] in Hg. destruct (String.eqb k k0).
  - injection Hg as ->. cbn [patch_api] in H. rewrite Hn in H.
    cbn [bind fst snd] in H.
    destruct (patch_api lower p r) as [[r' m]|e]; [|discriminate].
    injection H as _ <-. lia.
  - cbn [patch_api] in H.
    destruct v0 as [| | | | | |node0];
      try (destruct (patch_api lower p r) as [[r' m]|e] eqn:Er;
           [|discriminate]; injection H as _ <-;
           exact (IH r' m k node node' eq_refl Hg Hn)).
    destruct (patch_api_node lower p node0) as [[n0 b0]|e]; [|discriminate].
    cbn [bind] in H.
    destruct (patch_api lower p r) as [[r' m]|e] eqn:Er; [|discriminate].
    injection H as _ <-.
    pose proof (IH r' m k node node' eq_refl Hg Hn). cbn [snd]. lia.
Qed.

(** What a successful call makes of an entry that is a mapping. *)
Lemma prompt_patch_get payload payload' p (w : dict) n k node :
  get_workflow payload = Ok (Some (VDict w)) ->
  patch_positive_prompt lower payload p = Ok (payload', n) ->
  dict_get k w = Some (VDict node) ->
  exists w' node' b,
    get_workflow payload' = Ok (Some (VDict w'))
    /\ dict_get k w' = Some (VDict node')
    /\ patch_api_node lower p node = Ok (node', b)
    /\ (b = true -> (1 <= n)%nat).
Proof.
  intros Hw H Hg. unfold patch_positive_prompt in H. rewrite Hw in H.
  cbn [bind] in H.
  destruct (patch_api lower p w) as [[w1 n1]|e] eqn:Ea; [|discriminate].
  cbn [bind fst snd] in H.
  pose proof (patch_api_get lower p w w1 n1 k Ea) as G. rewrite Hg in G.
  destruct G as (node' & b & G1 & G2).
  assert (Hc : b = true -> (1 <= n1)%nat).
  { intros ->. exact (patch_api_count p w w1 n1 k node node' Ea Hg G2). }
  destruct (dict_get "nodes" w1) as [[| | | | |nodes|]|] eqn:En;
    try (injection H as <- <-; exists w1, node', b;
         split; [eapply get_set_workflow; exact Hw | now repeat split]).
  destruct (patch_frontend lower p nodes) as [[f m]|e]; [|discriminate].
  injection H as <- <-.
  exists (dict_set "nodes" (VList f) w1), node', b.
  split; [eapply get_set_workflow; exact Hw|]. split.
  - destruct (string_dec "nodes" k) as [<-|Hne]; [congruence|].
    now rewrite dict_get_set_neq.
  - split; [exact G2|]. intros Hb. specialize (Hc Hb). cbn [snd]. lia.
Qed.

End PromptReach.

(** X22.  After a successful call, a node of the graph whose class is
    CLIPTextEncode, whose [_meta.title] lowercased contains "positive" and
    whose inputs mapping has the key [text] holds the prompt as its text,
    and the count is at least 1; a node whose class is not CLIPTextEncode
    is exactly as it was. *)
Theorem prompt_reaches_positive_nodes (lower : string -> string)
    (payload payload' : value) (prompt : string) (w : dict) (n : nat)
    (k : string) (node : dict) :
  get_workflow payload = Ok (Some (VDict w)) ->
  patch_positive_prompt lower payload prompt = Ok (payload', n) ->
  dict_get k w = Some (VDict node) ->
  exists w' : dict,
    get_workflow payload' = Ok (Some (VDict w'))
    /\ (get_or_none "class_type" node <> VStr "CLIPTextEncode" ->
        dict_get k w' = Some (VDict node))
    /\ (forall meta title inputs,
          get_or_none "class_type" node = VStr "CLIPTextEncode" ->
          dict_get "_meta" node = Some (VDict meta) ->
          dict_get "title" meta = Some (VStr title) ->
          title <> EmptyString ->
          Str.contains "positive" (lower title) = true ->
          dict_get "inputs" node = Some (VDict inputs) ->
          dict_mem "text" inputs = true ->
          exists node' inputs',
            node_inputs k w' = Some (node', inputs')
            /\ dict_get "text" inputs' = Some (VStr prompt)
            /\ (1 <= n)%nat).
Proof.
  intros Hw H Hg.
  destruct (prompt_patch_get lower payload payload' prompt w n k node Hw H Hg)
    as (w' & node' & b & Hw' & Hg' & Hn & Hb).
  exists w'. split; [exact Hw'|]. split.
  - intros Hc. unfold patch_api_node in Hn.
    destruct (differs _ _) eqn:Ed.
    + injection Hn as <- _. exact Hg'.
    + apply differs_false in Ed. contradiction.
  - intros meta title inputs Hc Hm Ht Hne Hpos Hi Htext.
    unfold patch_api_node in Hn. rewrite Hc in Hn. cbn [differs] in Hn.
    rewrite String.eqb_refl in Hn. cbn [negb] in Hn.
    unfold get_or_none, or_empty_dict in Hn. rewrite Hm in Hn.
    assert (Htr : truthy (VDict meta) = true).
    { destruct meta; [discriminate Ht | reflexivity]. }
    rewrite Htr in Hn. cbn [bind] in Hn.
    unfold lowered_title, get_or_none in Hn. rewrite Ht in Hn.
    assert (Hts : truthy (VStr title) = true).
    { destruct title; [contradiction | reflexivity]. }
    rewrite Hts in Hn. cbn [bind] in Hn. rewrite Hpos, Hi in Hn.
    cbn [has_text bind] in Hn. rewrite Htext in Hn.
    injection Hn as <- <-.
    exists (dict_set "inputs" (VDict (dict_set "text" (VStr prompt) inputs))
              node),
      (dict_set "text" (VStr prompt) inputs).
    split.
    + unfold node_inputs. rewrite Hg'. now rewrite dict_get_set_eq.
    + split; [apply dict_get_set_eq | now apply Hb].
Qed.

Lemma prompt_reaches_positive_nodes_witness :
  exists w' : dict,
    get_workflow
      (Inputs.wrap
         [("6", PromptInputs.encode_node "CLIP Text Encode (Positive Prompt)"
                  "a dog");
          ("7", PromptInputs.encode_node "CLIP Text Encode (Negative Prompt)"
                  "blurry")])
    = Ok (Some (VDict w'))
    /\ exists node' inputs',
         node_inputs "6" w' = Some (node', inputs')
         /\ dict_get "text" inputs' = Some (VStr "a dog")
         /\ (1 <= 1)%nat.
Proof.
  destruct (prompt_reaches_positive_nodes PromptInputs.ascii_lower
              (Inputs.wrap PromptInputs.two_prompts)
              (Inputs.wrap
                 [("6", PromptInputs.encode_node
                          "CLIP Text Encode (Positive Prompt)" "a dog");
                  ("7", PromptInputs.encode_node
                          "CLIP Text Encode (Negative Prompt)" "blurry")])
              "a dog" PromptInputs.two_prompts 1 "6"
              [("class_type", VStr "CLIPTextEncode");
               ("_meta", VDict [("title", VStr "CLIP Text Encode (Positive Prompt)")]);
               ("inputs", VDict [("text", VStr "a cat");
                                 ("clip", VList [VStr "4"; VInt 1])])]
              eq_refl eq_refl eq_refl) as (w' & Hw' & _ & Hpos).
  exists w'. split; [exact Hw'|].
  apply (Hpos [("title", VStr "CLIP Text Encode (Positive Prompt)")]
           "CLIP Text Encode (Positive Prompt)"
           [("text", VStr "a cat"); ("clip", VList [VStr "4"; VInt 1])]);
    try reflexivity.
  discriminate.
Defined.

(** ** Input and output images *)

Lemma setdefault_get (k : string) (v : value) (d : dict) :
  dict_get k (setdefault k v d)
  = Some (match dict_get k d with Some x => x | None => v end).
Proof.
  unfold setdefault. destruct (dict_get k d) eqn:E; [exact E|].
  apply dict_get_set_eq.
Qed.

Lemma setdefault_get_other (k k' : string) (v : value) (d : dict) :
  k' <> k -> dict_get k' (setdefault k v d) = dict_get k' d.
Proof.
  intros H. unfold setdefault. destruct (dict_get k d); [reflexivity|].
  apply dict_get_set_neq. congruence.
Qed.

Lemma attach_keeps_workflow (payload payload' : value)
    (image : option (string * string)) (name : value) :
  attach_input_image payload image name = inl payload' ->
  get_workflow payload' = get_workflow payload.
Proof.
  unfold attach_input_image.
  destruct payload as [| | | | | |p]; try discriminate.
  rewrite setdefault_get.
  destruct (dict_get "input" p) as [v|] eqn:Ei.
  - destruct v as [| | | | | |i]; try discriminate.
    rewrite setdefault_get.
    destruct (match dict_get "images" i with
              | Some x => x
              | None => VList []
              end) as [| | | | |l|]; try discriminate.
    destruct image as [[ext b64]|]; try discriminate.
    intros [= <-]. unfold get_workflow. rewrite dict_get_set_eq, Ei.
    rewrite dict_get_set_neq by discriminate.
    now rewrite setdefault_get_other by discriminate.
  - cbn [setdefault dict_get].
    destruct image as [[ext b64]|]; try discriminate.
    intros [= <-]. unfold get_workflow. now rewrite dict_get_set_eq, Ei.
Qed.

(** X23.  Attaching an input image leaves the workflow as it was and
    adds exactly one entry, after the images the payload already
    carried, which keep their order; the entry holds the given name and
    the data URI of the file. *)
Theorem attach_appends_image (payload payload' : value)
    (image : option (string * string)) (name : value) :
  attach_input_image payload image name = inl payload' ->
  get_workflow payload' = get_workflow payload
  /\ exists ext b64,
       image = Some (ext, b64)
       /\ images_of payload'
          = Some (match images_of payload with
                  | Some l => l
                  | None => []
                  end
                  ++ [VDict [("name", name);
                             ("image",
                              VStr (encode_image_data_uri ext b64))]]).
Proof.
  intros H. split; [exact (attach_keeps_workflow _ _ _ _ H)|]. revert H.
  unfold attach_input_image.
  destruct payload as [| | | | | |p]; try discriminate.
  rewrite setdefault_get.
  destruct (dict_get "input" p) as [v|] eqn:Ei.
  - destruct v as [| | | | | |i]; try discriminate.
    rewrite setdefault_get.
    destruct (dict_get "images" i) as [x|] eqn:Em.
    + destruct x as [| | | | |l|]; try discriminate.
      destruct image as [[ext b64]|]; try discriminate.
      intros [= <-]. exists ext, b64. split; [reflexivity|].
      unfold images_of. now rewrite !dict_get_set_eq, Ei, Em.
    + destruct image as [[ext b64]|]; try discriminate.
      intros [= <-]. exists ext, b64. split; [reflexivity|].
      unfold images_of. now rewrite !dict_get_set_eq, Ei, Em.
  - cbn [setdefault dict_get].
    destruct image as [[ext b64]|]; try discriminate.
    intros [= <-]. exists ext, b64. split; [reflexivity|].
    unfold images_of. now rewrite dict_get_set_eq, Ei.
Qed.

Lemma attach_appends_image_witness :
  get_workflow ImageInputs.with_two_images
  = get_workflow ImageInputs.with_one_image
  /\ exists ext b64,
       Some (".jpg", "BBBB") = Some (ext, b64)
       /\ images_of ImageInputs.with_two_images
          = Some (match images_of ImageInputs.with_one_image with
                  | Some l => l
                  | None => []
                  end
                  ++ [VDict [("name", VStr "b.jpg");
                             ("image",
                              VStr (encode_image_data_uri ext b64))]]).
Proof.
  apply (attach_appends_image ImageInputs.with_one_image
           ImageInputs.with_two_images (Some (".jpg", "BBBB"))
           (VStr "b.jpg")).
  reflexivity.
Defined.

Lemma after_comma_data_uri (ext b64 : string) :
  Str.contains "," (encode_image_data_uri ext b64) = true
  /\ after_comma (encode_image_data_uri ext b64) = b64.
Proof.
  unfold encode_image_data_uri.
  destruct (String.eqb ext ".jpg" || String.eqb ext ".jpeg")%bool;
    (split; [|reflexivity]); apply contains_substring.
  - now exists "data:image/jpeg;base64", b64.
  - now exists "data:image/png;base64", b64.
Qed.

(** X24.  Round trip of the data URI: an image whose data is the text
    [encode_image_data_uri] builds is stored by [save_images] with the
    prefix taken off, that is, as the base64 text that went in, whatever
    that text is (commas included). *)
Theorem data_uri_round_trip (L : Builtins) (lower : string -> string)
    (store : value -> value -> bool) (i : nat) (d : dict)
    (name ext b64 : string) :
  lower "base64" <> "s3_url" ->
  dict_get "type" d = None ->
  dict_get "filename" d = Some (VStr name) ->
  name <> EmptyString ->
  dict_get "data" d = Some (VStr (encode_image_data_uri ext b64)) ->
  store (VStr name) (VStr b64) = true ->
  save_item L lower store i (VDict d)
  = ([Stored (VStr name) (VStr b64)], None).
Proof.
  intros Hl Ht Hf Hn Hd Hs.
  destruct (after_comma_data_uri ext b64) as [Hc Ha].
  assert (Hn' : truthy (VStr name) = true)
    by (destruct name; [contradiction | reflexivity]).
  assert (Hne : truthy (VStr (encode_image_data_uri ext b64)) = true).
  { unfold encode_image_data_uri.
    now destruct (String.eqb ext ".jpg" || String.eqb ext ".jpeg")%bool. }
  apply String.eqb_neq in Hl.
  unfold save_item, get_or_none. rewrite Ht, Hf, Hd, Hn', Hne.
  cbn [truthy]. rewrite Hl. cbn [has_comma]. now rewrite Hc, Ha, Hs.
Qed.

Lemma data_uri_round_trip_witness :
  save_item Demo.builtins PromptInputs.ascii_lower (fun _ _ => true) 1
    (VDict [("filename", VStr "out.png");
            ("data", VStr (encode_image_data_uri ".png" "iVBOR,w0KGgo="))])
  = ([Stored (VStr "out.png") (VStr "iVBOR,w0KGgo=")], None).
Proof.
  apply (data_uri_round_trip Demo.builtins PromptInputs.ascii_lower
           (fun _ _ => true) 1
           [("filename", VStr "out.png");
            ("data", VStr (encode_image_data_uri ".png" "iVBOR,w0KGgo="))]
           "out.png" ".png" "iVBOR,w0KGgo=");
    try reflexivity; discriminate.
Defined.

Section SaveFacts.

Variable L : Builtins.
Variable lower : string -> string.
Variable store : value -> value -> bool.

Lemma save_item_shape (i : nat) (item : value) :
  (exists e, save_item L lower store i item = ([], Some e))
  \/ (exists ev, save_item L lower store i item = ([ev], None)).
Proof.
  unfold save_item. destruct item as [| | | | | |d]; try (left; now eexists).
  destruct (if truthy (get_or_none "type" d)
            then match get_or_none "type" d with
                 | VStr s => Ok (lower s)
                 | _ => Raise AttributeError
                 end
            else Ok (lower "base64")) as [typ|e];
    [|left; now eexists].
  destruct (String.eqb typ "s3_url"); [right; now eexists|].
  destruct (has_comma _) as [[|]|e]; [| |left; now eexists].
  - destruct (if truthy (get_or_none "data" d) then get_or_none "data" d
              else VStr EmptyString); try (left; now eexists).
    destruct (store _ _); [right|left]; now eexists.
  - destruct (store _ _); [right|left]; now eexists.
Qed.

Lemma save_from_stops (before : list value) : forall i events bad e after,
  save_from L lower store i before = (events, None) ->
  snd (save_item L lower store (i + length before) bad) = Some e ->
  save_from L lower store i (before ++ bad :: after) = (events, Some e).
Proof.
  induction before as [|x before IH]; intros i events bad e after Hb Hbad.
  - injection Hb as <-. cbn [app save_from length] in *.
    rewrite Nat.add_0_r in Hbad.
    destruct (save_item_shape i bad) as [[e' H]|[ev H]];
      rewrite H in *; cbn [snd] in Hbad; congruence.
  - cbn [app save_from length] in *.
    destruct (save_item_shape i x) as [[e' H]|[ev H]]; rewrite H in *;
      [discriminate|].
    destruct (save_from L lower store (S i) before) as [evs o] eqn:E.
    cbn [fst snd] in Hb. injection Hb as <- ->.
    rewrite (IH (S i) evs bad e after E);
      [reflexivity|].
    now rewrite Nat.add_succ_comm.
Qed.

Lemma save_from_count (images : list value) : forall i events,
  save_from L lower store i images = (events, None) ->
  length events = length images.
Proof.
  induction images as [|x images IH]; intros i events H.
  - now injection H as <-.
  - cbn [save_from] in H.
    destruct (save_item_shape i x) as [[e' Hx]|[ev Hx]]; rewrite Hx in H;
      [discriminate|].
    destruct (save_from L lower store (S i) images) as [evs o] eqn:E.
    cbn [fst snd] in H. injection H as <- ->.
    cbn [app length]. f_equal. now apply (IH (S i)).
Qed.

End SaveFacts.

(** X25.  [save_images] stops at the first image it cannot handle: the
    images before it are stored or reported as they would be without
    it, and nothing is done about the images after it, whatever they
    are. *)
Theorem save_stops_at_first_failure (L : Builtins)
    (lower : string -> string) (store : value -> value -> bool)
    (before after : list value) (bad : value)
    (events : list save_event) (e : save_error) :
  save_images L lower store before = (events, None) ->
  snd (save_item L lower store (1 + length before) bad) = Some e ->
  save_images L lower store (before ++ bad :: after) = (events, Some e).
Proof.
  unfold save_images. apply save_from_stops.
Qed.

Lemma save_stops_at_first_failure_witness :
  save_images Demo.builtins PromptInputs.ascii_lower (fun _ _ => true)
    ([VDict [("data", VStr "AAAA")]] ++ VDict [("data", VInt 7)]
     :: [VDict [("data", VStr "BBBB")]])
  = ([Stored (VStr "image_01.png") (VStr "AAAA")],
     Some (LoopRaised TypeError)).
Proof.
  apply (save_stops_at_first_failure Demo.builtins PromptInputs.ascii_lower
           (fun _ _ => true) [VDict [("data", VStr "AAAA")]]
           [VDict [("data", VStr "BBBB")]] (VDict [("data", VInt 7)]));
    reflexivity.
Defined.

(** X26.  When [save_images] ends without an error, every image of the
    list was dealt with, once and in order of the list: there are as
    many stored or reported images as there are images. *)
Theorem save_accounts_for_every_image (L : Builtins)
    (lower : string -> string) (store : value -> value -> bool)
    (images : list value) (events : list save_event) :
  save_images L lower store images = (events, None) ->
  length events = length images.
Proof.
  unfold save_images. apply save_from_count.
Qed.

Lemma save_accounts_for_every_image_witness :
  length [Stored (VStr "image_01.png") (VStr "AAAA");
          S3Printed "[S3] image_02.png -> https://bucket/x.png"]
  = length [VDict [("data", VStr "AAAA")];
            VDict [("type", VStr "S3_URL");
                   ("data", VStr "https://bucket/x.png")]].
Proof.
  apply (save_accounts_for_every_image Demo.builtins
           PromptInputs.ascii_lower (fun _ _ => true)).
  reflexivity.
Defined.

(** X27.  A result without images but with a message that is not
    blank is saved as one image, [output.png], whose data is the message
    with anything up to its first comma taken off. *)
Theorem legacy_message_saved (L : Builtins) (lower : string -> string)
    (store : value -> value -> bool) (r output : dict) (msg : string) :
  lower "base64" <> "s3_url" ->
  dict_get "output" r = Some (VDict output) ->
  dict_get "images" output = None ->
  dict_get "message" output = Some (VStr msg) ->
  Str.strip msg <> EmptyString ->
  let data := if Str.contains "," msg then after_comma msg else msg in
  store (VStr "output.png") (VStr data) = true ->
  exists images,
    extract_images_from_result (VDict r) = Ok images
    /\ save_images L lower store images
       = ([Stored (VStr "output.png") (VStr data)], None).
Proof.
  intros Hl Ho Hi Hm Hs data Hst.
  assert (Hmsg : msg <> EmptyString) by (intros ->; now apply Hs).
  assert (Hout : output <> []) by (intros ->; discriminate).
  exists [legacy_image msg]. split.
  - unfold extract_images_from_result, get_or_none. rewrite Ho.
    unfold or_empty_dict. cbn [truthy].
    destruct output as [|e o]; [contradiction|]. cbn [bind].
    rewrite Hi, Hm. now destruct (Str.strip msg).
  - apply String.eqb_neq in Hl.
    unfold save_images, save_from, save_item, legacy_image.
    cbn [get_or_none dict_get String.eqb Ascii.eqb Bool.eqb truthy
         Str.is_empty negb].
    destruct msg as [|c m]; [contradiction|].
    cbn [String.eqb negb has_comma]. rewrite Hl. subst data.
    destruct (Str.contains "," (String c m)); now rewrite Hst.
Qed.

Lemma legacy_message_saved_witness :
  exists images,
    extract_images_from_result
      (VDict [("status", VStr "COMPLETED");
              ("output", VDict [("message", VStr "data:image/png;base64,AAAA")])])
    = Ok images
    /\ save_images Demo.builtins PromptInputs.ascii_lower (fun _ _ => true)
         images
       = ([Stored (VStr "output.png") (VStr "AAAA")], None).
Proof.
  apply (legacy_message_saved Demo.builtins PromptInputs.ascii_lower
           (fun _ _ => true)
           [("status", VStr "COMPLETED");
            ("output", VDict [("message", VStr "data:image/png;base64,AAAA")])]
           [("message", VStr "data:image/png;base64,AAAA")]
           "data:image/png;base64,AAAA");
    try reflexivity; discriminate.
Defined.

(** ** The program from its start *)

(** A payload the sanitizer has nothing to say about stays so when its
    graph keeps its shape, or, where it has no graph, stays as it is. *)
Lemma accepted_transfer (payload payload' : value) :
  sanitize_workflow payload = Ok (payload, []) ->
  (forall w : dict, get_workflow payload = Ok (Some (VDict w)) ->
     exists w' : dict,
       get_workflow payload' = Ok (Some (VDict w')) /\ same_shape w w') ->
  (is_dict (match get_workflow payload with
            | Ok (Some v) => v
            | _ => VNone
            end) = false ->
   get_workflow payload' = get_workflow payload) ->
  sanitize_workflow payload' = Ok (payload', []).
Proof.
  intros Hs Hd Hn.
  destruct (get_workflow payload) as [[[| | | | | |w]|]|e] eqn:Hw;
    try (specialize (Hn eq_refl); unfold sanitize_workflow in *;
         rewrite Hn; rewrite Hw in Hs; simpl in *;
         first [discriminate Hs | reflexivity]).
  destruct (sanitized_is_clean payload payload w [] Hw Hs) as (w1 & Hw1 & Hc).
  rewrite Hw in Hw1. injection Hw1 as <-.
  destruct (Hd w eq_refl) as (w' & Hw' & Hsh).
  apply (sanitize_clean payload' w' Hw').
  now apply (same_shape_clean w w').
Qed.

Section EntryFacts.

Variable L : Builtins.
Variable R : Remote.
Variable lower : string -> string.
Variable E : Entry.Env.

Lemma accepted_sanitized (payload0 payload : value) (removed : list string) :
  sanitize_workflow payload0 = Ok (payload, removed) ->
  sanitize_workflow payload = Ok (payload, []).
Proof.
  intros Hs.
  destruct (get_workflow payload0) as [[[| | | | | |w]|]|e] eqn:Hw;
    try (unfold sanitize_workflow in Hs; rewrite Hw in Hs; simpl in Hs;
         first [discriminate Hs
               | injection Hs as <- <-;
                 unfold sanitize_workflow; now rewrite Hw]).
  destruct (sanitized_is_clean payload0 payload w removed Hw Hs)
    as (w' & Hw' & Hc).
  now apply (sanitize_clean payload w').
Qed.

Lemma accepted_prompted (payload payload' : value) (p : string) (n : nat) :
  sanitize_workflow payload = Ok (payload, []) ->
  patch_positive_prompt lower payload p = Ok (payload', n) ->
  sanitize_workflow payload' = Ok (payload', []).
Proof.
  intros Hs Hp. apply (accepted_transfer payload payload' Hs).
  - intros w Hw.
    destruct (prompt_patch_shape lower payload payload' p w n Hw Hp)
      as (w' & Hw' & Hsh).
    now exists w'.
  - unfold patch_positive_prompt in Hp.
    destruct (get_workflow payload) as [[[| | | | | |w]|]|e] eqn:Hw;
      intros Hd; simpl in Hp, Hd; try discriminate;
      injection Hp as <- _; exact Hw.
Qed.

Lemma accepted_fallbacks (payload payload' : value) (issues : list Issue)
    (patched missing : list string) :
  sanitize_workflow payload = Ok (payload, []) ->
  apply_validation_fallbacks L payload issues
  = Ok (payload', patched, missing) ->
  sanitize_workflow payload' = Ok (payload', []).
Proof.
  intros Hs Ha. apply (accepted_transfer payload payload' Hs).
  - intros w Hw.
    destruct (patcher_frame_shape L payload payload' w issues patched missing
                Hw Ha) as (w' & Hw' & Hsh).
    now exists w'.
  - unfold apply_validation_fallbacks in Ha.
    destruct (get_workflow payload) as [[[| | | | | |w]|]|e] eqn:Hw;
      intros Hd; simpl in Ha, Hd; try discriminate;
      injection Ha as <- _ _; exact Hw.
Qed.

Lemma accepted_attached (payload payload' : value)
    (image : option (string * string)) (name : value) :
  sanitize_workflow payload = Ok (payload, []) ->
  attach_input_image payload image name = inl payload' ->
  sanitize_workflow payload' = Ok (payload', []).
Proof.
  intros Hs Ha.
  pose proof (attach_keeps_workflow payload payload' image name Ha) as Hg.
  apply (accepted_transfer payload payload' Hs).
  - intros w Hw. exists w. split; [congruence | apply same_shape_refl].
  - intros _. exact Hg.
Qed.

Lemma prepare_accepted (a : Entry.Args) (log : list string)
    (payload : value) :
  Entry.prepare lower E a = (log, inl payload) ->
  sanitize_workflow payload = Ok (payload, []).
Proof.
  unfold Entry.prepare.
  destruct (negb _); [discriminate|].
  destruct (load_payload _ _ _) as [loaded|[msg|msg|]]; try discriminate.
  destruct (sanitize_workflow loaded) as [[sanitized removed]|e] eqn:Hs;
    [|destruct e; discriminate].
  apply accepted_sanitized in Hs.
  destruct (Str.is_empty (Entry.prompt a)).
  - destruct (Entry.given (Entry.input_image a)).
    + destruct (attach_input_image _ _ _) as [attached|[|]] eqn:Ha;
        try discriminate.
      intros [= _ <-]. exact (accepted_attached _ _ _ _ Hs Ha).
    + now intros [= _ <-].
  - destruct (patch_positive_prompt lower sanitized (Entry.prompt a))
      as [[prompted n]|e] eqn:Hp; cbn [bind fst snd]; [|discriminate].
    pose proof (accepted_prompted _ _ _ _ Hs Hp) as Hs'.
    destruct (Entry.given (Entry.input_image a)).
    + destruct (attach_input_image _ _ _) as [attached|[|]] eqn:Ha;
        try discriminate.
      intros [= _ <-]. exact (accepted_attached _ _ _ _ Hs' Ha).
    + now intros [= _ <-].
Qed.

End EntryFacts.

(** X28.  Every payload the program submits, the first and the one of
    the retry, is one its own sanitizer accepts with nothing to remove:
    neither the prompt patcher, nor the attached image, nor the repair
    of the validation issues brings back what the sanitizer took out. *)
Theorem submitted_payloads_accepted (L : Builtins) (R : Remote)
    (lower : string -> string) (E : Entry.Env) (fuel : nat)
    (a : Entry.Args) (k : nat) (m : string) (p : value) :
  In (k, m, p)
     (submissions (fst (Entry.main_from_start L R lower E fuel a))) ->
  sanitize_workflow p = Ok (p, []).
Proof.
  unfold Entry.main_from_start.
  destruct (Entry.prepare lower E a) as [log [payload|s]] eqn:Hp;
    cbn [fst]; [|rewrite prints_submissions; intros []].
  rewrite submissions_app, prints_submissions. cbn [app].
  pose proof (prepare_accepted lower E a log payload Hp) as Hacc.
  destruct (main_submissions L R fuel payload (Entry.mode a)
              (Entry.wait_ms a) (Entry.max_wait_s a)
              (Entry.result_json E (Entry.outdir a)))
    as [(pl' & Hr & ->)|(_ & ->)].
  - intros [[= _ _ <-]|[[= _ _ <-]|[]]]; [exact Hacc|].
    destruct Hr as (t1 & r1 & st & err & patched & missing
                    & _ & _ & _ & _ & _ & Ha & _).
    exact (accepted_fallbacks L payload pl' _ patched missing Hacc Ha).
  - intros [[= _ _ <-]|[]]. exact Hacc.
Qed.

Lemma submitted_payloads_accepted_witness :
  sanitize_workflow EntryInputs.submitted = Ok (EntryInputs.submitted, []).
Proof.
  apply (submitted_payloads_accepted Demo.builtins Cases.prompt_remote
           PromptInputs.ascii_lower EntryInputs.env 5 EntryInputs.args
           0 "runsync" EntryInputs.submitted).
  vm_compute. left. reflexivity.
Defined.

(** X29.  Without both credentials, without a workflow file, or with a
    workflow file that is not JSON, the program ends with [SystemExit]
    and a message, before it has printed or submitted anything; it does
    not end with an exception nothing catches. *)
Theorem unusable_workflow_exits (L : Builtins) (R : Remote)
    (lower : string -> string) (E : Entry.Env) (fuel : nat)
    (a : Entry.Args) :
  Entry.given (Entry.api_key E) = false
  \/ Entry.given (Entry.endpoint_id E) = false
  \/ Entry.path_exists E (Entry.workflow_path E a) = false
  \/ (exists exc,
        Entry.json_loads E (Entry.read_text E (Entry.workflow_path E a))
        = inr exc) ->
  exists msg,
    Entry.main_from_start L R lower E fuel a = ([], Entry.Stopped (Entry.Exits msg)).
Proof.
  intros H. unfold Entry.main_from_start, Entry.prepare.
  destruct (Entry.given (Entry.api_key E)) eqn:Hk;
    [|now eexists].
  destruct (Entry.given (Entry.endpoint_id E)) eqn:He;
    [|now eexists].
  cbn [andb negb].
  destruct (Entry.path_exists E (Entry.workflow_path E a)) eqn:Hx;
    [|now eexists].
  destruct H as [H|[H|[H|[exc H]]]]; try discriminate.
  unfold load_payload. rewrite H.
  pose proof (first_line_defined
                (Entry.read_text E (Entry.workflow_path E a))) as Hfl.
  destruct (first_line _); [now eexists | contradiction].
Qed.

Lemma unusable_workflow_exits_witness :
  exists msg,
    Entry.main_from_start Demo.builtins Cases.prompt_remote
      PromptInputs.ascii_lower EntryInputs.env_without_file 5
      EntryInputs.args
    = ([], Entry.Stopped (Entry.Exits msg)).
Proof.
  apply (unusable_workflow_exits Demo.builtins Cases.prompt_remote
           PromptInputs.ascii_lower EntryInputs.env_without_file 5
           EntryInputs.args).
  right. right. left. reflexivity.
Defined.
